(** * Startup Village PDF generator: layout engine

    A shallow embedding of the pagination and layout code of the
    inspection-report generator, and the properties of it that the
    specification states.

    Conventions of the embedding.
    - A JavaScript string is the list of its UTF-16 code units
      ([jstring]); [js] turns a literal into one.
    - A JavaScript number is a rational ([Q]): every quantity the layout
      code computes is a sum, difference, product or quotient of page
      coordinates, and [Math.floor] is [Qfloor].
    - A PDF page is its size and the list of drawing operations made on
      it, and a document is the list of its pages; the mutable cursor
      [pos] and the [currentPage] variable of the source are threaded
      explicitly.
    - What the code takes from pdf-lib or from the network (font metrics,
      [breakTextIntoLines], the default page size, the HTTP exchange) is a
      parameter of the definitions that use it. *)

From Stdlib Require Import List ZArith NArith QArith Qround Qminmax Lia Lqa String Ascii Bool.
From stdpp Require Import base gmap strings pretty.
Import ListNotations.

Open Scope Q_scope.

(* ================================================================== *)
(** * Part I. The embedding                                            *)
(* ================================================================== *)

(** ** JavaScript values *)

Abbreviation jstring := (list N).

Definition js (s : string) : jstring :=
  List.map N_of_ascii (list_ascii_of_string s).

(** The code unit of the space character. *)
Definition SP : N := 32%N.

(** Truthiness of a string: the empty string is falsy. *)
Definition truthy (s : jstring) : bool :=
  match s with [] => false | _ :: _ => true end.

(** [a > b] on numbers. *)
Definition Qgtb (a b : Q) : bool := negb (Qle_bool a b).

(** [a < b] on numbers. *)
Definition Qltb (a b : Q) : bool := negb (Qle_bool b a).

(** A font, as far as layout is concerned: [widthOfTextAtSize]. *)
Record Font : Type := { widthOfTextAtSize : jstring -> Q -> Q }.

(** ** generate-complete-report.js: text utilities *)

Module Text.

(** [/[\r\n]/] *)
Definition isLineBreak (c : N) : bool := ((c =? 13) || (c =? 10))%N.

(** [/\s/]: the white space and line terminator code units. *)
Definition isWhiteSpace (c : N) : bool :=
  (((9 <=? c) && (c <=? 13)) || (c =? 32) || (c =? 160) || (c =? 5760)
   || ((8192 <=? c) && (c <=? 8202)) || (c =? 8232) || (c =? 8233)
   || (c =? 8239) || (c =? 8287) || (c =? 12288) || (c =? 65279))%N.

(** [/[\x20-\x7E]/] *)
Definition isPrintable (c : N) : bool := ((32 <=? c) && (c <=? 126))%N.

(** [s.replace(/[p]+/g, " ")]: every maximal run of code units in the
    class [p] becomes one space.  [inRun] says that the previous code
    unit belonged to the run being replaced. *)
Fixpoint replaceRuns (p : N -> bool) (inRun : bool) (s : jstring) : jstring :=
  match s with
  | [] => []
  | c :: r =>
      if p c
      then (if inRun then replaceRuns p true r else SP :: replaceRuns p true r)
      else c :: replaceRuns p false r
  end.

(** [s.replace(/[^p]/g, "")] *)
Definition removeUnless (p : N -> bool) (s : jstring) : jstring :=
  List.filter p s.

Fixpoint trimStart (s : jstring) : jstring :=
  match s with
  | [] => []
  | c :: r => if isWhiteSpace c then trimStart r else s
  end.

(** [s.trim()] *)
Definition trim (s : jstring) : jstring :=
  List.rev (trimStart (List.rev (trimStart s))).

Definition sanitizeText (text : jstring) : jstring :=
  if negb (truthy text) then []
  else trim (removeUnless isPrintable
               (replaceRuns isWhiteSpace false
                  (replaceRuns isLineBreak false text))).

(** [s.split(sep)] for a one-unit separator: never empty, [""] gives
    [[""]]. *)
Fixpoint split (sep : N) (s : jstring) : list jstring :=
  match s with
  | [] => [[]]
  | c :: r =>
      if (c =? sep)%N then [] :: split sep r
      else match split sep r with
           | w :: ws => (c :: w) :: ws
           | [] => [[c]]
           end
  end.

(** One iteration of [for (const word of words)], on the state of the
    loop: the lines pushed so far and [currentLine]. *)
Definition wrapStep (font : Font) (fontSize maxWidth : Q)
    (st : list jstring * jstring) (word : jstring)
    : list jstring * jstring :=
  let '(lines, currentLine) := st in
  let testLine :=
    if truthy currentLine then currentLine ++ SP :: word else word in
  let width := widthOfTextAtSize font testLine fontSize in
  if Qgtb width maxWidth && truthy currentLine
  then (lines ++ [currentLine], word)
  else (lines, testLine).

Definition wrapWords (font : Font) (fontSize maxWidth : Q)
    (words : list jstring) : list jstring :=
  let '(lines, currentLine) :=
    List.fold_left (wrapStep font fontSize maxWidth) words ([], []) in
  if truthy currentLine then lines ++ [currentLine] else lines.

Definition wrapText (text : jstring) (font : Font) (fontSize maxWidth : Q)
    : list jstring :=
  let cleanText := sanitizeText text in
  let words := split SP cleanText in
  wrapWords font fontSize maxWidth words.

(** The words of a list of lines, empty ones left out. *)
Definition wordsOf (lines : list jstring) : list jstring :=
  List.filter truthy (List.flat_map (split SP) lines).

(** [P] holds of every two consecutive lines. *)
Fixpoint adjacentLines (P : jstring -> jstring -> Prop)
    (lines : list jstring) : Prop :=
  match lines with
  | l1 :: rest =>
      match rest with
      | l2 :: _ => P l1 l2 /\ adjacentLines P rest
      | [] => True
      end
  | [] => True
  end.

(** A line fits the width, or is one of the words and wider than the
    width. *)
Definition fitsOrSingleWord (font : Font) (fontSize maxWidth : Q)
    (words : list jstring) (line : jstring) : Prop :=
  widthOfTextAtSize font line fontSize <= maxWidth
  \/ (In line words /\ ~ In SP line
      /\ maxWidth < widthOfTextAtSize font line fontSize).

(** The line [l2] starts with a word that did not fit at the end of
    the line [l1]. *)
Definition breaksAt (font : Font) (fontSize maxWidth : Q)
    (words : list jstring) (l1 l2 : jstring) : Prop :=
  exists w r, In w words /\ l2 = w ++ r
    /\ maxWidth < widthOfTextAtSize font (l1 ++ SP :: w) fontSize.

(** The current line of the loop starts with a word that did not fit
    at the end of the last line pushed. *)
Definition brokenAfter (font : Font) (fontSize maxWidth : Q)
    (words lines : list jstring) (cur : jstring) : Prop :=
  match last lines with
  | Some l => breaksAt font fontSize maxWidth words l cur
  | None => True
  end.

Definition isPrintableAscii (c : N) : Prop := (32 <= c <= 126)%N.

End Text.

(** ** The input tree *)

Record Photo : Type := {
  photo_url : option jstring;
  photo_caption : option jstring
}.

Record Video : Type := { video_url : option jstring }.

Record Comment : Type := {
  label : option jstring;
  content : option jstring;
  text : option jstring;
  commentText : option jstring;
  location : option jstring;
  tag : option jstring;
  recommendation : option jstring;
  commentNumber : option nat;
  selectedOptions : option (list jstring);
  photos : option (list Photo);
  videos : option (list Video)
}.

Record LineItem : Type := {
  id : jstring;
  name : option jstring;
  title : option jstring;
  inspectionStatus : option jstring;
  isDeficient : bool;
  itemOptions : option (list jstring);
  comments : option (list Comment)
}.

Record Section : Type := {
  sectionName : jstring;
  order : Z;
  sectionNumber : option jstring;
  lineItems : option (list LineItem)
}.

Record Inspection : Type := { sections : option (list Section) }.

(** [a || b] on optional strings: the first truthy one. *)
Definition orElse (a : option jstring) (b : jstring) : jstring :=
  match a with
  | Some s => if truthy s then s else b
  | None => b
  end.

(** [a || b] where [b] ends up in a template string or a concatenation:
    an absent [b] reads "undefined". *)
Definition orShown (a b : option jstring) : jstring :=
  orElse a (match b with Some s => s | None => js "undefined" end).

(** [arr && arr.length > 0] (also [Array.isArray(arr) ? arr : []]): the
    elements of an optional array. *)
Definition elements {A : Type} (arr : option (list A)) : list A :=
  match arr with Some l => l | None => [] end.

(** ** Pages and drawing operations

    A page records what was drawn on it, in order.  Colours and border
    widths are left out: no layout decision reads them. *)

Inductive FontName : Type :=
| TimesRoman
| TimesRomanBold
| TimesRomanItalic
| HelveticaBold.

Record Image : Type := { img_width : positive; img_height : positive }.

Inductive DrawOp : Type :=
| DrawText (s : jstring) (x y size : Q) (font : FontName)
| DrawRectangle (x y width height : Q)
| DrawLine (x1 y1 x2 y2 : Q)
| DrawCircle (x y size : Q)
| DrawImage (img : Image) (x y width height : Q)
| CheckBox (field : jstring) (x y size : Q) (checked : bool)
| LinkAnnotation (url : jstring) (x1 y1 x2 y2 : Q).

Record Page : Type := mkPage {
  page_width : Q;
  page_height : Q;
  page_ops : list DrawOp
}.

(** What the code takes from pdf-lib: the size of the page that
    [addPage()] creates, the metrics of the standard fonts,
    [breakTextIntoLines(text, [' '], maxWidth, widthFn)], the two image
    decoders, which give nothing when they throw, and the strings that
    the standard fonts can encode.  A drawing call is taken to succeed,
    except in a [try] block of the source: there [drawText] throws on a
    string that cannot be encoded. *)
Record PdfLib : Type := {
  pageWidth : Q;
  pageHeight : Q;
  fontOf : FontName -> Font;
  breakTextIntoLines : jstring -> Q -> (jstring -> Q) -> list jstring;
  embedPng : list N -> option Image;
  embedJpg : list N -> option Image;
  encodes : jstring -> bool
}.

(** [doc.addPage()] creates an empty page of the default size. *)
Definition newPage (lib : PdfLib) (ops : list DrawOp) : Page :=
  mkPage (pageWidth lib) (pageHeight lib) ops.

(** The layout state of the generatePdf variants: the pages of [doc],
    the cursor [pos.y] and the index in [doc] of [currentPage]. *)
Record St : Type := mkSt {
  doc : list Page;
  pos : Q;
  currentPage : nat
}.

(** [page.draw...(...)] on the page of index [i]. *)
Definition drawOn (op : DrawOp) (p : Page) : Page :=
  mkPage (page_width p) (page_height p) (page_ops p ++ [op]).

Definition drawOnPage (i : nat) (op : DrawOp) (d : list Page) : list Page :=
  alter (drawOn op) i d.

(** A drawing call on [currentPage]. *)
Definition draw (op : DrawOp) (s : St) : St :=
  mkSt (drawOnPage (currentPage s) op (doc s)) (pos s) (currentPage s).

(** [pos.y -= h] *)
Definition advance (h : Q) (s : St) : St :=
  mkSt (doc s) (pos s - h) (currentPage s).

(** [Math.floor], [Math.round] *)
Definition floor (q : Q) : Q := inject_Z (Qfloor q).
Definition round (q : Q) : Q := inject_Z (Qfloor (q + (1 # 2))).

(** Decimal representation of a natural number. *)
Definition natToString (n : nat) : jstring := js (pretty n).

(** ** Promises, exceptions and the network *)

(** The outcome of an [async] function or of a [try] block: a value, or
    an exception. *)
Inductive Promise (A : Type) : Type :=
| Resolved (a : A)
| Rejected (error : jstring).
Arguments Resolved {A} a.
Arguments Rejected {A} error.

Definition bind {A B : Type} (p : Promise A) (k : A -> Promise B) : Promise B :=
  match p with
  | Resolved a => k a
  | Rejected e => Rejected e
  end.

(** [try { body } catch (e) { handler }] *)
Definition tryCatch {A : Type} (body : Promise A) (handler : jstring -> Promise A)
    : Promise A :=
  match body with
  | Resolved a => Resolved a
  | Rejected e => handler e
  end.

(** A decoder call that throws when the bytes are not an image. *)
Definition decode (r : option Image) : Promise Image :=
  match r with
  | Some img => Resolved img
  | None => Rejected (js "not an image")
  end.

(** What an HTTP GET comes to: [client.get] throws, the request emits
    ['error'] (a connection failure, or the time-out destroying the
    request), or the response ends with a status code and a body. *)
Inductive HttpOutcome : Type :=
| GetThrows
| RequestError
| Response (statusCode : Z) (body : list N).

(** What the code takes from its host: the network, the report header
    pages built by create-header-page.js (none when that throws or gives
    no bytes), the header line made of the address and the date, and
    what [createCoverPage] draws on the cover. *)
Record World : Type := {
  httpGet : jstring -> HttpOutcome;
  buildTrecHeaderPdf : Inspection -> option (list Page);
  headerTextOf : Inspection -> jstring;
  coverOps : Inspection -> list DrawOp
}.

(** [s.toLowerCase()], on the ASCII letters. *)
Definition toLowerCase (s : jstring) : jstring :=
  List.map (fun c => if ((65 <=? c) && (c <=? 90))%N then (c + 32)%N else c) s.

(** [s.endsWith(suffix)] *)
Definition endsWith (s suffix : jstring) : bool :=
  (List.length suffix <=? List.length s)%nat
  && bool_decide (List.skipn (List.length s - List.length suffix) s = suffix).

(** [s.startsWith(prefix)] *)
Definition startsWith (s prefix : jstring) : bool :=
  bool_decide (List.firstn (List.length prefix) s = prefix).

(** ** intToRoman *)

Definition romans : list (nat * jstring) :=
  [ (1000%nat, js "M"); (900%nat, js "CM"); (500%nat, js "D"); (400%nat, js "CD");
    (100%nat, js "C"); (90%nat, js "XC"); (50%nat, js "L"); (40%nat, js "XL");
    (10%nat, js "X"); (9%nat, js "IX"); (5%nat, js "V"); (4%nat, js "IV");
    (1%nat, js "I") ].

(** [while (n >= val) { res += sym; n -= val }]; every [val] is at
    least 1, so [n] iterations are enough. *)
Fixpoint romanWhile (fuel n val : nat) (sym res : jstring) : nat * jstring :=
  match fuel with
  | O => (n, res)
  | S fuel' =>
      if (val <=? n)%nat
      then romanWhile fuel' (n - val) val sym (res ++ sym)
      else (n, res)
  end.

Definition intToRoman (num : nat) : jstring :=
  if (num <=? 0)%nat then []
  else snd (List.fold_left
              (fun '(n, res) '(val, sym) => romanWhile n n val sym res)
              romans (num, [])).

(** [Math.max(...xs)] of a non-empty array. *)
Definition maxOf (xs : list Q) : Q :=
  match xs with
  | [] => 0
  | x :: rest => List.fold_left Qmax rest x
  end.

(** The values of [i] at the iterations of
    [let i = 0; while (i < n) { ...; i += step }]. *)
Fixpoint whileIndices (fuel i step n : nat) : list nat :=
  match fuel with
  | O => []
  | S fuel' =>
      if (i <? n)%nat then i :: whileIndices fuel' (i + step) step n else []
  end.

(** [arr.slice(i, j)] *)
Definition slice {A : Type} (i j : nat) (arr : list A) : list A :=
  List.firstn (j - i) (List.skipn i arr).

(** The name of a check box field is [lineItem.<id>.<type>]; this is
    its part before the type. *)
Definition checkBoxPrefix (lineItem : LineItem) : jstring :=
  (js "lineItem." ++ id lineItem) ++ js ".".

(** ** generatePdf.js (the variant with the report header pages) *)

Module GeneratePdf.

Definition lineItemContentStartX : Q := 130.
Definition CHECKBOX_SIZE : Q := 14.
Definition CHECKBOX_COUNT : Q := 4.
Definition CHECKBOX_MIN_SPACING : Q := 6.
Definition CHECKBOX_MAX_SPACING : Q := 14.
Definition MINIMUM_SPACE_NEEDED : Q := 50.
Definition FOOTER_BUFFER : Q := 100.
Definition ROW_SPACING_DEFAULT : Q := 24.
Definition GRID_COLUMNS_DEFAULT : nat := 3.
Definition GRID_GUTTER : Q := 12.
Definition GRID_MAX_CELL_HEIGHT : Q := 240.
Definition RIGHT_MARGIN : Q := 20.

Definition checkboxTypes : list jstring := [js "I"; js "NI"; js "NP"; js "D"].

Definition getCheckboxXs (pageWidth margin : Q) : list Q :=
  let available := Qmax 40 (lineItemContentStartX - margin - 10) in
  let spacing :=
    floor ((available - CHECKBOX_COUNT * CHECKBOX_SIZE) / (CHECKBOX_COUNT - 1)) in
  let spacing := Qmin CHECKBOX_MAX_SPACING (Qmax CHECKBOX_MIN_SPACING spacing) in
  List.map (fun i => margin + inject_Z (Z.of_nat i) * (CHECKBOX_SIZE + spacing))
    (List.seq 0 4).

(** The operations [addPageTemplate] draws on a fresh page. *)
Definition pageTemplate (lib : PdfLib) (headerText : jstring) : list DrawOp :=
  let width := pageWidth lib in
  let height := pageHeight lib in
  let font := fontOf lib TimesRoman in
  let margin : Q := 20 in
  let boxY := height - 95 in
  let boxHeight : Q := 18 in
  let checkboxXs := getCheckboxXs width margin in
  let keysY := boxY + round ((boxHeight - 10) / 2) + 1 in
  [ DrawText (orElse (Some headerText) (js "Report Identification"))
      margin (height - 40) 12 TimesRoman;
    DrawText (js "I=Inspected    NI=Not Inspected    NP=Not Present    D=Deficient")
      margin (height - 60) 11 TimesRoman;
    DrawRectangle margin boxY (width - margin * 2) boxHeight ]
  ++ List.map (fun '(lbl, x) =>
                 let labelWidth := widthOfTextAtSize font lbl 10 in
                 DrawText lbl (x + CHECKBOX_SIZE / 2 - labelWidth / 2) keysY 10 TimesRoman)
       (List.combine checkboxTypes checkboxXs).

(** [addPageTemplate] returns the Y coordinate where content starts. *)
Definition contentStartY (lib : PdfLib) : Q := pageHeight lib - 120.

Definition checkAndCreateNewPage (lib : PdfLib) (headerText : jstring)
    (forceNewPage : bool) (s : St) : St :=
  if forceNewPage || Qltb (pos s) MINIMUM_SPACE_NEEDED
  then mkSt (doc s ++ [newPage lib (pageTemplate lib headerText)])
            (contentStartY lib)
            (List.length (doc s))
  else s.

Definition ensureSpace (lib : PdfLib) (headerText : jstring)
    (neededHeight : Q) (s : St) : St :=
  if Qltb (pos s - neededHeight) FOOTER_BUFFER
  then checkAndCreateNewPage lib headerText true s
  else s.

(** The cursor after each call of a sequence of [ensureSpace] calls,
    the caller drawing the block it asked room for after each of
    them ([pos.y -= neededHeight]). *)
Fixpoint ensureSpaceTrace (lib : PdfLib) (headerText : jstring)
    (needs : list Q) (s : St) : list (Q * St) :=
  match needs with
  | [] => []
  | n :: rest =>
      let s' := ensureSpace lib headerText n s in
      (n, s') :: ensureSpaceTrace lib headerText rest (advance n s')
  end.

(** The height a block can have on an empty page. *)
Definition usableHeight (lib : PdfLib) : Q :=
  contentStartY lib - FOOTER_BUFFER.

Definition alpha (index : nat) : jstring :=
  [(65 + N.of_nat (index mod 26))%N].

Definition addLineHeaderForLineItem (lineItem : LineItem) (height : Q)
    (index : nat) (s : St) : St :=
  let t := alpha index ++ js ". " ++ orShown (title lineItem) (name lineItem) in
  draw (DrawText t lineItemContentStartX height 12 TimesRoman) s.

(** [isChecked] for the check box of type [type]. *)
Definition isChecked (lineItem : LineItem) (type : jstring) : bool :=
  if isDeficient lineItem && bool_decide (type = js "D") then true
  else if negb (isDeficient lineItem)
          && bool_decide (Some type = inspectionStatus lineItem) then true
  else false.

Definition checkBoxFieldName (lineItem : LineItem) (type : jstring) : jstring :=
  checkBoxPrefix lineItem ++ type.

Definition addCheckBoxToLineItem (lib : PdfLib) (lineItem : LineItem)
    (margin y : Q) (s : St) : St :=
  let xs := getCheckboxXs (pageWidth lib) margin in
  List.fold_left
    (fun s '(type, x) =>
       draw (CheckBox (checkBoxFieldName lineItem type) x y CHECKBOX_SIZE
               (isChecked lineItem type)) s)
    (List.combine checkboxTypes xs) s.

Definition addCommentsTitleToLineItem (height : Q) (s : St) : St :=
  draw (DrawText (js "Comments: ") lineItemContentStartX height 10 TimesRomanItalic) s.

(** [fetchAndEmbedImage]: a promise that is resolved on every path. *)
Definition fetchAndEmbedImage (lib : PdfLib) (world : World)
    (url : option jstring) : Promise (option Image) :=
  tryCatch
    match url with
    | None => Rejected (js "TypeError")
    | Some url =>
        match httpGet world url with
        | GetThrows => Rejected (js "get")
        | RequestError => Resolved None
        | Response statusCode body =>
            if ((statusCode <? 200) || (300 <=? statusCode))%Z
            then Resolved None
            else
              tryCatch
                (let lower := toLowerCase url in
                 if endsWith lower (js ".png")
                 then bind (decode (embedPng lib body)) (fun img => Resolved (Some img))
                 else if endsWith lower (js ".jpg") || endsWith lower (js ".jpeg")
                 then bind (decode (embedJpg lib body)) (fun img => Resolved (Some img))
                 else
                   tryCatch
                     (bind (decode (embedJpg lib body)) (fun img => Resolved (Some img)))
                     (fun e1 =>
                        tryCatch
                          (bind (decode (embedPng lib body))
                             (fun img => Resolved (Some img)))
                          (fun e2 => Resolved None)))
                (fun err => Resolved None)
        end
    end
    (fun _ => Resolved None).

(** An image that was fetched and decoded, with its caption. *)
Record Embedded : Type := { emb_img : Image; emb_caption : jstring }.

(** An image of a row with its scaled size. *)
Record Scaled : Type := {
  sc_img : Image;
  sc_w : Q;
  sc_h : Q;
  sc_caption : jstring
}.

(** The loop that embeds the photos of a comment: a photo whose fetch
    gives no image, or throws, is left out. *)
Definition embedPhotos (lib : PdfLib) (world : World) (photos : list Photo)
    : list Embedded :=
  List.flat_map
    (fun p =>
       match fetchAndEmbedImage lib world (photo_url p) with
       | Resolved (Some img) =>
           [ {| emb_img := img; emb_caption := orElse (photo_caption p) [] |} ]
       | Resolved None => []
       | Rejected _ => []
       end) photos.

Definition imgW (img : Image) : Q := inject_Z (Z.pos (img_width img)).
Definition imgH (img : Image) : Q := inject_Z (Z.pos (img_height img)).

Definition gridColumns (n : nat) : nat := Nat.min GRID_COLUMNS_DEFAULT n.

Definition gridCellWidth (availW : Q) (columns : nat) : Q :=
  let c := inject_Z (Z.of_nat columns) in
  floor ((availW - (c - 1) * GRID_GUTTER) / c).

Definition scaleFactor (cellW : Q) (img : Image) : Q :=
  Qmin (Qmin (cellW / imgW img) (GRID_MAX_CELL_HEIGHT / imgH img)) 1.

Definition scaleItem (cellW : Q) (item : Embedded) : Scaled :=
  let s := scaleFactor cellW (emb_img item) in
  {| sc_img := emb_img item;
     sc_w := floor (imgW (emb_img item) * s);
     sc_h := floor (imgH (emb_img item) * s);
     sc_caption := emb_caption item |}.

Definition captionHeight (scaled : list Scaled) : Q :=
  if List.existsb (fun it => truthy (sc_caption it)) scaled then 12 else 0.

Definition rowHeight (scaled : list Scaled) : Q :=
  maxOf (List.map sc_h scaled) + captionHeight scaled.

Definition cellX (cellW : Q) (c : nat) : Q :=
  lineItemContentStartX + inject_Z (Z.of_nat c) * (cellW + GRID_GUTTER).

Definition imageX (cellW : Q) (c : nat) (it : Scaled) : Q :=
  cellX cellW c + floor ((cellW - sc_w it) / 2).

(** The rows of the grid: the values of [embedded.slice(i, i + columns)]
    at the iterations of [while (i < embedded.length)]. *)
Definition gridRows (embedded : list Embedded) : list (list Embedded) :=
  let n := List.length embedded in
  let columns := gridColumns n in
  List.map (fun i => slice i (i + columns) embedded)
    (whileIndices n 0 columns n).

(** The body of the [while] loop of the grid, for the row [row]. *)
Definition drawRow (lib : PdfLib) (headerText : jstring) (cellW : Q)
    (s : St) (row : list Embedded) : St :=
  let scaled := List.map (scaleItem cellW) row in
  let rh := rowHeight scaled in
  let s := ensureSpace lib headerText (rh + ROW_SPACING_DEFAULT) s in
  let s :=
    List.fold_left
      (fun s '(c, it) =>
         let xCell := cellX cellW c in
         let xImg := imageX cellW c it in
         let yTop := pos s in
         let yImg := yTop - sc_h it in
         let s := draw (DrawImage (sc_img it) xImg yImg (sc_w it) (sc_h it)) s in
         if truthy (sc_caption it)
         then draw (DrawText (sc_caption it) xCell (yImg - 10) 9 TimesRomanItalic) s
         else s)
      (List.combine (List.seq 0 (List.length scaled)) scaled) s in
  advance (rh + ROW_SPACING_DEFAULT) s.

(** The width of [currentPage]; every page the layout draws on was
    created by [addPage()]. *)
Definition currentWidth (lib : PdfLib) (s : St) : Q :=
  match doc s !! currentPage s with
  | Some p => page_width p
  | None => pageWidth lib
  end.

Definition drawPhotoGrid (lib : PdfLib) (headerText : jstring)
    (embedded : list Embedded) (s : St) : St :=
  match embedded with
  | [] => s
  | _ :: _ =>
      let columns := gridColumns (List.length embedded) in
      let availW := currentWidth lib s - lineItemContentStartX - RIGHT_MARGIN in
      let cellW := gridCellWidth availW columns in
      List.fold_left (drawRow lib headerText cellW) (gridRows embedded) s
  end.

Definition drawWrapped (lib : PdfLib) (headerText : jstring)
    (text : jstring) (x maxWidth size lineH : Q) (useFont : FontName)
    (s : St) : St :=
  if negb (truthy text) then s
  else
    let widthFn := fun t => widthOfTextAtSize (fontOf lib useFont) t size in
    let lines := breakTextIntoLines lib text maxWidth widthFn in
    List.fold_left
      (fun s line =>
         let s := ensureSpace lib headerText lineH s in
         let s := draw (DrawText line x (pos s) size useFont) s in
         advance lineH s)
      lines s.

Definition commentBody (comment : Comment) : jstring :=
  orElse (content comment) (orElse (text comment) (orElse (commentText comment) [])).

Definition addCommentsToLineItem (lib : PdfLib) (world : World)
    (headerText : jstring) (comment : Comment) (commentIndex : nat)
    (s : St) : St :=
  let SEPARATOR_GAP : Q := 10 in
  let LINE_THICKNESS : Q := 1 in
  let pageWidth := currentWidth lib s in
  let lineStartX := lineItemContentStartX in
  let lineWidth := pageWidth - lineStartX - RIGHT_MARGIN in
  let labelText :=
    natToString (commentIndex + 1) ++ js ". " ++ orElse (label comment) [] in
  let s := ensureSpace lib headerText 12 s in
  let s := draw (DrawText labelText lineItemContentStartX (pos s) 10 TimesRomanBold) s in
  let s := advance 12 s in
  let body := commentBody comment in
  let contentWidth := currentWidth lib s - lineItemContentStartX - 20 in
  let s := drawWrapped lib headerText body lineItemContentStartX contentWidth
             10 12 TimesRoman s in
  let photos := elements (photos comment) in
  let s :=
    match photos with
    | [] => s
    | _ :: _ => drawPhotoGrid lib headerText (embedPhotos lib world photos) s
    end in
  let s := advance SEPARATOR_GAP s in
  let s := ensureSpace lib headerText LINE_THICKNESS s in
  let s := draw (DrawRectangle lineStartX (pos s) lineWidth LINE_THICKNESS) s in
  advance SEPARATOR_GAP s.

Definition defaultComment (l c : string) : Comment :=
  {| label := Some (js l); content := Some (js c); text := None;
     commentText := None; location := None; tag := None;
     recommendation := None; commentNumber := None;
     selectedOptions := None; photos := None; videos := None |}.

Definition defaultComments : list Comment :=
  [ defaultComment "General Observation"
      "No specific issues or concerns were observed during the inspection of this item.";
    defaultComment "Maintenance Note"
      "Regular maintenance and periodic inspection is recommended to ensure optimal performance and longevity." ].

(** [lineItem?.comments?.length > 0 ? lineItem.comments : defaultComments] *)
Definition commentsToUse (lineItem : LineItem) : list Comment :=
  match comments lineItem with
  | Some (c :: cs) => c :: cs
  | _ => defaultComments
  end.

(** A loop [for (const [index, x] of xs.entries())]. *)
Definition forEntries {A : Type} (body : St -> nat -> A -> St)
    (xs : list A) (s : St) : St :=
  List.fold_left (fun s '(index, x) => body s index x)
    (List.combine (List.seq 0 (List.length xs)) xs) s.

Definition renderComment (lib : PdfLib) (world : World) (headerText : jstring)
    (s : St) (commentIndex : nat) (comment : Comment) : St :=
  let s := addCommentsToLineItem lib world headerText comment commentIndex s in
  let hasPhotos :=
    match elements (photos comment) with [] => false | _ :: _ => true end in
  advance (if hasPhotos then 10 else 0) s.

Definition renderLineItem (lib : PdfLib) (world : World) (headerText : jstring)
    (margin : Q) (s : St) (index : nat) (lineItem : LineItem) : St :=
  let s := ensureSpace lib headerText 70 s in
  let s := addCheckBoxToLineItem lib lineItem margin (pos s) s in
  let s := addLineHeaderForLineItem lineItem (pos s + 7) index s in
  let s := advance 5 s in
  let s := ensureSpace lib headerText 32 s in
  let s := addCommentsTitleToLineItem (pos s) s in
  let s := advance 12 s in
  let s := forEntries (renderComment lib world headerText) (commentsToUse lineItem) s in
  advance 10 s.

Definition renderSection (lib : PdfLib) (world : World) (headerText : jstring)
    (margin width : Q) (s : St) (sectionIdx : nat) (section : Section) : St :=
  let font := fontOf lib TimesRoman in
  let s := ensureSpace lib headerText 40 s in
  let s :=
    draw (DrawText (intToRoman (sectionIdx + 1) ++ js " " ++ sectionName section)
            (width / 2 - widthOfTextAtSize font (sectionName section) 12 / 2)
            (pos s) 12 TimesRoman) s in
  let s := advance 30 s in
  let s := forEntries (renderLineItem lib world headerText margin)
             (elements (lineItems section)) s in
  advance 20 s.

(** The footer pass over all the pages of the document. *)
Definition addFooters (lib : PdfLib) (pages : list Page) : list Page :=
  let totalPages := List.length pages in
  let footerFont := fontOf lib TimesRoman in
  List.map
    (fun '(i, page) =>
       let width := page_width page in
       let pageText :=
         js "Page " ++ natToString (i + 1) ++ js " of " ++ natToString totalPages in
       let footerTextLeft :=
         js "Promulgated by the Texas Real Estate Commission - (512) 936-3000 - " in
       let footerTextRight := js "www.trec.texas.gov" in
       let leftTextWidth := widthOfTextAtSize footerFont footerTextLeft 9 in
       let rightTextWidth := widthOfTextAtSize footerFont footerTextRight 9 in
       let totalFooterWidth := leftTextWidth + rightTextWidth in
       let startX := width / 2 - totalFooterWidth / 2 in
       List.fold_left (fun p op => drawOn op p)
         [ DrawText pageText
             (width / 2 - widthOfTextAtSize footerFont pageText 12 / 2) 35 12 TimesRoman;
           DrawText (js "REI 7-6 (8/9/2021)") 40 20 9 TimesRoman;
           DrawText footerTextLeft startX 20 9 TimesRoman;
           DrawText footerTextRight (startX + leftTextWidth) 20 9 TimesRoman ]
         page)
    (List.combine (List.seq 0 totalPages) pages).

(** The reply of the HTTP handler. *)
Inductive Reply : Type :=
| Json (status : Z) (ok : bool) (message : jstring).

(** [createPdf] gives the pages of the file it writes. *)
Definition createPdf (lib : PdfLib) (world : World)
    (inspection : Inspection) : Promise (list Page) :=
  let sections := elements (sections inspection) in
  let headerText := headerTextOf world inspection in
  let headerPages := elements (buildTrecHeaderPdf world inspection) in
  let pdfDoc := headerPages in
  let page := List.length pdfDoc in
  let pdfDoc := pdfDoc ++ [newPage lib (pageTemplate lib headerText)] in
  let width := pageWidth lib in
  let s := mkSt pdfDoc (contentStartY lib) page in
  let margin : Q := 20 in
  let s := forEntries (renderSection lib world headerText margin width) sections s in
  Resolved (addFooters lib (doc s)).

(** [generatePdf]: the file written, if any, and the reply. *)
Definition generatePdf (lib : PdfLib) (world : World)
    (inspection : Inspection) : option (list Page) * Reply :=
  match createPdf lib world inspection with
  | Resolved finalPdf => (Some finalPdf, Json 200 true (js "pdf created successfully"))
  | Rejected _ => (None, Json 500 false (js "Failed to create PDF"))
  end.

End GeneratePdf.

(** ** The earlier generatePdf.js (no report header pages) *)

Module GeneratePdfLegacy.

Definition lineItemContentStartX : Q := 180.
Definition MINIMUM_SPACE_NEEDED : Q := 50.
Definition FOOTER_BUFFER : Q := 100.

Definition pageTemplate (lib : PdfLib) : list DrawOp :=
  let width := pageWidth lib in
  let height := pageHeight lib in
  let margin : Q := 20 in
  [ DrawText (js "Report Identification: 1234 Main Street Denton Texas 76201 - 09/30/2021")
      margin (height - 40) 12 TimesRoman;
    DrawText (js "I=Inspected    NI=Not Inspected    NP=Not Present    D=Deficient")
      margin (height - 60) 11 TimesRoman;
    DrawRectangle margin (height - 95) (width - margin * 2) 26;
    DrawText (js "I    NI    NP    D") (margin + 12) (height - 95 + 7) 10 TimesRoman ].

Definition contentStartY (lib : PdfLib) : Q := pageHeight lib - 120.

Definition checkAndCreateNewPage (lib : PdfLib) (s : St) : St :=
  if Qltb (pos s) MINIMUM_SPACE_NEEDED
  then mkSt (doc s ++ [newPage lib (pageTemplate lib)])
            (contentStartY lib) (List.length (doc s))
  else s.

Definition ensureSpace (lib : PdfLib) (neededHeight : Q) (s : St) : St :=
  if Qltb (pos s - neededHeight) FOOTER_BUFFER
  then checkAndCreateNewPage lib s
  else s.

Definition usableHeight (lib : PdfLib) : Q :=
  contentStartY lib - FOOTER_BUFFER.

Definition alpha (index : nat) : jstring :=
  [(65 + N.of_nat (index mod 26))%N].

Definition addLineHeaderForLineItem (lineItem : LineItem) (height : Q)
    (index : nat) (s : St) : St :=
  let t := alpha index ++ js ". " ++ orShown (title lineItem) (name lineItem) in
  draw (DrawText t lineItemContentStartX height 12 TimesRoman) s.

Definition checkboxTypes : list jstring := [js "I"; js "NI"; js "NP"; js "D"].

Definition isChecked (lineItem : LineItem) (type : jstring) : bool :=
  if isDeficient lineItem && bool_decide (type = js "D") then true
  else if negb (isDeficient lineItem)
          && bool_decide (Some type = inspectionStatus lineItem) then true
  else false.

Definition addCheckBoxToLineItem (lineItem : LineItem) (margin y : Q)
    (s : St) : St :=
  let boxSize : Q := 15 in
  let spacing : Q := 40 in
  List.fold_left
    (fun s '(type, index) =>
       draw (CheckBox (checkBoxPrefix lineItem ++ type)
               (margin + spacing * inject_Z (Z.of_nat index)) y boxSize
               (isChecked lineItem type)) s)
    (List.combine checkboxTypes (List.seq 0 4)) s.

Definition addCommentsTitleToLineItem (height : Q) (s : St) : St :=
  draw (DrawText (js "Comments: ") lineItemContentStartX height 10 TimesRomanItalic) s.

Definition drawWrapped (lib : PdfLib) (text : jstring)
    (x maxWidth size lineH : Q) (useFont : FontName) (s : St) : St :=
  if negb (truthy text) then s
  else
    let widthFn := fun t => widthOfTextAtSize (fontOf lib useFont) t size in
    let lines := breakTextIntoLines lib text maxWidth widthFn in
    List.fold_left
      (fun s line =>
         let s := ensureSpace lib lineH s in
         let s := draw (DrawText line x (pos s) size useFont) s in
         advance lineH s)
      lines s.

Definition cellX (cellW : Q) (c : nat) : Q :=
  lineItemContentStartX + inject_Z (Z.of_nat c) * (cellW + GeneratePdf.GRID_GUTTER).

(** The grid is the code of generatePdf.js, with the content column of
    this file and its [ensureSpace]. *)
Definition drawRow (lib : PdfLib) (cellW : Q) (s : St)
    (row : list GeneratePdf.Embedded) : St :=
  let scaled := List.map (GeneratePdf.scaleItem cellW) row in
  let rh := GeneratePdf.rowHeight scaled in
  let s := ensureSpace lib (rh + GeneratePdf.ROW_SPACING_DEFAULT) s in
  let s :=
    List.fold_left
      (fun s '(c, it) =>
         let xCell := cellX cellW c in
         let xImg := xCell + floor ((cellW - GeneratePdf.sc_w it) / 2) in
         let yTop := pos s in
         let yImg := yTop - GeneratePdf.sc_h it in
         let s := draw (DrawImage (GeneratePdf.sc_img it) xImg yImg
                          (GeneratePdf.sc_w it) (GeneratePdf.sc_h it)) s in
         if truthy (GeneratePdf.sc_caption it)
         then draw (DrawText (GeneratePdf.sc_caption it) xCell (yImg - 10) 9
                      TimesRomanItalic) s
         else s)
      (List.combine (List.seq 0 (List.length scaled)) scaled) s in
  advance (rh + GeneratePdf.ROW_SPACING_DEFAULT) s.

Definition drawPhotoGrid (lib : PdfLib) (embedded : list GeneratePdf.Embedded)
    (s : St) : St :=
  match embedded with
  | [] => s
  | _ :: _ =>
      let columns := GeneratePdf.gridColumns (List.length embedded) in
      let availW := GeneratePdf.currentWidth lib s - lineItemContentStartX
                    - GeneratePdf.RIGHT_MARGIN in
      let cellW := GeneratePdf.gridCellWidth availW columns in
      List.fold_left (drawRow lib cellW) (GeneratePdf.gridRows embedded) s
  end.

Definition addCommentsToLineItem (lib : PdfLib) (world : World)
    (comment : Comment) (commentIndex : nat) (s : St) : St :=
  let labelText :=
    natToString (commentIndex + 1) ++ js ". " ++ orElse (label comment) [] in
  let s := ensureSpace lib 12 s in
  let s := draw (DrawText labelText lineItemContentStartX (pos s) 10 TimesRomanBold) s in
  let s := advance 12 s in
  let body := GeneratePdf.commentBody comment in
  let contentWidth := GeneratePdf.currentWidth lib s - lineItemContentStartX - 20 in
  let s := drawWrapped lib body lineItemContentStartX contentWidth 10 12 TimesRoman s in
  let photos := elements (photos comment) in
  let s :=
    match photos with
    | [] => s
    | _ :: _ => drawPhotoGrid lib (GeneratePdf.embedPhotos lib world photos) s
    end in
  advance 8 s.

Definition defaultComments : list Comment :=
  [ GeneratePdf.defaultComment "General Observation"
      "No specific issues or concerns were observed during the inspection of this item.";
    GeneratePdf.defaultComment "Maintenance Note"
      "Regular maintenance and periodic inspection is recommended to ensure optimal performance and longevity." ].

Definition commentsToUse (lineItem : LineItem) : list Comment :=
  match comments lineItem with
  | Some (c :: cs) => c :: cs
  | _ => defaultComments
  end.

(** [Math.ceil(commentText.length / 60)] *)
Definition estimatedLines (commentText : jstring) : Q :=
  inject_Z (Qceiling (inject_Z (Z.of_nat (List.length commentText)) / 60)).

Definition renderComment (lib : PdfLib) (world : World)
    (s : St) (commentIndex : nat) (comment : Comment) : St :=
  let commentText := GeneratePdf.commentBody comment in
  let estimatedHeight := estimatedLines commentText * 12 + 20 in
  let s := ensureSpace lib (Qmax estimatedHeight 40) s in
  addCommentsToLineItem lib world comment commentIndex s.

Definition renderLineItem (lib : PdfLib) (world : World) (margin : Q)
    (s : St) (index : nat) (lineItem : LineItem) : St :=
  let s := ensureSpace lib 70 s in
  let s := addCheckBoxToLineItem lineItem margin (pos s) s in
  let s := addLineHeaderForLineItem lineItem (pos s + 7) index s in
  let s := advance 5 s in
  let s := ensureSpace lib 20 s in
  let s := addCommentsTitleToLineItem (pos s) s in
  let s := advance 12 s in
  let s := GeneratePdf.forEntries (renderComment lib world) (commentsToUse lineItem) s in
  advance 15 s.

Definition renderSection (lib : PdfLib) (world : World) (margin width : Q)
    (s : St) (sectionIdx : nat) (section : Section) : St :=
  let font := fontOf lib TimesRoman in
  let s := ensureSpace lib 40 s in
  let s :=
    draw (DrawText (intToRoman (sectionIdx + 1) ++ js " " ++ sectionName section)
            (width / 2 - widthOfTextAtSize font (sectionName section) 12 / 2)
            (pos s) 12 TimesRoman) s in
  let s := advance 30 s in
  let s := GeneratePdf.forEntries (renderLineItem lib world margin)
             (elements (lineItems section)) s in
  advance 20 s.

(** [createPdf], up to the footer pass: the pages of the body. *)
Definition layoutBody (lib : PdfLib) (world : World)
    (inspection : Inspection) : St :=
  let sections := elements (sections inspection) in
  let s := mkSt [newPage lib (pageTemplate lib)] (contentStartY lib) 0 in
  let margin : Q := 20 in
  GeneratePdf.forEntries (renderSection lib world margin (pageWidth lib)) sections s.

Definition createPdf (lib : PdfLib) (world : World)
    (inspection : Inspection) : Promise (list Page) :=
  Resolved (GeneratePdf.addFooters lib (doc (layoutBody lib world inspection))).

End GeneratePdfLegacy.

(** ** The synchronous generator of a single PDF for all sections *)

Module SyncGenerator.

Definition lineItemContentStartX : Q := 130.
Definition MINIMUM_SPACE_NEEDED : Q := 50.
Definition CHECKBOX_SIZE : Q := 14.
Definition FOOTER_BUFFER : Q := 100.
Definition RIGHT_MARGIN : Q := 20.

Definition pageTemplate (lib : PdfLib) : list DrawOp :=
  let width := pageWidth lib in
  let height := pageHeight lib in
  let font := fontOf lib TimesRoman in
  let margin : Q := 20 in
  let boxY := height - 95 in
  let boxHeight : Q := 26 in
  let xs := GeneratePdf.getCheckboxXs width margin in
  let keysSize : Q := 10 in
  let keysY := boxY + (boxHeight - keysSize) / 2 - 2 in
  [ DrawText (js "Report Identification: 1234 Main Street Denton Texas 76201 - 09/30/2021")
      margin (height - 40) 12 TimesRoman;
    DrawText (js "I=Inspected    NI=Not Inspected    NP=Not Present    D=Deficient")
      margin (height - 60) 11 TimesRoman;
    DrawRectangle margin boxY (width - margin * 2) boxHeight ]
  ++ List.map (fun '(lbl, x) =>
                 let labelWidth := widthOfTextAtSize font lbl keysSize in
                 DrawText lbl (x + CHECKBOX_SIZE / 2 - labelWidth / 2) keysY keysSize
                   TimesRoman)
       (List.combine GeneratePdf.checkboxTypes xs).

Definition contentStartY (lib : PdfLib) : Q := pageHeight lib - 120.

Definition checkAndCreateNewPage (lib : PdfLib) (forceNewPage : bool)
    (s : St) : St :=
  if forceNewPage || Qltb (pos s) MINIMUM_SPACE_NEEDED
  then mkSt (doc s ++ [newPage lib (pageTemplate lib)])
            (contentStartY lib) (List.length (doc s))
  else s.

(** [if (cond) currentPage = await checkAndCreateNewPage(...)] *)
Definition newPageIf (lib : PdfLib) (cond forceNewPage : bool) (s : St) : St :=
  if cond then checkAndCreateNewPage lib forceNewPage s else s.

(** How a [try] block ends: normally, or by an exception, in the
    state reached. *)
Inductive Outcome : Type :=
| Done (s : St)
| Thrown (s : St).

Definition fetchAndEmbedImage := GeneratePdf.fetchAndEmbedImage.

(** The [try] block of a photo, once the image is there. *)
Definition placePhoto (lib : PdfLib) (photo : Photo) (embeddedImage : Image)
    (s : St) : Outcome :=
  let maxWidth : Q := 400 in
  let maxHeight : Q := 300 in
  let width := GeneratePdf.imgW embeddedImage in
  let height := GeneratePdf.imgH embeddedImage in
  let '(width, height) :=
    if Qgtb width maxWidth
    then (maxWidth, height * (maxWidth / width))
    else (width, height) in
  let '(width, height) :=
    if Qgtb height maxHeight
    then (width * (maxHeight / height), maxHeight)
    else (width, height) in
  let caption := orElse (photo_caption photo) [] in
  let captionSpace : Q := if truthy caption then 15 else 0 in
  let bottomBuffer : Q := 20 in
  let availVert := pos s - FOOTER_BUFFER in
  let '(s, width, height) :=
    if Qgtb (height + captionSpace + bottomBuffer) availVert
    then
      let scaleDown := (availVert - captionSpace - bottomBuffer) / height in
      if Qle_bool scaleDown 0
      then (checkAndCreateNewPage lib true s, width, height)
      else (s, floor (width * scaleDown), Qmax 40 (floor (height * scaleDown)))
    else (s, width, height) in
  let s := newPageIf lib
             (Qltb (pos s - (height + captionSpace + bottomBuffer)) FOOTER_BUFFER)
             true s in
  if truthy caption && negb (encodes lib caption) then Thrown s
  else
    let s :=
      if truthy caption
      then advance captionSpace
             (draw (DrawText caption lineItemContentStartX (pos s) 9 TimesRomanItalic) s)
      else s in
    let s := newPageIf lib (Qltb (pos s - (height + bottomBuffer)) FOOTER_BUFFER)
               true s in
    let imageY := pos s - height in
    let s := draw (DrawImage embeddedImage lineItemContentStartX imageY width height) s in
    Done (mkSt (doc s) (imageY - bottomBuffer) (currentPage s)).

Definition errorNote (photo : Photo) : jstring :=
  js "[Error: Unable to embed image from "
  ++ match photo_url photo with Some u => u | None => js "undefined" end
  ++ js "]".

(** One iteration of [for (const photo of comment.photos)]: the [try]
    block and its [catch]. *)
Definition photoStep (lib : PdfLib) (world : World) (s : St) (photo : Photo)
    : Promise St :=
  let tried :=
    match fetchAndEmbedImage lib world (photo_url photo) with
    | Rejected _ => Thrown s
    | Resolved None => Done s
    | Resolved (Some embeddedImage) => placePhoto lib photo embeddedImage s
    end in
  match tried with
  | Done s => Resolved s
  | Thrown s =>
      if encodes lib (errorNote photo)
      then Resolved
             (advance 15
                (draw (DrawText (errorNote photo) lineItemContentStartX (pos s) 8
                         TimesRomanItalic) s))
      else Rejected (js "WinAnsi cannot encode")
  end.

(** A loop whose body can throw. *)
Definition forEachP {A : Type} (body : St -> A -> Promise St) (xs : list A)
    (s : St) : Promise St :=
  List.fold_left (fun acc x => bind acc (fun s => body s x)) xs (Resolved s).

Definition addCommentsToLineItem (lib : PdfLib) (world : World)
    (comment : Comment) (commentIndex : nat) (s : St) : Promise St :=
  let SEPARATOR_GAP : Q := 10 in
  let LINE_THICKNESS : Q := 1 in
  let labelText :=
    natToString (commentIndex + 1) ++ js ". " ++ orElse (label comment) [] in
  let commentText := GeneratePdf.commentBody comment in
  let s := newPageIf lib (Qltb (pos s) (MINIMUM_SPACE_NEEDED + 40)) false s in
  let pageWidth := GeneratePdf.currentWidth lib s in
  let lineStartX := lineItemContentStartX in
  let lineWidth := pageWidth - lineStartX - RIGHT_MARGIN in
  let s := draw (DrawText labelText lineItemContentStartX (pos s) 10 TimesRomanBold) s in
  let s := advance 12 s in
  let textWidth := fun t => widthOfTextAtSize (fontOf lib TimesRoman) t 10 in
  let lines := breakTextIntoLines lib commentText 400 textWidth in
  let s :=
    List.fold_left
      (fun s line =>
         let s := newPageIf lib (Qltb (pos s) (MINIMUM_SPACE_NEEDED + 12)) false s in
         let s := draw (DrawText line lineItemContentStartX (pos s) 10 TimesRoman) s in
         advance 12 s)
      lines s in
  let afterPhotos :=
    match elements (photos comment) with
    | [] => Resolved s
    | _ :: _ as photos =>
        let s := advance 20 s in
        let MIN_IMAGE_BLOCK : Q := 260 in
        let s := newPageIf lib (Qltb (pos s - MIN_IMAGE_BLOCK) FOOTER_BUFFER) true s in
        forEachP (photoStep lib world) photos s
    end in
  bind afterPhotos (fun s =>
    let s := advance SEPARATOR_GAP s in
    let s := newPageIf lib (Qltb (pos s) (MINIMUM_SPACE_NEEDED + LINE_THICKNESS)) false s in
    let s := draw (DrawRectangle lineStartX (pos s) lineWidth LINE_THICKNESS) s in
    Resolved (advance SEPARATOR_GAP s)).

Definition defaultComments : list Comment :=
  [ GeneratePdf.defaultComment "General Observation"
      "No specific issues or concerns were observed during the inspection of this item.";
    GeneratePdf.defaultComment "Maintenance Note"
      "Regular maintenance and periodic inspection is recommended to ensure optimal performance and longevity." ].

Definition commentsToUse (lineItem : LineItem) : list Comment :=
  match comments lineItem with
  | Some (c :: cs) => c :: cs
  | _ => defaultComments
  end.

Definition addCheckBoxToLineItem (lib : PdfLib) (lineItem : LineItem)
    (margin y : Q) (s : St) : St :=
  GeneratePdf.addCheckBoxToLineItem lib lineItem margin y s.

Definition renderComment (lib : PdfLib) (world : World)
    (s : St) (entry : nat * Comment) : Promise St :=
  let '(commentIndex, comment) := entry in
  let commentText := GeneratePdf.commentBody comment in
  let estimatedHeight := GeneratePdfLegacy.estimatedLines commentText * 12 + 20 in
  let s := newPageIf lib (Qltb (pos s) (estimatedHeight + MINIMUM_SPACE_NEEDED)) false s in
  addCommentsToLineItem lib world comment commentIndex s.

Definition entries {A : Type} (xs : list A) : list (nat * A) :=
  List.combine (List.seq 0 (List.length xs)) xs.

Definition renderLineItem (lib : PdfLib) (world : World) (margin : Q)
    (s : St) (entry : nat * LineItem) : Promise St :=
  let '(index, lineItem) := entry in
  let s := newPageIf lib (Qltb (pos s) (MINIMUM_SPACE_NEEDED + 60)) false s in
  let s := addCheckBoxToLineItem lib lineItem margin (pos s) s in
  let s := GeneratePdf.addLineHeaderForLineItem lineItem (pos s + 7) index s in
  let s := advance 5 s in
  let s := newPageIf lib (Qltb (pos s) (MINIMUM_SPACE_NEEDED + 20)) false s in
  let s := GeneratePdf.addCommentsTitleToLineItem (pos s) s in
  let s := advance 12 s in
  bind (forEachP (renderComment lib world) (entries (commentsToUse lineItem)) s)
       (fun s => Resolved (advance 15 s)).

(** [sectionPdfWorker]: the pages of the PDF it writes for a section. *)
Definition sectionPdfWorker (lib : PdfLib) (world : World) (section : Section)
    : Promise (list Page) :=
  let timesRomanFont := fontOf lib TimesRoman in
  let width := pageWidth lib in
  let height := pageHeight lib in
  let bodyFontSize : Q := 12 in
  let margin : Q := 20 in
  let firstPage :=
    drawOn (DrawText (intToRoman (Z.to_nat (order section + 1)) ++ js " "
                        ++ sectionName section)
              (width / 2
               - widthOfTextAtSize timesRomanFont (sectionName section) bodyFontSize / 2)
              (height - 120) bodyFontSize TimesRoman)
      (newPage lib (pageTemplate lib)) in
  let s := mkSt [firstPage] (height - 160) 0 in
  bind (forEachP (renderLineItem lib world margin)
          (entries (elements (lineItems section))) s)
       (fun s => Resolved (doc s)).

End SyncGenerator.

(** ** worker.js *)

Module Worker.

Definition checkboxTypes : list jstring := [js "I"; js "NI"; js "NP"; js "D"].

Definition isChecked (lineItem : LineItem) (type : jstring) : bool :=
  if isDeficient lineItem && bool_decide (type = js "D") then true
  else if negb (isDeficient lineItem)
          && bool_decide (Some type = inspectionStatus lineItem) then true
  else false.

(** The check boxes are drawn on the first page of the section
    document; [page] is that page. *)
Definition addCheckBoxToLineItem (lineItem : LineItem) (margin y : Q)
    (page : Page) : Page :=
  let boxSize : Q := 15 in
  let spacing : Q := 40 in
  List.fold_left
    (fun page '(type, index) =>
       drawOn (CheckBox (checkBoxPrefix lineItem ++ type)
                 (margin + spacing * inject_Z (Z.of_nat index)) y boxSize
                 (isChecked lineItem type)) page)
    (List.combine checkboxTypes (List.seq 0 4)) page.

End Worker.

(** The types of the check boxes that an operation list marks: the last
    component of the field name [lineItem.<id>.<type>] of every checked
    box. *)
Definition checkedBoxes (lineItem : LineItem) (ops : list DrawOp) : list jstring :=
  List.flat_map
    (fun op =>
       match op with
       | CheckBox field _ _ _ true =>
           List.skipn (List.length (checkBoxPrefix lineItem)) field :: []
       | _ => []
       end) ops.

(** The two comments that the generatePdf variants give to a line item
    without comments. *)
Definition generalObservation : Comment :=
  GeneratePdf.defaultComment "General Observation"
    "No specific issues or concerns were observed during the inspection of this item.".

Definition maintenanceNote : Comment :=
  GeneratePdf.defaultComment "Maintenance Note"
    "Regular maintenance and periodic inspection is recommended to ensure optimal performance and longevity.".

(** ** More string functions *)

(** [s.toUpperCase()], on the ASCII letters. *)
Definition toUpperCase (s : jstring) : jstring :=
  List.map (fun c => if ((97 <=? c) && (c <=? 122))%N then (c - 32)%N else c) s.

(** [s.includes(sub)] *)
Fixpoint includes (s sub : jstring) : bool :=
  startsWith s sub
  || match s with
     | [] => false
     | _ :: rest => includes rest sub
     end.

(** [parts.join(sep)] *)
Fixpoint join (sep : jstring) (parts : list jstring) : jstring :=
  match parts with
  | [] => []
  | [x] => x
  | x :: rest => x ++ sep ++ join sep rest
  end.

(** [s && s.trim() !== ""] on an optional string. *)
Definition nonBlank (s : option jstring) : bool :=
  match s with
  | Some t => truthy t && truthy (Text.trim t)
  | None => false
  end.

(** [arr && arr.length > 0] *)
Definition nonEmpty {A : Type} (arr : option (list A)) : bool :=
  match arr with
  | Some (_ :: _) => true
  | _ => false
  end.

(** ** generate-complete-report.js: the sections of the complete report *)

Module CompleteReport.

Record Options : Type := {
  margin : Q;
  fontSize : Q;
  lineHeight : Q;
  includeImages : bool;
  includeTOC : bool;
  reportId : jstring
}.

Definition defaultOptions : Options :=
  {| margin := 20; fontSize := 12; lineHeight := 16; includeImages := true;
     includeTOC := true; reportId := js "Property Inspection Report" |}.

(** The variables of [generateSectionPage] that its closures share:
    the pages of [pdfDoc], the index of [page], [currentY] and
    [pageNumber] ([None] for [null]). *)
Record SecSt : Type := mkSecSt {
  pdfDoc : list Page;
  page : nat;
  currentY : Q;
  pageNumber : option nat
}.

Definition drawS (op : DrawOp) (s : SecSt) : SecSt :=
  mkSecSt (drawOnPage (page s) op (pdfDoc s)) (page s) (currentY s) (pageNumber s).

Definition drawAllS (ops : list DrawOp) (s : SecSt) : SecSt :=
  List.fold_left (fun s op => drawS op s) ops s.

(** [currentY -= h] *)
Definition down (h : Q) (s : SecSt) : SecSt :=
  mkSecSt (pdfDoc s) (page s) (currentY s - h) (pageNumber s).

Definition setY (y : Q) (s : SecSt) : SecSt :=
  mkSecSt (pdfDoc s) (page s) y (pageNumber s).

(** What [createPageHeader] draws; it returns [height - 60]. *)
Definition pageHeader (lib : PdfLib) (opts : Options) (pageNumber : option nat)
    : list DrawOp :=
  let font := fontOf lib TimesRoman in
  let width := pageWidth lib in
  let height := pageHeight lib in
  let margin : Q := 20 in
  [ DrawText (reportId opts) margin (height - 30) 9 TimesRoman ]
  ++ match pageNumber with
     | Some n =>
         let pageText := js "Page " ++ natToString n in
         let pageTextWidth := widthOfTextAtSize font pageText 9 in
         [ DrawText pageText (width - margin - pageTextWidth) (height - 30) 9 TimesRoman ]
     | None => []
     end
  ++ [ DrawLine margin (height - 40) (width - margin) (height - 40) ].

(** [pageNumber ? pageNumber + 1 : null] *)
Definition nextPageNumber (pageNumber : option nat) : option nat :=
  match pageNumber with
  | Some O => None
  | Some n => Some (n + 1)%nat
  | None => None
  end.

Definition createNewPage (lib : PdfLib) (opts : Options) (s : SecSt) : SecSt :=
  let pn := nextPageNumber (pageNumber s) in
  mkSecSt (pdfDoc s ++ [newPage lib (pageHeader lib opts pn)])
          (List.length (pdfDoc s)) (pageHeight lib - 60) pn.

(** [if (currentY < limit) currentY = await createNewPage()] *)
Definition newPageBelow (lib : PdfLib) (opts : Options) (limit : Q)
    (s : SecSt) : SecSt :=
  if Qltb (currentY s) limit then createNewPage lib opts s else s.

(** The displayable parts of a comment. *)
Definition hasText (c : Comment) : bool :=
  truthy (orElse (text c) (orElse (content c) (orElse (commentText c) []))).
Definition hasLocation (c : Comment) : bool := nonBlank (location c).
Definition hasSelectedOptions (c : Comment) : bool := nonEmpty (selectedOptions c).
Definition hasPhotos (c : Comment) : bool := nonEmpty (photos c).
Definition hasVideos (c : Comment) : bool := nonEmpty (videos c).
Definition hasRecommendation (c : Comment) : bool := nonBlank (recommendation c).

Definition hasAnyContent (c : Comment) : bool :=
  hasText c || hasLocation c || hasSelectedOptions c || hasPhotos c
  || hasVideos c || hasRecommendation c.

Definition optTruthy (s : option jstring) : bool :=
  match s with Some t => truthy t | None => false end.

(** The badges of a comment: its tag, and "RECOMMENDATION" when the
    comment has a recommendation that the tag does not name. *)
Definition tagsToDisplay (c : Comment) : list jstring :=
  let mainTag :=
    if optTruthy (tag c)
    then [toUpperCase (Text.sanitizeText (orElse (tag c) []))]
    else [] in
  let recommendationTag :=
    if hasRecommendation c
    then
      let mainTagText :=
        if optTruthy (tag c)
        then toUpperCase (Text.sanitizeText (orElse (tag c) []))
        else [] in
      if negb (includes mainTagText (js "RECOMMENDATION"))
      then [js "RECOMMENDATION"] else []
    else [] in
  mainTag ++ recommendationTag.

Definition tagPadding : Q := 5.
Definition tagSpacing : Q := 8.

Definition tagWidth (lib : PdfLib) (opts : Options) (tagText : jstring) : Q :=
  widthOfTextAtSize (fontOf lib TimesRomanBold) tagText (fontSize opts - 1)
  + tagPadding * 4.

Definition totalTagsWidth (lib : PdfLib) (opts : Options) (tags : list jstring) : Q :=
  List.fold_left (fun total t => total + (tagWidth lib opts t + tagSpacing)) tags 0.

(** One badge: a rectangle, two bars, four corner circles and the
    text. *)
Definition badge (lib : PdfLib) (opts : Options) (tagText : jstring)
    (currentTagX currentY : Q) : list DrawOp :=
  let tagHeight := fontSize opts + tagPadding * 2 in
  let cornerRadius : Q := 4 in
  let tagWidth := tagWidth lib opts tagText in
  let tagX := currentTagX - tagWidth in
  let tagY := currentY - tagPadding in
  [ DrawRectangle (tagX + cornerRadius) tagY (tagWidth - cornerRadius * 2) tagHeight;
    DrawRectangle tagX (tagY + cornerRadius) tagWidth (tagHeight - cornerRadius * 2);
    DrawCircle (tagX + cornerRadius) (tagY + cornerRadius) cornerRadius;
    DrawCircle (tagX + tagWidth - cornerRadius) (tagY + cornerRadius) cornerRadius;
    DrawCircle (tagX + cornerRadius) (tagY + tagHeight - cornerRadius) cornerRadius;
    DrawCircle (tagX + tagWidth - cornerRadius) (tagY + tagHeight - cornerRadius)
      cornerRadius;
    DrawText tagText (tagX + tagPadding * 2) (currentY + 2) (fontSize opts - 1)
      TimesRomanBold ].

(** The badges are drawn from right to left. *)
Definition drawTags (lib : PdfLib) (opts : Options) (tags : list jstring)
    (s : SecSt) : SecSt :=
  let width := pageWidth lib in
  fst (List.fold_left
         (fun '(s, currentTagX) tagText =>
            (drawAllS (badge lib opts tagText currentTagX (currentY s)) s,
             currentTagX - tagWidth lib opts tagText - tagSpacing))
         (List.rev tags) (s, width - margin opts - 15)).

Definition commentHeaderText (c : Comment) : jstring :=
  let numberOrEmpty :=
    match commentNumber c with
    | Some (S n) => natToString (S n)
    | _ => []
    end in
  let commentLabel :=
    toUpperCase
      (Text.sanitizeText (orElse (label c) (js "Comment " ++ numberOrEmpty))) in
  let commentNumberText :=
    match commentNumber c with
    | Some (S n) => js " " ++ natToString (S n)
    | _ => []
    end in
  commentNumberText ++ js " " ++ commentLabel.

Definition drawCommentHeader (lib : PdfLib) (opts : Options) (c : Comment)
    (s : SecSt) : SecSt :=
  let width := pageWidth lib in
  let tags := tagsToDisplay c in
  let headerMaxWidth :=
    width - margin opts * 2 - 30 - totalTagsWidth lib opts tags - 20 in
  let headerLines :=
    Text.wrapText (commentHeaderText c) (fontOf lib TimesRomanBold)
      (fontSize opts + 3) headerMaxWidth in
  List.fold_left
    (fun s '(i, line) =>
       let s := drawS (DrawText line (margin opts + 15) (currentY s)
                         (fontSize opts + 3) TimesRomanBold) s in
       let s := if (i =? 0)%nat then drawTags lib opts tags s else s in
       down (lineHeight opts + (if (i =? 0)%nat then 5 else 0)) s)
    (List.combine (List.seq 0 (List.length headerLines)) headerLines) s.

Definition keywords : list jstring :=
  [ js "Maintenance"; js "Recommendation"; js "Safety Hazard";
    js "Immediate Attention"; js "Monitor"; js "Repair"; js "Replace" ].

Definition commentTextOf (c : Comment) : jstring :=
  orElse (text c) (orElse (content c) (orElse (commentText c) [])).

(** The body of a comment, and [textEndY]. *)
Definition drawCommentText (lib : PdfLib) (opts : Options) (c : Comment)
    (textMaxWidth : Q) (s : SecSt) : SecSt :=
  let commentText := commentTextOf c in
  let textLines := Text.split 10 commentText in
  if truthy commentText && truthy (Text.trim commentText)
  then
    List.fold_left
      (fun s textLine =>
         let wrappedLines :=
           Text.wrapText textLine (fontOf lib TimesRoman) (fontSize opts)
             textMaxWidth in
         List.fold_left
           (fun s line =>
              let s := newPageBelow lib opts (margin opts + 30) s in
              let font :=
                if List.existsb (fun keyword => includes line keyword) keywords
                then TimesRomanBold else TimesRoman in
              let s := drawS (DrawText line (margin opts + 15) (currentY s)
                                (fontSize opts) font) s in
              down (lineHeight opts) s)
           wrappedLines s)
      textLines s
  else s.

(** [downloadImage] and the decoder chosen from the URL; nothing when
    either throws.  The cache of downloads only saves requests. *)
Definition loadImage (lib : PdfLib) (world : World) (url : option jstring)
    : option Image :=
  match url with
  | None => None
  | Some u =>
      match httpGet world u with
      | Response 200 body =>
          if includes (toLowerCase u) (js ".png")
          then embedPng lib body else embedJpg lib body
      | _ => None
      end
  end.

(** [image.scale(scale0)], then the fit into a box [boxWidth] wide and
    [maxHeight] high: the width and the height drawn. *)
Definition fitBox (scale0 boxWidth maxHeight : Q) (img : Image) : Q * Q :=
  let imgWidth := GeneratePdf.imgW img * scale0 in
  let imgHeight := GeneratePdf.imgH img * scale0 in
  let '(imgWidth, imgHeight) :=
    if Qgtb imgWidth boxWidth
    then (boxWidth, imgHeight * (boxWidth / imgWidth))
    else (imgWidth, imgHeight) in
  if Qgtb imgHeight maxHeight
  then (imgWidth * (maxHeight / imgHeight), maxHeight)
  else (imgWidth, imgHeight).

Inductive MediaItem : Type :=
| PhotoItem (data : Photo)
| VideoItem (data : Video).

Definition mediaItems (c : Comment) : list MediaItem :=
  List.map PhotoItem (elements (photos c))
  ++ List.map VideoItem (elements (videos c)).

Definition numberOrEmpty (c : Comment) : jstring :=
  match commentNumber c with
  | Some (S n) => natToString (S n)
  | _ => []
  end.

(** A single photo, beside the text. *)
Definition drawSingleImage (lib : PdfLib) (world : World) (opts : Options)
    (c : Comment) (textStartY textEndY : Q) (s : SecSt) : SecSt :=
  match elements (photos c) with
  | photo :: _ =>
      match loadImage lib world (photo_url photo) with
      | Some image =>
          let '(imgWidth, imgHeight) := fitBox (1 # 4) 170 200 image in
          let imageX := pageWidth lib - margin opts - imgWidth - 15 in
          let imageY := textStartY in
          let s := drawS (DrawImage image imageX (imageY - imgHeight)
                            imgWidth imgHeight) s in
          let shortName := js "Photo " ++ numberOrEmpty c in
          let s := drawS (DrawText shortName imageX (imageY - imgHeight - 12)
                            (fontSize opts - 2) TimesRoman) s in
          let imageBottom := imageY - imgHeight - 25 in
          setY (Qmin textEndY imageBottom) s
      | None => s
      end
  | [] => s
  end.

(** The page that [createVideoPlaceholder] appends to the document. *)
Definition videoPlaceholderPage (lib : PdfLib) (width height : Q) : Page :=
  let centerX := width / 2 in
  let centerY := height / 2 in
  let circleRadius := Qmin width height / 6 in
  let fontSize := Qmin width height / 8 in
  let textWidth := widthOfTextAtSize (fontOf lib HelveticaBold) (js "VIDEO") fontSize in
  mkPage width height
    [ DrawRectangle 0 0 width height;
      DrawCircle centerX centerY circleRadius;
      DrawText (js "VIDEO") (centerX - textWidth / 2) (centerY - fontSize / 3)
        fontSize HelveticaBold ].

Definition createVideoPlaceholder (lib : PdfLib) (width height : Q)
    (s : SecSt) : SecSt :=
  mkSecSt (pdfDoc s ++ [videoPlaceholderPage lib width height])
          (page s) (currentY s) (pageNumber s).

(** The placeholder of a video in a grid: rectangle, link, play circle
    and the word VIDEO. *)
Definition videoBox (lib : PdfLib) (video : Video) (imgX top imgWidth imgHeight
    videoFontSize : Q) : list DrawOp :=
  let centerX := imgX + imgWidth / 2 in
  let centerY := top - imgHeight / 2 in
  let circleRadius := Qmin imgWidth imgHeight / 8 in
  let videoTextWidth :=
    widthOfTextAtSize (fontOf lib TimesRomanBold) (js "VIDEO") videoFontSize in
  [ DrawRectangle imgX (top - imgHeight) imgWidth imgHeight ]
  ++ match video_url video with
     | Some u =>
         if truthy u
         then [ LinkAnnotation u imgX (top - imgHeight) (imgX + imgWidth) top ]
         else []
     | None => []
     end
  ++ [ DrawCircle centerX centerY circleRadius;
       DrawText (js "VIDEO") (centerX - videoTextWidth / 2)
         (centerY - videoFontSize / 3) videoFontSize TimesRomanBold ].

(** Two photos or videos, side by side. *)
Definition drawTwoGrid (lib : PdfLib) (world : World) (opts : Options)
    (c : Comment) (s : SecSt) : SecSt :=
  let gridSpacing : Q := 15 in
  let availableWidth := pageWidth lib - margin opts * 2 - 30 in
  let imgBoxWidth := (availableWidth - gridSpacing) / 2 in
  let items := List.firstn 2 (mediaItems c) in
  let '(s, maxRowHeight) :=
    List.fold_left
      (fun '(s, maxRowHeight) '(i, mediaItem) =>
         let place (s : SecSt) (imgWidth imgHeight : Q) (ops : SecSt -> list DrawOp)
             (shortName : jstring) :=
           let maxRowHeight := Qmax maxRowHeight imgHeight in
           let '(s, maxRowHeight) :=
             if Qltb (currentY s) (imgHeight + 50)
             then (createNewPage lib opts s, 0)
             else (s, maxRowHeight) in
           let imgX :=
             margin opts + 15 + inject_Z (Z.of_nat i) * (imgBoxWidth + gridSpacing) in
           let s := drawAllS (ops s) s in
           let s := drawS (DrawText shortName imgX (currentY s - imgHeight - 12)
                             (fontSize opts - 2) TimesRoman) s in
           (s, maxRowHeight) in
         let imgX :=
           margin opts + 15 + inject_Z (Z.of_nat i) * (imgBoxWidth + gridSpacing) in
         match mediaItem with
         | VideoItem video =>
             let s := createVideoPlaceholder lib 320 240 s in
             place s imgBoxWidth 200
               (fun s => videoBox lib video imgX (currentY s) imgBoxWidth 200 14)
               (js "Video " ++ natToString (i + 1))
         | PhotoItem photo =>
             match loadImage lib world (photo_url photo) with
             | Some image =>
                 let '(imgWidth, imgHeight) := fitBox (35 # 100) imgBoxWidth 200 image in
                 place s imgWidth imgHeight
                   (fun s => [ DrawImage image imgX (currentY s - imgHeight)
                                 imgWidth imgHeight ])
                   (js "Photo " ++ natToString (i + 1))
             | None => (s, maxRowHeight)
             end
         end)
      (List.combine (List.seq 0 (List.length items)) items) (s, 0) in
  down (maxRowHeight + 25) s.

(** The state of the loop of the three-column grid. *)
Record GridSt : Type := mkGridSt {
  g_s : SecSt;
  g_col : nat;
  g_maxRowHeight : Q;
  g_rowStartY : Q
}.

Definition gridBoxWidth (lib : PdfLib) (opts : Options) : Q :=
  let gridSpacing : Q := 10 in
  let availableWidth := pageWidth lib - margin opts * 2 - 30 in
  (availableWidth - gridSpacing * 2) / 3.

(** The size at which a medium of the three-column grid is drawn;
    nothing when the photo cannot be loaded. *)
Definition gridItemSize (lib : PdfLib) (world : World) (opts : Options)
    (mediaItem : MediaItem) : option (Q * Q) :=
  match mediaItem with
  | VideoItem _ => Some (gridBoxWidth lib opts, 150)
  | PhotoItem photo =>
      match loadImage lib world (photo_url photo) with
      | Some image => Some (fitBox (3 # 10) (gridBoxWidth lib opts) 150 image)
      | None => None
      end
  end.

Definition gridItemX (lib : PdfLib) (opts : Options) (col : nat) : Q :=
  margin opts + 15 + inject_Z (Z.of_nat col) * (gridBoxWidth lib opts + 10).

(** One iteration of the loop of the three-column grid. *)
Definition gridStep (lib : PdfLib) (world : World) (opts : Options)
    (g : GridSt) (entry : nat * MediaItem) : GridSt :=
  let '(i, mediaItem) := entry in
  match gridItemSize lib world opts mediaItem with
  | None => g
  | Some (imgWidth, imgHeight) =>
      let s := g_s g in
      let maxRowHeight := Qmax (g_maxRowHeight g) imgHeight in
      let '(s, rowStartY, col, maxRowHeight) :=
        if Qltb (currentY s) (imgHeight + 50)
        then (let s := createNewPage lib opts s in (s, currentY s, 0%nat, 0))
        else (s, g_rowStartY g, g_col g, maxRowHeight) in
      let imgX := gridItemX lib opts col in
      let s :=
        match mediaItem with
        | VideoItem video =>
            drawAllS (videoBox lib video imgX rowStartY imgWidth imgHeight 12) s
        | PhotoItem photo =>
            match loadImage lib world (photo_url photo) with
            | Some image =>
                drawS (DrawImage image imgX (rowStartY - imgHeight) imgWidth imgHeight) s
            | None => s
            end
        end in
      let shortName :=
        match mediaItem with
        | VideoItem _ => js "Video " ++ natToString (i + 1)
        | PhotoItem _ => js "Photo " ++ natToString (i + 1)
        end in
      let s := drawS (DrawText shortName imgX (rowStartY - imgHeight - 12)
                        (fontSize opts - 2) TimesRoman) s in
      let col := (col + 1)%nat in
      if (3 <=? col)%nat
      then
        let y := rowStartY - maxRowHeight - 25 in
        mkGridSt (setY y s) 0 0 y
      else mkGridSt s col maxRowHeight rowStartY
  end.

(** Three or more photos and videos (or a single video). *)
Definition drawThreeGrid (lib : PdfLib) (world : World) (opts : Options)
    (c : Comment) (s : SecSt) : SecSt :=
  let items := mediaItems c in
  let g :=
    List.fold_left (gridStep lib world opts)
      (List.combine (List.seq 0 (List.length items)) items)
      (mkGridSt s 0 0 (currentY s)) in
  if (0 <? g_col g)%nat
  then setY (g_rowStartY g - g_maxRowHeight g - 25) (g_s g)
  else g_s g.

Definition drawMedia (lib : PdfLib) (world : World) (opts : Options)
    (c : Comment) (textStartY textEndY : Q) (s : SecSt) : SecSt :=
  if includeImages opts && (hasPhotos c || hasVideos c)
  then
    let numPhotos := List.length (elements (photos c)) in
    let numVideos := List.length (elements (videos c)) in
    let totalMedia := (numPhotos + numVideos)%nat in
    if (totalMedia =? 1)%nat && (numPhotos =? 1)%nat
    then drawSingleImage lib world opts c textStartY textEndY s
    else if (totalMedia =? 2)%nat
    then drawTwoGrid lib world opts c s
    else drawThreeGrid lib world opts c s
  else s.

(** The body of the loop over the comments of a line item. *)
Definition renderComment (lib : PdfLib) (world : World) (opts : Options)
    (s : SecSt) (c : Comment) : SecSt :=
  if negb (hasAnyContent c) then s
  else
    let width := pageWidth lib in
    let s := newPageBelow lib opts (margin opts + 150) s in
    let s := drawCommentHeader lib opts c s in
    let s := down 5 s in
    let s :=
      if optTruthy (location c)
      then
        let s := drawS (DrawText (js "Location: "
                                    ++ Text.sanitizeText (orElse (location c) []))
                          (margin opts + 15) (currentY s) (fontSize opts)
                          TimesRomanBold) s in
        down (lineHeight opts + 3) s
      else s in
    let s :=
      if hasSelectedOptions c
      then
        let selectedText :=
          js "Selected: "
          ++ join (js ", ")
               (List.map Text.sanitizeText (elements (selectedOptions c))) in
        let s := drawS (DrawText selectedText (margin opts + 15) (currentY s)
                          (fontSize opts) TimesRoman) s in
        down (lineHeight opts + 3) s
      else s in
    let hasSingleImage :=
      includeImages opts
      && (List.length (elements (photos c)) =? 1)%nat in
    let textMaxWidth :=
      if hasSingleImage
      then width - margin opts * 2 - 200
      else width - margin opts * 2 - 30 in
    let textStartY := currentY s in
    let s := drawCommentText lib opts c textMaxWidth s in
    let textEndY := currentY s in
    let s :=
      if hasRecommendation c
      then
        let s := drawS (DrawText (js "Recommendation: Contact "
                                    ++ Text.sanitizeText (orElse (recommendation c) []))
                          (margin opts + 15) (currentY s) (fontSize opts)
                          TimesRoman) s in
        down (lineHeight opts + 3) s
      else s in
    let s := drawMedia lib world opts c textStartY textEndY s in
    let s := down 5 s in
    let s := newPageBelow lib opts (margin opts + 20) s in
    let s := drawS (DrawLine (margin opts + 15) (currentY s)
                      (width - margin opts - 15) (currentY s)) s in
    down 20 s.

(** A comment of a line item counts when it has a text, a location,
    selected options, photos, videos or a recommendation. *)
Definition hasComments (lineItem : LineItem) : bool :=
  List.existsb hasAnyContent (elements (comments lineItem)).

(** The body of the loop over the line items of a section. *)
Definition renderLineItem (lib : PdfLib) (world : World) (opts : Options)
    (s : SecSt) (lineItem : LineItem) : SecSt :=
  if negb (nonEmpty (itemOptions lineItem)) && negb (hasComments lineItem)
  then s
  else
    let s := newPageBelow lib opts (margin opts + 100) s in
    let lineItemTitle :=
      Text.sanitizeText (orElse (name lineItem) (orElse (title lineItem) [])) in
    let s := drawS (DrawText lineItemTitle (margin opts + 10) (currentY s)
                      (fontSize opts + 2) TimesRomanBold) s in
    let s := down (lineHeight opts + 8) s in
    let s :=
      match elements (comments lineItem) with
      | [] => s
      | _ :: _ as cs =>
          down 10 (List.fold_left (renderComment lib world opts) cs s)
      end in
    down 5 s.

Definition endOfSection : jstring :=
  [8212; 32]%N ++ js "End of Section" ++ [32; 8212]%N.

(** [generateSectionPage], given the pages of [pdfDoc] and the page
    number of the first page of the section: the pages of [pdfDoc]
    afterwards. *)
Definition generateSectionPage (lib : PdfLib) (world : World) (opts : Options)
    (pageNumber : option nat) (section : Section) (pdfDoc : list Page)
    : list Page :=
  let width := pageWidth lib in
  let height := pageHeight lib in
  let s := mkSecSt (pdfDoc ++ [newPage lib (pageHeader lib opts pageNumber)])
             (List.length pdfDoc) (height - 60) pageNumber in
  let sectionTitle := toUpperCase (sectionName section) in
  let titleSize : Q := 20 in
  let titlePadding : Q := 10 in
  let titleWidth :=
    widthOfTextAtSize (fontOf lib TimesRomanBold) sectionTitle titleSize in
  let titleX := (width - titleWidth) / 2 in
  let rectWidth := width - margin opts * 2 in
  let rectHeight := titleSize + titlePadding * 2 in
  let s := drawS (DrawRectangle (margin opts) (currentY s - titleSize - titlePadding)
                    rectWidth rectHeight) s in
  let textY := currentY s - titlePadding - titleSize / 2 in
  let s := drawS (DrawText sectionTitle titleX textY titleSize TimesRomanBold) s in
  let s := down (rectHeight + 20) s in
  let s := List.fold_left (renderLineItem lib world opts)
             (elements (lineItems section)) s in
  let s := newPageBelow lib opts (margin opts + 40) s in
  let s := down 20 s in
  let s := drawS (DrawLine (margin opts) (currentY s) (width - margin opts)
                    (currentY s)) s in
  let s := down 15 s in
  let s :=
    drawS (DrawText endOfSection
             ((width - widthOfTextAtSize (fontOf lib TimesRoman) endOfSection
                         (fontSize opts - 1)) / 2)
             (currentY s) (fontSize opts - 1) TimesRoman) s in
  CompleteReport.pdfDoc s.

End CompleteReport.

(** ** create-table-of-contents.js *)

Module Toc.

Record Options : Type := {
  tocTitle : jstring;
  fontSize : Q;
  titleFontSize : Q;
  lineHeight : Q;
  margin : Q;
  includeLineItems : bool;
  sectionPageMap : gmap (list N) nat
}.

Definition insertByOrder (x : Section) : list Section -> list Section :=
  fix insert (l : list Section) : list Section :=
    match l with
    | [] => [x]
    | y :: rest =>
        if (order x <=? order y)%Z then x :: y :: rest else y :: insert rest
    end.

(** [[...sections].sort((a, b) => a.order - b.order)]: the stable sort
    by [order]. *)
Definition sortByOrder (sections : list Section) : list Section :=
  List.fold_right insertByOrder [] sections.

(** [section.sectionNumber || (i + 1).toString()] *)
Definition sectionKey (i : nat) (section : Section) : jstring :=
  orElse (sectionNumber section) (natToString (i + 1)).

(** [sectionPageMap[sectionNumber] || i + 3] *)
Definition pageNumberFor (m : gmap (list N) nat) (key : jstring) (i : nat) : nat :=
  match m !! key with
  | Some (S n) => S n
  | _ => (i + 3)%nat
  end.

(** The abscissas of the dots of
    [for (let x = x1; x < x2; x += dotSpacing)]. *)
Definition dottedXs (x1 x2 : Q) : list Q :=
  List.map (fun k => x1 + 5 * inject_Z (Z.of_nat k))
    (List.seq 0 (Z.to_nat (Qceiling ((x2 - x1) / 5)))).

Definition drawDottedLine (x1 y x2 : Q) (s : St) : St :=
  List.fold_left (fun s x => draw (DrawCircle x y 1) s) (dottedXs x1 x2) s.

(** [if (currentY < limit) { page = pdfDoc.addPage(); currentY = height - margin }] *)
Definition newPageBelow (lib : PdfLib) (opts : Options) (limit : Q) (s : St) : St :=
  if Qltb (pos s) limit
  then mkSt (doc s ++ [newPage lib []]) (pageHeight lib - margin opts)
            (List.length (doc s))
  else s.

Definition bullet : jstring := [32; 32; 32; 8226; 32]%N.

Definition sectionEntry (lib : PdfLib) (opts : Options)
    (s : St) (entry : nat * Section) : St :=
  let '(i, section) := entry in
  let width := pageWidth lib in
  let s := newPageBelow lib opts (margin opts + 50) s in
  let sectionNumber := sectionKey i section in
  let sectionText := sectionNumber ++ js ". " ++ sectionName section in
  let pageNumber := pageNumberFor (sectionPageMap opts) sectionNumber i in
  let sectionTextWidth :=
    widthOfTextAtSize (fontOf lib TimesRomanBold) sectionText (fontSize opts) in
  let s := draw (DrawText sectionText (margin opts) (pos s) (fontSize opts)
                   TimesRomanBold) s in
  let dotsStartX := margin opts + sectionTextWidth + 10 in
  let pageNumText := natToString pageNumber in
  let pageNumWidth :=
    widthOfTextAtSize (fontOf lib TimesRoman) pageNumText (fontSize opts) in
  let dotsEndX := width - margin opts - pageNumWidth - 10 in
  let s := drawDottedLine dotsStartX (pos s + 3) dotsEndX s in
  let s := draw (DrawText pageNumText (width - margin opts - pageNumWidth) (pos s)
                   (fontSize opts) TimesRoman) s in
  let s := advance (lineHeight opts) s in
  if includeLineItems opts && nonEmpty (lineItems section)
  then
    let s :=
      List.fold_left
        (fun s lineItem =>
           let s := newPageBelow lib opts (margin opts + 30) s in
           let lineItemText :=
             bullet ++ match name lineItem with
                       | Some n => n
                       | None => js "undefined"
                       end in
           let s := draw (DrawText lineItemText (margin opts + 20) (pos s)
                            (fontSize opts - 2) TimesRoman) s in
           advance (lineHeight opts - 5) s)
        (elements (lineItems section)) s in
    advance 10 s
  else s.

(** [createTableOfContents]: the pages of the PDF it returns. *)
Definition createTableOfContents (lib : PdfLib) (sections : list Section)
    (opts : Options) : list Page :=
  let width := pageWidth lib in
  let height := pageHeight lib in
  let s := mkSt [newPage lib []] (height - margin opts) 0 in
  let titleWidth :=
    widthOfTextAtSize (fontOf lib TimesRomanBold) (tocTitle opts) (titleFontSize opts) in
  let s := draw (DrawText (tocTitle opts) ((width - titleWidth) / 2) (pos s)
                   (titleFontSize opts) TimesRomanBold) s in
  let s := advance (titleFontSize opts + 30) s in
  let s := draw (DrawLine (margin opts) (pos s) (width - margin opts) (pos s)) s in
  let s := advance 30 s in
  let sortedSections := sortByOrder sections in
  let s :=
    List.fold_left (sectionEntry lib opts)
      (List.combine (List.seq 0 (List.length sortedSections)) sortedSections) s in
  doc s.

End Toc.

(** ** generate-complete-report.js: the complete report *)

Module Report.

Record Report : Type := {
  success : bool;
  pageCount : nat;
  pdfBytes : list Page
}.

(** What a run of [generateCompleteReport] leaves behind: the pages of
    the documents it created, the file it wrote, and its outcome. *)
Record Run : Type := {
  documents : list (list Page);
  written : option (list Page);
  outcome : Promise Report
}.

(** The loop over the sorted sections: the pages of [pdfDoc] and
    [sectionPageMap]. *)
Definition sectionStep (lib : PdfLib) (world : World)
    (opts : CompleteReport.Options)
    (acc : list Page * gmap (list N) nat) (entry : nat * Section)
    : list Page * gmap (list N) nat :=
  let '(pdfDoc, sectionPageMap) := acc in
  let '(i, section) := entry in
  let currentPageCount := List.length pdfDoc in
  let sectionNum := Toc.sectionKey i section in
  let sectionPageMap := <[ sectionNum := (currentPageCount + 2)%nat ]> sectionPageMap in
  let pageNumber := sectionPageMap !! sectionNum in
  (CompleteReport.generateSectionPage lib world opts pageNumber section pdfDoc,
   sectionPageMap).

(** [pdfDoc.insertPage(index, page)] *)
Definition insertPage (index : nat) (p : Page) (pdfDoc : list Page) : list Page :=
  List.firstn index pdfDoc ++ p :: List.skipn index pdfDoc.

Definition tocOptions (sectionPageMap : gmap (list N) nat) : Toc.Options :=
  {| Toc.tocTitle := js "Inspection Report - Table of Contents";
     Toc.fontSize := 11;
     Toc.titleFontSize := 18;
     Toc.lineHeight := 20;
     Toc.margin := 50;
     Toc.includeLineItems := false;
     Toc.sectionPageMap := sectionPageMap |}.

Definition generateCompleteReport (lib : PdfLib) (world : World)
    (inspectionData : Inspection) (outputPath : option jstring)
    (opts : CompleteReport.Options) : Run :=
  let sections := elements (sections inspectionData) in
  match sections with
  | [] =>
      {| documents := []; written := None;
         outcome := Rejected (js "No sections found in inspection data") |}
  | _ :: _ =>
      let pdfDoc := [newPage lib (coverOps world inspectionData)] in
      let sortedSections := Toc.sortByOrder sections in
      let '(pdfDoc, sectionPageMap) :=
        List.fold_left (sectionStep lib world opts)
          (List.combine (List.seq 0 (List.length sortedSections)) sortedSections)
          (pdfDoc, ∅) in
      let tocPages :=
        if CompleteReport.includeTOC opts
        then Toc.createTableOfContents lib sections (tocOptions sectionPageMap)
        else [] in
      let pdfDoc :=
        List.fold_left (fun pdfDoc '(i, p) => insertPage (1 + i) p pdfDoc)
          (List.combine (List.seq 0 (List.length tocPages)) tocPages) pdfDoc in
      let created :=
        if CompleteReport.includeTOC opts then [pdfDoc; tocPages] else [pdfDoc] in
      match outputPath with
      | None =>
          {| documents := created; written := None;
             outcome := Rejected (js "ERR_INVALID_ARG_TYPE") |}
      | Some _ =>
          {| documents := created; written := Some pdfDoc;
             outcome := Resolved {| success := true;
                                    pageCount := List.length pdfDoc;
                                    pdfBytes := pdfDoc |} |}
      end
  end.

Inductive Reply : Type :=
| SendPdf (pages : list Page)
| Json500 (error details : jstring).

(** The route handler calls [generateCompleteReport] without an output
    path. *)
Definition generateCompleteReportHandler (lib : PdfLib) (world : World)
    (inspectionData : Inspection) (opts : CompleteReport.Options) : Reply :=
  match outcome (generateCompleteReport lib world inspectionData None opts) with
  | Resolved result => SendPdf (pdfBytes result)
  | Rejected message => Json500 (js "Failed to generate complete report") message
  end.

End Report.

(** ** Record updates, and what a document shows *)

Definition withPhotos (comment : Comment) (ps : option (list Photo)) : Comment :=
  {| label := label comment; content := content comment; text := text comment;
     commentText := commentText comment; location := location comment;
     tag := tag comment; recommendation := recommendation comment;
     commentNumber := commentNumber comment;
     selectedOptions := selectedOptions comment;
     photos := ps; videos := videos comment |}.

Definition withComments (lineItem : LineItem) (cs : option (list Comment)) : LineItem :=
  {| id := id lineItem; name := name lineItem; title := title lineItem;
     inspectionStatus := inspectionStatus lineItem;
     isDeficient := isDeficient lineItem; itemOptions := itemOptions lineItem;
     comments := cs |}.

(** All the drawing operations of a document, page after page. *)
Definition allOps (d : list Page) : list DrawOp := List.flat_map page_ops d.

(** The fetch of a photo gives no image. *)
Definition fetchFails (lib : PdfLib) (world : World) (photo : Photo) : bool :=
  match GeneratePdf.fetchAndEmbedImage lib world (photo_url photo) with
  | Resolved (Some _) => false
  | _ => true
  end.

(** The current page is a page of the document. *)
Definition validSt (s : St) : Prop :=
  (currentPage s < List.length (doc s))%nat.

(** From [s] to [s'] the layout only went forward: no page was removed,
    nothing drawn was erased, and the current page stayed a page of the
    document. *)
Definition grows (s s' : St) : Prop :=
  (List.length (doc s) <= List.length (doc s'))%nat
  /\ (validSt s -> validSt s')
  /\ (forall op, In op (allOps (doc s)) -> In op (allOps (doc s'))).

(** The strings that a list of operations draws. *)
Definition drawnTexts (ops : list DrawOp) : list jstring :=
  List.flat_map
    (fun op => match op with DrawText t _ _ _ _ => [t] | _ => [] end) ops.

(** [ops] shows the string [t] at [x], in the size [size] of the font
    [font], at some height. *)
Definition showsText (ops : list DrawOp) (t : jstring) (x size : Q)
    (font : FontName) : Prop :=
  exists y : Q, In (DrawText t x y size font) ops.

(** A comment whose text, location, tag, selected options, photos,
    videos and recommendation are all absent or empty. *)
Definition isBlankComment (c : Comment) : bool :=
  negb (CompleteReport.optTruthy (text c))
  && negb (CompleteReport.optTruthy (content c))
  && negb (CompleteReport.optTruthy (commentText c))
  && negb (CompleteReport.optTruthy (location c))
  && negb (CompleteReport.optTruthy (tag c))
  && negb (nonEmpty (selectedOptions c))
  && negb (nonEmpty (photos c))
  && negb (nonEmpty (videos c))
  && negb (CompleteReport.optTruthy (recommendation c)).

(** The entries that a page of the table of contents prints: each
    section text, in bold, with the page number that follows it. *)
Fixpoint tocEntriesFrom (pending : option jstring) (ops : list DrawOp)
    : list (jstring * jstring) :=
  match ops with
  | [] => []
  | DrawText t _ _ _ TimesRomanBold :: rest => tocEntriesFrom (Some t) rest
  | DrawText n _ _ _ TimesRoman :: rest =>
      match pending with
      | Some t => (t, n) :: tocEntriesFrom None rest
      | None => tocEntriesFrom None rest
      end
  | _ :: rest => tocEntriesFrom pending rest
  end.

Definition tocEntries (p : Page) : list (jstring * jstring) :=
  tocEntriesFrom None (page_ops p).

(** The page number printed for the entry [sectionText]. *)
Definition printedPage (sectionText : jstring) (tocPages : list Page)
    : option jstring :=
  match List.find (fun e => bool_decide (fst e = sectionText))
          (List.flat_map tocEntries tocPages) with
  | Some e => Some (snd e)
  | None => None
  end.

(** The page carries the title of a section: [title] in bold at size 20. *)
Definition showsTitle (title : jstring) (p : Page) : bool :=
  List.existsb
    (fun op =>
       match op with
       | DrawText t _ _ size TimesRomanBold =>
           bool_decide (t = title) && Qeq_bool size 20
       | _ => false
       end) (page_ops p).

(** The position, counted from 1, of the first page of [pages] that
    satisfies [f]. *)
Fixpoint positionOf (f : Page -> bool) (pages : list Page) : option nat :=
  match pages with
  | [] => None
  | p :: rest =>
      if f p then Some 1%nat
      else match positionOf f rest with
           | Some n => Some (S n)
           | None => None
           end
  end.

(** The strings that a list of operations draws, each with the height
    at which it is drawn. *)
Definition drawnTextsAt (ops : list DrawOp) : list (jstring * Q) :=
  List.flat_map
    (fun op => match op with DrawText t _ y _ _ => [(t, Qred y)] | _ => [] end) ops.

(** ** Reading a Roman numeral

    The value of a numeral as it is read: a letter counts negatively
    when the next letter is worth more. *)

Definition romanDigit (c : N) : nat :=
  if (c =? 73)%N then 1
  else if (c =? 86)%N then 5
  else if (c =? 88)%N then 10
  else if (c =? 76)%N then 50
  else if (c =? 67)%N then 100
  else if (c =? 68)%N then 500
  else if (c =? 77)%N then 1000
  else 0.

Fixpoint romanValue (s : jstring) : nat :=
  match s with
  | [] => 0
  | c :: rest =>
      match rest with
      | d :: _ =>
          if (romanDigit c <? romanDigit d)%nat
          then (romanValue rest - romanDigit c)%nat
          else (romanDigit c + romanValue rest)%nat
      | [] => romanDigit c
      end
  end.

(** One iteration of [for (const [val, sym] of romans)]. *)
Definition romanStep (st : nat * jstring) (entry : nat * jstring) : nat * jstring :=
  let '(n, res) := st in let '(val, sym) := entry in romanWhile n n val sym res.

(** The table of [intToRoman] below one thousand. *)
Definition lowRomans : list (nat * jstring) := List.tl romans.

(** ** cache.js: SimpleCache, and its use by the worker variant *)

Module SimpleCache.

(** What the map holds for a key: [{ value, expirationTime }], with
    [None] for the [null] of an entry that never expires. *)
Record Item (V : Type) : Type := mkItem {
  value : V;
  expirationTime : option Z
}.
Arguments mkItem {V} value expirationTime.
Arguments value {V} i.
Arguments expirationTime {V} i.

(** The static fields of the class. *)
Record Cache (V : Type) : Type := mkCache {
  cache : gmap (list N) (Item V);
  ttl : Z
}.
Arguments mkCache {V} cache ttl.
Arguments cache {V} c.
Arguments ttl {V} c.

(** The class as it is loaded: an empty map and a TTL of one minute. *)
Definition initial {V : Type} : Cache V := mkCache ∅ 60000.

(** [SimpleCache.set(key, value, noTTL)] when [Date.now()] is [now]. *)
Definition set {V : Type} (key : jstring) (v : V) (noTTL : bool) (now : Z)
    (c : Cache V) : Cache V :=
  let expirationTime := if noTTL then None else Some (now + ttl c)%Z in
  mkCache (<[ key := mkItem v expirationTime ]> (cache c)) (ttl c).

(** [SimpleCache.delete(key)] *)
Definition delete {V : Type} (key : jstring) (c : Cache V) : Cache V :=
  mkCache (base.delete key (cache c)) (ttl c).

(** [SimpleCache.clear()] *)
Definition clear {V : Type} (c : Cache V) : Cache V :=
  mkCache ∅ (ttl c).

(** [SimpleCache.get(key)] when [Date.now()] is [now]: the value
    returned ([None] for [null]) and the cache afterwards. *)
Definition get {V : Type} (key : jstring) (now : Z) (c : Cache V)
    : option V * Cache V :=
  match cache c !! key with
  | None => (None, c)
  | Some cachedItem =>
      match expirationTime cachedItem with
      | None => (Some (value cachedItem), c)
      | Some t =>
          if (t <? now)%Z then (None, delete key c)
          else (Some (value cachedItem), c)
      end
  end.

(** The start of [createPdf] in the worker variant of generatePdf.js:
    the bytes of the page template are built when the cache has none,
    and stored without expiry.  [built] says whether [pageSectionStart]
    was called. *)
Definition cachePageSectionStart {V : Type} (pageSectionStart : V) (now : Z)
    (c : Cache V) : bool * Cache V :=
  let '(cacheValuePageSectionStart, c) := get (js "pageSectionStart") now c in
  match cacheValuePageSectionStart with
  | None => (true, set (js "pageSectionStart") pageSectionStart true now c)
  | Some _ => (false, c)
  end.

End SimpleCache.

(** ** worker.js: the PDF of one section *)

Module WorkerPdf.

(** The page that [pageSectionStart] builds. *)
Definition pageSectionStart (lib : PdfLib) : Page :=
  let width := pageWidth lib in
  let height := pageHeight lib in
  let margin : Q := 20 in
  let boxHeight : Q := 26 in
  let boxY := height - 95 in
  let keysSize : Q := 10 in
  let keysY := boxY + (boxHeight - keysSize) / 2 - 2 in
  newPage lib
    [ DrawText (js "Report Identification: 1234 Main Street Denton Texas 76201 - 09/30/2021")
        margin (height - 40) 12 TimesRoman;
      DrawText (js "I=Inspected    NI=Not Inspected    NP=Not Present    D=Deficient")
        margin (height - 60) 11 TimesRoman;
      DrawRectangle margin boxY (width - margin * 2) boxHeight;
      DrawText (js "I    NI    NP    D") (margin + 12) keysY keysSize TimesRoman ].

(** [lineItem.title || lineItem.name]; [None] is [undefined]. *)
Definition lineTitle (lineItem : LineItem) : option jstring :=
  match title lineItem with
  | Some t => if truthy t then Some t else name lineItem
  | None => name lineItem
  end.

(** The body of the loop over the line items, on [firstPage] and
    [currentY]; [drawText] throws on a title that is [undefined]. *)
Definition lineItemStep (margin : Q) (acc : Promise (Page * Q))
    (lineItem : LineItem) : Promise (Page * Q) :=
  bind acc (fun '(firstPage, currentY) =>
    let firstPage := Worker.addCheckBoxToLineItem lineItem margin currentY firstPage in
    match lineTitle lineItem with
    | Some t =>
        Resolved (drawOn (DrawText t (margin + 160) currentY 12 TimesRoman) firstPage,
                  currentY - 30)
    | None => Rejected (js "TypeError")
    end).

(** [sectionPdfWorker]: the pages of the PDF it posts to its parent. *)
Definition sectionPdfWorker (lib : PdfLib) (section : Section)
    : Promise (list Page) :=
  let timesRomanFont := fontOf lib TimesRoman in
  let width := pageWidth lib in
  let height := pageHeight lib in
  let bodyFontSize : Q := 12 in
  let margin : Q := 20 in
  let firstPage :=
    drawOn (DrawText (intToRoman (Z.to_nat (order section + 1)) ++ js " "
                        ++ sectionName section)
              (width / 2
               - widthOfTextAtSize timesRomanFont (sectionName section) bodyFontSize / 2)
              (height - 120) bodyFontSize TimesRoman)
      (pageSectionStart lib) in
  bind (List.fold_left (lineItemStep margin) (elements (lineItems section))
          (Resolved (firstPage, height - 160)))
       (fun '(firstPage, _) => Resolved [firstPage]).

End WorkerPdf.

(** The sections are in ascending order of [order]. *)
Fixpoint ascending (l : list Section) : Prop :=
  match l with
  | [] => True
  | a :: rest => List.Forall (fun b => (order a <= order b)%Z) rest /\ ascending rest
  end.

(** ** What a document shows, and where *)

(** Every operation drawn in the document satisfies [P]. *)
Definition allDrawn (P : DrawOp -> Prop) (d : list Page) : Prop :=
  List.Forall P (allOps d).

(** A text is drawn at the height [limit] or above. *)
Definition textAtOrAbove (limit : Q) (op : DrawOp) : Prop :=
  match op with
  | DrawText _ _ y _ _ => limit <= y
  | _ => True
  end.

(** The height at which an operation is drawn: its lower edge. *)
Definition opY (op : DrawOp) : Q :=
  match op with
  | DrawText _ _ y _ _ => y
  | DrawRectangle _ y _ _ => y
  | DrawLine _ y1 _ y2 => Qmin y1 y2
  | DrawCircle _ y _ => y
  | DrawImage _ _ y _ _ => y
  | CheckBox _ _ y _ _ => y
  | LinkAnnotation _ _ y1 _ y2 => Qmin y1 y2
  end.

(** Nothing in the document is drawn below the footer buffer of
    generatePdf.js. *)
Definition aboveFooter (d : list Page) : Prop :=
  allDrawn (fun op => GeneratePdf.FOOTER_BUFFER <= opY op) d.

(** ** Reading the table of contents *)

(** The section text that waits for its page number after [ops], when
    [pending] waited before them. *)
Fixpoint pendingAfter (pending : option jstring) (ops : list DrawOp)
    : option jstring :=
  match ops with
  | [] => pending
  | DrawText t _ _ _ TimesRomanBold :: rest => pendingAfter (Some t) rest
  | DrawText n _ _ _ TimesRoman :: rest => pendingAfter None rest
  | _ :: rest => pendingAfter pending rest
  end.

(** The entry that the table of contents prints for the section of
    index [i] in the sorted list. *)
Definition tocEntryOf (m : gmap (list N) nat) (entry : nat * Section)
    : jstring * jstring :=
  let '(i, section) := entry in
  (Toc.sectionKey i section ++ js ". " ++ sectionName section,
   natToString (Toc.pageNumberFor m (Toc.sectionKey i section) i)).

(** The current page is the last page [last] of the document, the
    pages print the entries [E], and [P] waits for its page number. *)
Definition tocState (s : St) (E : list (jstring * jstring)) (P : option jstring)
    : Prop :=
  exists (front : list Page) (last : Page),
    doc s = front ++ [last] /\ currentPage s = List.length front
    /\ List.flat_map tocEntries front ++ tocEntries last = E
    /\ pendingAfter None (page_ops last) = P.

(** ** How the section renderer changes the document *)

(** From [s] to [s'] the section renderer left the first [n] pages of
    the document as they were, kept its current page among the later
    ones, and only added operations to the page of index [n]. *)
Definition extends (n : nat) (s s' : CompleteReport.SecSt) : Prop :=
  (n <= CompleteReport.page s < List.length (CompleteReport.pdfDoc s))%nat ->
  (n <= CompleteReport.page s' < List.length (CompleteReport.pdfDoc s'))%nat
  /\ List.firstn n (CompleteReport.pdfDoc s') = List.firstn n (CompleteReport.pdfDoc s)
  /\ (forall p, CompleteReport.pdfDoc s !! n = Some p ->
      exists p' more, CompleteReport.pdfDoc s' !! n = Some p'
                      /\ page_ops p' = page_ops p ++ more).

(** The sizes of the pages of a document. *)
Definition pageSizes (d : list Page) : list (Q * Q) :=
  List.map (fun p => (page_width p, page_height p)) d.

(** ** Stand-ins to run the code on concrete inputs

    pdf-lib creates A4 pages of 595.28 by 841.89.  The stand-in font
    gives every code unit half the font size; the stand-in line breaker
    keeps the text on one line; the stand-in decoders read the size of
    the image from the first two bytes. *)

Definition sampleFont : Font :=
  {| widthOfTextAtSize := fun s size => inject_Z (Z.of_nat (List.length s)) * size / 2 |}.

Definition sampleDecoder (bytes : list N) : option Image :=
  match bytes with
  | w :: h :: _ => Some {| img_width := N.succ_pos w; img_height := N.succ_pos h |}
  | _ => None
  end.

Definition sampleLib : PdfLib :=
  {| pageWidth := 59528 # 100;
     pageHeight := 84189 # 100;
     fontOf := fun _ => sampleFont;
     breakTextIntoLines := fun t _ _ => [t];
     embedPng := sampleDecoder;
     embedJpg := sampleDecoder;
     encodes := fun _ => true |}.

(** A host without network and without report header pages. *)
Definition offlineWorld : World :=
  {| httpGet := fun _ => RequestError;
     buildTrecHeaderPdf := fun _ => None;
     headerTextOf := fun _ => js "Report Identification";
     coverOps := fun _ => [] |}.

Definition emptyComment : Comment :=
  {| label := None; content := None; text := None; commentText := None;
     location := None; tag := None; recommendation := None;
     commentNumber := None; selectedOptions := None;
     photos := None; videos := None |}.

(** The section "S<n>", of order [n], without line items. *)
Definition bareSection (n : nat) : Section :=
  {| sectionName := js "S" ++ natToString n;
     order := Z.of_nat n;
     sectionNumber := None;
     lineItems := None |}.

(** An inspection of [n] such sections. *)
Definition bareInspection (n : nat) : Inspection :=
  {| sections := Some (List.map bareSection (List.seq 1 n)) |}.

Definition photoA : Photo :=
  {| photo_url := Some (js "http://host/a.png"); photo_caption := None |}.

(** ** More stand-ins *)

(** A line item "Roof", inspected, without comments. *)
Definition roofItem : LineItem :=
  {| id := js "7"; name := Some (js "Roof"); title := None;
     inspectionStatus := Some (js "I"); isDeficient := false;
     itemOptions := None; comments := None |}.

(** A section "Exterior" with that line item, twice. *)
Definition exteriorSection : Section :=
  {| sectionName := js "Exterior"; order := 4; sectionNumber := None;
     lineItems := Some [roofItem; roofItem] |}.

(** A comment with a photo and a video. *)
Definition mediaComment : Comment :=
  {| label := None; content := None; text := Some (js "See the video");
     commentText := None; location := None; tag := None;
     recommendation := None; commentNumber := None; selectedOptions := None;
     photos := Some [photoA];
     videos := Some [ {| video_url := Some (js "http://host/v.mp4") |} ] |}.

(* ================================================================== *)
(** * Part II. Properties                                              *)
(* ================================================================== *)

(** ** The text wrapper *)

Section TextFacts.
Import Text.

Lemma Qgtb_true (a b : Q) : Qgtb a b = true <-> b < a.
Proof.
  unfold Qgtb. rewrite negb_true_iff.
  destruct (Qle_bool a b) eqn:E.
  - apply Qle_bool_iff in E. split; [discriminate | intros H; exfalso; lra].
  - split; [intros _ | reflexivity].
    destruct (Qlt_le_dec b a) as [H|H]; [exact H|].
    apply Qle_bool_iff in H. congruence.
Qed.

Lemma Qgtb_false (a b : Q) : Qgtb a b = false <-> a <= b.
Proof.
  unfold Qgtb. rewrite negb_false_iff. apply Qle_bool_iff.
Qed.

Lemma truthy_false (s : jstring) : truthy s = false <-> s = [].
Proof. destruct s; simpl; split; congruence. Qed.

Lemma truthy_true (s : jstring) : truthy s = true <-> s <> [].
Proof. destruct s; simpl; split; congruence. Qed.

(** *** [split] *)

Lemma split_nonempty (sep : N) (s : jstring) : split sep s <> [].
Proof.
  destruct s as [|c r]; simpl; [discriminate|].
  destruct (c =? sep)%N; [discriminate|].
  destruct (split sep r); discriminate.
Qed.

Lemma split_no_sep (sep : N) (s : jstring) :
  Forall (fun w => ~ In sep w) (split sep s).
Proof.
  induction s as [|c r IH]; simpl.
  - constructor; [intros [] | constructor].
  - destruct (c =? sep)%N eqn:E.
    + constructor; [intros [] | exact IH].
    + destruct (split sep r) as [|w ws]; inversion IH; subst.
      * constructor; [|constructor].
        intros [H|[]]. subst. rewrite N.eqb_refl in E. discriminate.
      * constructor; [|assumption].
        intros [H|H]; [|tauto].
        subst. rewrite N.eqb_refl in E. discriminate.
Qed.

Lemma split_without_sep (sep : N) (w : jstring) :
  ~ In sep w -> split sep w = [w].
Proof.
  induction w as [|c r IH]; simpl; intros H; [reflexivity|].
  destruct (c =? sep)%N eqn:E.
  - apply N.eqb_eq in E. tauto.
  - rewrite IH by tauto. reflexivity.
Qed.

Lemma split_app_sep (sep : N) (a b : jstring) :
  split sep (a ++ sep :: b) = split sep a ++ split sep b.
Proof.
  induction a as [|c r IH]; simpl.
  - rewrite N.eqb_refl. reflexivity.
  - destruct (c =? sep)%N; rewrite IH; [reflexivity|].
    destruct (split sep r) eqn:E; [|reflexivity].
    exfalso. exact (split_nonempty _ _ E).
Qed.

(** *** The loop of [wrapText] *)

Lemma wordsOf_snoc (lines : list jstring) (l : jstring) :
  wordsOf (lines ++ [l]) = wordsOf lines ++ List.filter truthy (split SP l).
Proof.
  unfold wordsOf. rewrite flat_map_app, List.filter_app. simpl.
  rewrite app_nil_r. reflexivity.
Qed.

Lemma adjacentLines_snoc (P : jstring -> jstring -> Prop)
    (lines : list jstring) (x : jstring) :
  adjacentLines P lines ->
  match last lines with Some l => P l x | None => True end ->
  adjacentLines P (lines ++ [x]).
Proof.
  induction lines as [|l1 rest IH]; simpl; [tauto|].
  destruct rest as [|l2 rest']; simpl in *.
  - tauto.
  - intros [H1 H2] H3. split; [exact H1|]. apply IH; assumption.
Qed.

Section Loop.
Variables (font : Font) (fontSize maxWidth : Q) (words : list jstring).

Local Abbreviation fitting := (fitsOrSingleWord font fontSize maxWidth words).
Local Abbreviation breaking := (breaksAt font fontSize maxWidth words).
Local Abbreviation broken := (Text.brokenAfter font fontSize maxWidth words).
Local Abbreviation step := (wrapStep font fontSize maxWidth).

Lemma wrapStep_fits (lines : list jstring) (cur word : jstring) :
  In word words -> ~ In SP word ->
  Forall fitting lines -> cur = [] \/ fitting cur ->
  Forall fitting (fst (step (lines, cur) word))
  /\ (snd (step (lines, cur) word) = []
      \/ fitting (snd (step (lines, cur) word))).
Proof.
  intros Hin Hsp Hl Hc. unfold wrapStep.
  assert (Hword : fitting word).
  { destruct (Qlt_le_dec maxWidth (widthOfTextAtSize font word fontSize)).
    - right. auto.
    - left. assumption. }
  destruct (truthy cur) eqn:Et.
  - destruct (Qgtb _ maxWidth) eqn:Ew; simpl.
    + split; [|right; exact Hword].
      apply Forall_app. split; [exact Hl|].
      constructor; [|constructor].
      destruct Hc as [->|Hc]; [discriminate | exact Hc].
    + split; [exact Hl|]. right. left. apply Qgtb_false. exact Ew.
  - rewrite andb_false_r. simpl. split; [exact Hl | right; exact Hword].
Qed.

Lemma wrapLoop_fits (ws : list jstring) :
  forall (lines : list jstring) (cur : jstring),
  Forall (fun w => In w words /\ ~ In SP w) ws ->
  Forall fitting lines -> cur = [] \/ fitting cur ->
  Forall fitting (fst (List.fold_left step ws (lines, cur)))
  /\ (snd (List.fold_left step ws (lines, cur)) = []
      \/ fitting (snd (List.fold_left step ws (lines, cur)))).
Proof.
  induction ws as [|w ws IH]; intros lines cur Hws Hl Hc; cbn [List.fold_left].
  - split; assumption.
  - inversion Hws as [|? ? [Hin Hsp] Hws']; subst.
    destruct (wrapStep_fits lines cur w Hin Hsp Hl Hc) as [H1 H2].
    destruct (step (lines, cur) w) as [lines' cur'].
    apply IH; assumption.
Qed.

Lemma wrapStep_words (lines : list jstring) (cur word : jstring) :
  ~ In SP word ->
  wordsOf (fst (step (lines, cur) word))
    ++ List.filter truthy (split SP (snd (step (lines, cur) word)))
  = (wordsOf lines ++ List.filter truthy (split SP cur))
    ++ List.filter truthy [word].
Proof.
  intros Hsp. unfold wrapStep.
  destruct (truthy cur) eqn:Et.
  - destruct (Qgtb _ maxWidth); simpl fst; simpl snd.
    + rewrite wordsOf_snoc, (split_without_sep _ _ Hsp). reflexivity.
    + rewrite split_app_sep, List.filter_app, (split_without_sep _ _ Hsp).
      rewrite app_assoc. reflexivity.
  - rewrite andb_false_r. simpl fst; simpl snd.
    apply truthy_false in Et. subst cur.
    rewrite (split_without_sep _ _ Hsp).
    change (List.filter truthy (split SP [])) with (@nil jstring).
    rewrite app_nil_r. reflexivity.
Qed.

Lemma wrapLoop_words (ws : list jstring) :
  forall (lines : list jstring) (cur : jstring),
  Forall (fun w => ~ In SP w) ws ->
  wordsOf (fst (List.fold_left step ws (lines, cur)))
    ++ List.filter truthy (split SP (snd (List.fold_left step ws (lines, cur))))
  = (wordsOf lines ++ List.filter truthy (split SP cur))
    ++ List.filter truthy ws.
Proof.
  induction ws as [|w ws IH]; intros lines cur Hws.
  - simpl. rewrite app_nil_r. reflexivity.
  - inversion Hws as [|? ? Hsp Hws']; subst.
    cbn [List.fold_left].
    pose proof (wrapStep_words lines cur w Hsp) as Hstep.
    destruct (step (lines, cur) w) as [lines' cur'].
    rewrite IH by assumption. simpl fst in Hstep; simpl snd in Hstep.
    rewrite Hstep. rewrite <- app_assoc.
    change (List.filter truthy (w :: ws))
      with (List.filter truthy ([w] ++ ws)).
    rewrite List.filter_app. reflexivity.
Qed.

Lemma wrapStep_greedy (lines : list jstring) (cur word : jstring) :
  In word words ->
  adjacentLines breaking lines -> broken lines cur ->
  adjacentLines breaking (fst (step (lines, cur) word))
  /\ broken (fst (step (lines, cur) word)) (snd (step (lines, cur) word)).
Proof.
  intros Hin Hadj Hbr. unfold wrapStep, Text.brokenAfter in *.
  destruct (truthy cur) eqn:Et.
  - destruct (Qgtb _ maxWidth) eqn:Ew; simpl fst; simpl snd.
    + split; [apply adjacentLines_snoc; assumption|].
      rewrite last_snoc. exists word, []. rewrite app_nil_r.
      repeat split; [assumption|]. apply Qgtb_true. exact Ew.
    + split; [assumption|].
      destruct (last lines); [|exact I].
      destruct Hbr as (w & r & Hw & -> & Hlt).
      exists w, (r ++ SP :: word). rewrite <- app_assoc. auto.
  - rewrite andb_false_r. simpl fst; simpl snd.
    split; [assumption|].
    apply truthy_false in Et. subst cur.
    destruct (last lines); [|exact I].
    destruct Hbr as (w & r & Hw & Heq & Hlt).
    symmetry in Heq. apply app_eq_nil in Heq. destruct Heq as [-> ->].
    exists [], word. auto.
Qed.

Lemma wrapLoop_greedy (ws : list jstring) :
  forall (lines : list jstring) (cur : jstring),
  Forall (fun w => In w words) ws ->
  adjacentLines breaking lines -> broken lines cur ->
  adjacentLines breaking (fst (List.fold_left step ws (lines, cur)))
  /\ broken (fst (List.fold_left step ws (lines, cur)))
            (snd (List.fold_left step ws (lines, cur))).
Proof.
  induction ws as [|w ws IH]; intros lines cur Hws Hadj Hbr; cbn [List.fold_left].
  - split; assumption.
  - inversion Hws as [|? ? Hin Hws']; subst.
    destruct (wrapStep_greedy lines cur w) as [H1 H2]; try assumption.
    destruct (step (lines, cur) w) as [lines' cur'].
    apply IH; assumption.
Qed.

End Loop.

(** C2. Every line the wrapper returns measures at most [maxWidth]
    under the font's measure, unless it is a single word (one element
    of the white-space split, with no space inside) that is itself
    wider than [maxWidth].  No word is broken or lost: the non-empty
    words of the lines are, in order, the non-empty words of the
    sanitized text.  The accumulation is greedy: each line but the
    first starts with the word whose addition to the line before it
    overflowed [maxWidth]. *)
Theorem wrapText_fits_or_single_word
    (text : jstring) (font : Font) (fontSize maxWidth : Q) :
  let words := split SP (sanitizeText text) in
  let lines := wrapText text font fontSize maxWidth in
  Forall (fitsOrSingleWord font fontSize maxWidth words) lines
  /\ wordsOf lines = List.filter truthy words
  /\ adjacentLines (breaksAt font fontSize maxWidth words) lines.
Proof.
  intros words lines. subst lines. unfold wrapText, wrapWords.
  fold words.
  assert (Hsp : Forall (fun w => ~ In SP w) words) by apply split_no_sep.
  assert (Hin : Forall (fun w => In w words) words)
    by (apply List.Forall_forall; auto).
  assert (Hboth : Forall (fun w => In w words /\ ~ In SP w) words).
  { apply List.Forall_forall. intros w Hw. split; [exact Hw|].
    exact (proj1 (List.Forall_forall _ _) Hsp w Hw). }
  pose proof (wrapLoop_fits font fontSize maxWidth words words [] []
                Hboth (List.Forall_nil _) (or_introl eq_refl)) as [F1 F2].
  pose proof (wrapLoop_words font fontSize maxWidth words [] [] Hsp) as W.
  pose proof (wrapLoop_greedy font fontSize maxWidth words words [] []
                Hin I I) as [G1 G2].
  destruct (List.fold_left (wrapStep font fontSize maxWidth) words ([], []))
    as [lines cur] eqn:E.
  unfold Text.brokenAfter in G2. simpl fst in *; simpl snd in *.
  destruct (truthy cur) eqn:Et.
  - repeat split.
    + apply Forall_app. split; [exact F1|].
      constructor; [|constructor].
      destruct F2 as [->|F2]; [discriminate | exact F2].
    + rewrite wordsOf_snoc. exact W.
    + apply adjacentLines_snoc; assumption.
  - apply truthy_false in Et. subst cur. repeat split.
    + exact F1.
    + change (List.filter truthy (split SP [])) with (@nil jstring) in W.
      rewrite app_nil_r in W. exact W.
    + exact G1.
Qed.

(** *** [sanitizeText] *)

Lemma trimStart_incl (s : jstring) (c : N) : In c (trimStart s) -> In c s.
Proof.
  induction s as [|a s IH]; simpl; [tauto|].
  destruct (isWhiteSpace a); simpl; tauto.
Qed.

Lemma trim_incl (s : jstring) (c : N) : In c (trim s) -> In c s.
Proof.
  unfold trim. intros H.
  apply in_rev in H. apply trimStart_incl in H.
  apply in_rev in H. apply trimStart_incl in H. exact H.
Qed.

Lemma isPrintable_spec (c : N) : isPrintable c = true <-> isPrintableAscii c.
Proof.
  unfold isPrintable, isPrintableAscii.
  rewrite andb_true_iff, !N.leb_le. tauto.
Qed.

Lemma sanitizeText_pipeline (text : jstring) :
  sanitizeText text
  = trim (removeUnless isPrintable
            (replaceRuns isWhiteSpace false
               (replaceRuns isLineBreak false text))).
Proof. destruct text; reflexivity. Qed.

Lemma sanitizeText_printable (text : jstring) :
  Forall isPrintableAscii (sanitizeText text).
Proof.
  rewrite sanitizeText_pipeline. apply List.Forall_forall. intros c Hc.
  apply trim_incl in Hc. unfold removeUnless in Hc.
  apply List.filter_In in Hc. apply isPrintable_spec. tauto.
Qed.

Lemma split_incl (sep : N) (s w : jstring) (c : N) :
  In w (split sep s) -> In c w -> In c s.
Proof.
  revert w; induction s as [|a s IH]; intros w; simpl.
  - intros [<-|[]] [].
  - destruct (a =? sep)%N.
    + intros [<-|H] Hc; [destruct Hc|]. right. eapply IH; eassumption.
    + destruct (split sep s) as [|w0 ws] eqn:E.
      * intros [<-|[]] [->|[]]. left; reflexivity.
      * intros [<-|H] Hc.
        -- destruct Hc as [->|Hc]; [left; reflexivity|].
           right. apply (IH w0); [left; reflexivity | exact Hc].
        -- right. apply (IH w); [right; exact H | exact Hc].
Qed.

Lemma wrapLoop_printable (font : Font) (fontSize maxWidth : Q)
    (ws : list jstring) :
  forall (lines : list jstring) (cur : jstring),
  Forall (Forall isPrintableAscii) ws ->
  Forall (Forall isPrintableAscii) lines -> Forall isPrintableAscii cur ->
  Forall (Forall isPrintableAscii)
    (fst (List.fold_left (wrapStep font fontSize maxWidth) ws (lines, cur)))
  /\ Forall isPrintableAscii
    (snd (List.fold_left (wrapStep font fontSize maxWidth) ws (lines, cur))).
Proof.
  assert (Hsp : isPrintableAscii SP) by (unfold isPrintableAscii, SP; lia).
  induction ws as [|w ws IH]; intros lines cur Hws Hl Hc; cbn [List.fold_left].
  - split; assumption.
  - inversion Hws as [|? ? Hw Hws']; subst.
    unfold wrapStep at 2 4.
    destruct (truthy cur); [destruct (Qgtb _ maxWidth)|]; cbn [andb];
      rewrite ?andb_false_r; apply IH; try assumption.
    + apply Forall_app. split; [assumption|]. constructor; [assumption|constructor].
    + apply Forall_app. split; [assumption|]. constructor; assumption.
Qed.


End TextFacts.

(** ** Pagination *)

Section PaginationFacts.

Lemma Qltb_true (a b : Q) : Qltb a b = true <-> a < b.
Proof. unfold Qltb. apply (Qgtb_true b a). Qed.

Lemma Qltb_false (a b : Q) : Qltb a b = false <-> b <= a.
Proof. unfold Qltb. apply (Qgtb_false b a). Qed.

Import GeneratePdf.

(** One call of [ensureSpace] in generatePdf.js: either the block fits
    and the state is returned as it is, or exactly one templated page
    is appended, becomes the current page, and the cursor is put at
    the content start. *)
Lemma ensureSpace_cases (lib : PdfLib) (headerText : jstring)
    (neededHeight : Q) (s : St) :
  (FOOTER_BUFFER <= pos s - neededHeight
   /\ ensureSpace lib headerText neededHeight s = s)
  \/ (pos s - neededHeight < FOOTER_BUFFER
      /\ ensureSpace lib headerText neededHeight s
         = mkSt (doc s ++ [newPage lib (pageTemplate lib headerText)])
                (contentStartY lib) (List.length (doc s))).
Proof.
  unfold ensureSpace.
  destruct (Qltb (pos s - neededHeight) FOOTER_BUFFER) eqn:E.
  - right. split; [apply Qltb_true; exact E | reflexivity].
  - left. split; [apply Qltb_false; exact E | reflexivity].
Qed.

(** X6. The guarantee of [ensureSpace] in generatePdf.js, for every
    sequence of calls: after each call the block asked for can be
    drawn at the cursor without entering the footer buffer, unless
    that block alone is higher than the usable height of a page; the
    state is unchanged when the block already fits; and when the
    footer buffer is entered, exactly one page was created. *)
Lemma ensureSpace_guarantee (lib : PdfLib) (headerText : jstring)
    (needs : list Q) :
  forall s : St,
  Forall (fun '(n, s') =>
            FOOTER_BUFFER <= pos s' - n \/ usableHeight lib < n)
         (ensureSpaceTrace lib headerText needs s).
Proof.
  induction needs as [|n rest IH]; intros s; simpl; constructor.
  - destruct (ensureSpace_cases lib headerText n s) as [[H ->]|[H ->]].
    + left. exact H.
    + simpl. unfold usableHeight.
      destruct (Qlt_le_dec (contentStartY lib - FOOTER_BUFFER) n) as [L|L].
      * right. exact L.
      * left. lra.
  - apply IH.
Qed.

Lemma ensureSpace_overflow_one_page (lib : PdfLib) (headerText : jstring)
    (neededHeight : Q) (s : St) :
  FOOTER_BUFFER <= pos (ensureSpace lib headerText neededHeight s) - neededHeight
  \/ (usableHeight lib < neededHeight
      /\ List.length (doc (ensureSpace lib headerText neededHeight s))
         = S (List.length (doc s))).
Proof.
  destruct (ensureSpace_cases lib headerText neededHeight s) as [[H ->]|[H ->]].
  - left. exact H.
  - simpl. unfold usableHeight.
    destruct (Qlt_le_dec (contentStartY lib - FOOTER_BUFFER) neededHeight) as [L|L].
    + right. split; [exact L|]. rewrite length_app. simpl. lia.
    + left. lra.
Qed.

(** C1, on the earlier generatePdf.js.  Its [ensureSpace] asks
    [checkAndCreateNewPage] for a page without forcing it, and that
    one adds a page only below 50: with the cursor at 120 and a block
    of 40, which fits a page many times over, no page is added and the
    block ends at 80, inside the footer buffer of 100. *)
Theorem legacy_ensureSpace_enters_footer (lib : PdfLib) (d : list Page)
    (page : nat) :
  let s := mkSt d 120 page in
  GeneratePdfLegacy.ensureSpace lib 40 s = s
  /\ pos (GeneratePdfLegacy.ensureSpace lib 40 s) - 40
     < GeneratePdfLegacy.FOOTER_BUFFER
  /\ (40 <= GeneratePdfLegacy.usableHeight lib \/ pageHeight lib < 260)
  /\ GeneratePdf.ensureSpace lib [] 40 s
     = mkSt (d ++ [newPage lib (GeneratePdf.pageTemplate lib [])])
            (GeneratePdf.contentStartY lib) (List.length d).
Proof.
  intros s. split; [reflexivity|]. split; [reflexivity|]. split.
  - unfold GeneratePdfLegacy.usableHeight, GeneratePdfLegacy.contentStartY,
      GeneratePdfLegacy.FOOTER_BUFFER.
    destruct (Qlt_le_dec (pageHeight lib) 260); [right | left]; lra.
  - reflexivity.
Qed.

(** The same on a whole report: fourteen sections without line items
    on A4 pages.  The earlier generatePdf.js puts the thirteenth title at
    121.89, where the 40 units asked for do not fit above the footer
    buffer, and the fourteenth at 71.89, all on the first page;
    generatePdf.js starts the second page with the thirteenth. *)
Lemma legacy_section_title_in_footer :
  let legacy := GeneratePdfLegacy.layoutBody sampleLib offlineWorld (bareInspection 14) in
  List.length (doc legacy) = 1%nat
  /\ List.skipn 15 (drawnTextsAt (allOps (doc legacy)))
     = [(js "XIII S13", 12189 # 100); (js "XIV S14", 7189 # 100)]
  /\ List.map (fun p => List.length (drawnTexts (page_ops p)))
       match GeneratePdf.createPdf sampleLib offlineWorld (bareInspection 14) with
       | Resolved pages => pages
       | Rejected _ => []
       end
     = [22%nat; 12%nat].
Proof. vm_compute. repeat split. Qed.

End PaginationFacts.

(** ** The check boxes of a line item *)

Section CheckBoxFacts.

Lemma draw_lookup (op : DrawOp) (s : St) (p : Page) :
  doc s !! currentPage s = Some p ->
  doc (draw op s) !! currentPage (draw op s) = Some (drawOn op p).
Proof.
  intros H. unfold draw, drawOnPage. simpl.
  rewrite list_lookup_alter_eq, H. reflexivity.
Qed.

Lemma checkedBoxes_app (li : LineItem) (a b : list DrawOp) :
  checkedBoxes li (a ++ b) = checkedBoxes li a ++ checkedBoxes li b.
Proof. unfold checkedBoxes. apply flat_map_app. Qed.

Lemma checkedBoxes_box (li : LineItem) (type : jstring) (x y size : Q)
    (checked : bool) :
  checkedBoxes li [CheckBox (checkBoxPrefix li ++ type) x y size checked]
  = if checked then [type] else [].
Proof.
  unfold checkedBoxes. simpl. destruct checked; [|reflexivity].
  rewrite app_nil_r, drop_app_length. reflexivity.
Qed.

(** What the precedence rule marks: [D] alone for a deficient item,
    otherwise the types equal to the inspection status. *)
Lemma isChecked_types (li : LineItem) :
  List.filter (GeneratePdf.isChecked li) GeneratePdf.checkboxTypes
  = if isDeficient li then [js "D"]
    else List.filter (fun t => bool_decide (inspectionStatus li = Some t))
           GeneratePdf.checkboxTypes.
Proof.
  unfold GeneratePdf.isChecked, GeneratePdf.checkboxTypes.
  destruct (isDeficient li); simpl.
  - reflexivity.
  - repeat match goal with
           | |- context [bool_decide (Some ?t = inspectionStatus li)] =>
               rewrite (bool_decide_ext (Some t = inspectionStatus li)
                          (inspectionStatus li = Some t)) by (split; congruence)
           end.
    repeat match goal with
           | |- context [bool_decide ?P] => destruct (bool_decide P)
           end; reflexivity.
Qed.

Lemma status_at_most_one (li : LineItem) :
  (List.length
     (List.filter (fun t => bool_decide (inspectionStatus li = Some t))
        GeneratePdf.checkboxTypes) <= 1)%nat.
Proof.
  unfold GeneratePdf.checkboxTypes. simpl.
  repeat match goal with
         | |- context [bool_decide ?P] =>
             destruct (bool_decide_reflect P); simpl
         end; try lia;
    match goal with
    | H1 : inspectionStatus li = Some _, H2 : inspectionStatus li = Some _ |- _ =>
        rewrite H1 in H2; discriminate H2
    end.
Qed.

Lemma fold_draw_pairs {A B : Type} (f : A -> B -> DrawOp) (l : list (A * B)) :
  forall (s : St) (p : Page),
  doc s !! currentPage s = Some p ->
  doc (List.fold_left (fun s '(a, b) => draw (f a b) s) l s) !! currentPage s
    = Some (mkPage (page_width p) (page_height p)
              (page_ops p ++ List.map (fun '(a, b) => f a b) l))
  /\ currentPage (List.fold_left (fun s '(a, b) => draw (f a b) s) l s)
     = currentPage s
  /\ pos (List.fold_left (fun s '(a, b) => draw (f a b) s) l s) = pos s.
Proof.
  induction l as [|[a b] l IH]; intros s p H; cbn [List.fold_left List.map].
  - rewrite app_nil_r. destruct p; auto.
  - pose proof (draw_lookup (f a b) s p H) as H'.
    destruct (IH (draw (f a b) s) (drawOn (f a b) p) H') as (I1 & I2 & I3).
    change (currentPage (draw (f a b) s)) with (currentPage s) in I1, I2.
    change (pos (draw (f a b) s)) with (pos s) in I3.
    repeat split; try assumption.
    rewrite I1. simpl. rewrite <- app_assoc. reflexivity.
Qed.

Lemma fold_drawOn_pairs {A B : Type} (f : A -> B -> DrawOp) (l : list (A * B)) :
  forall page : Page,
  List.fold_left (fun page '(a, b) => drawOn (f a b) page) l page
  = mkPage (page_width page) (page_height page)
      (page_ops page ++ List.map (fun '(a, b) => f a b) l).
Proof.
  induction l as [|[a b] l IH]; intros page; cbn [List.fold_left List.map].
  - rewrite app_nil_r. destruct page; reflexivity.
  - rewrite IH. simpl. rewrite <- app_assoc. reflexivity.
Qed.

Lemma checkedBoxes_map {B : Type} (li : LineItem) (y size : Q)
    (checked : jstring -> bool) (fx : B -> Q) (l : list (jstring * B)) :
  checkedBoxes li
    (List.map (fun '(t, b) => CheckBox (checkBoxPrefix li ++ t) (fx b) y size (checked t)) l)
  = List.filter checked (List.map fst l).
Proof.
  induction l as [|[t b] l IH]; [reflexivity|].
  cbn [List.map fst List.filter].
  change (?x :: ?r) with ([x] ++ r) at 1.
  rewrite checkedBoxes_app, checkedBoxes_box, IH.
  destruct (checked t); reflexivity.
Qed.

(** C7. The four check boxes a line item gets, in generatePdf.js and
    in worker.js alike: the boxes marked are the same in both, there is
    at most one of them, it is [D] alone when the item is deficient,
    whatever its inspection status, and otherwise it is the box whose
    type equals the inspection status. *)
Theorem checkbox_precedence (lib : PdfLib) (li : LineItem) (margin y : Q)
    (s : St) (p page : Page) :
  doc s !! currentPage s = Some p ->
  exists boxes boxes' : list DrawOp,
    doc (GeneratePdf.addCheckBoxToLineItem lib li margin y s) !! currentPage s
      = Some (mkPage (page_width p) (page_height p) (page_ops p ++ boxes))
    /\ Worker.addCheckBoxToLineItem li margin y page
       = mkPage (page_width page) (page_height page) (page_ops page ++ boxes')
    /\ List.length boxes = 4%nat /\ List.length boxes' = 4%nat
    /\ checkedBoxes li boxes' = checkedBoxes li boxes
    /\ (List.length (checkedBoxes li boxes) <= 1)%nat
    /\ checkedBoxes li boxes
       = if isDeficient li then [js "D"]
         else List.filter (fun t => bool_decide (inspectionStatus li = Some t))
                [js "I"; js "NI"; js "NP"; js "D"].
Proof.
  intros H.
  unfold GeneratePdf.addCheckBoxToLineItem, Worker.addCheckBoxToLineItem.
  destruct (fold_draw_pairs
              (fun t x => CheckBox (GeneratePdf.checkBoxFieldName li t) x y
                            GeneratePdf.CHECKBOX_SIZE (GeneratePdf.isChecked li t))
              (List.combine GeneratePdf.checkboxTypes
                 (GeneratePdf.getCheckboxXs (pageWidth lib) margin)) s p H)
    as (D1 & _ & _).
  eexists. eexists. split; [exact D1|]. split; [apply fold_drawOn_pairs|].
  split; [reflexivity|]. split; [reflexivity|].
  unfold GeneratePdf.checkBoxFieldName.
  rewrite (checkedBoxes_map li y 15 (Worker.isChecked li)
             (fun index => margin + 40 * inject_Z (Z.of_nat index))).
  rewrite (checkedBoxes_map li y GeneratePdf.CHECKBOX_SIZE
             (GeneratePdf.isChecked li) (fun x => x)).
  change (List.map fst (List.combine Worker.checkboxTypes (List.seq 0 4)))
    with GeneratePdf.checkboxTypes.
  change (List.map fst (List.combine GeneratePdf.checkboxTypes
                          (GeneratePdf.getCheckboxXs (pageWidth lib) margin)))
    with GeneratePdf.checkboxTypes.
  split; [reflexivity|].
  rewrite isChecked_types.
  split; [|reflexivity].
  destruct (isDeficient li); [simpl; lia | apply status_at_most_one].
Qed.

Lemma checkbox_precedence_witness :
  exists boxes : list DrawOp,
    List.length boxes = 4%nat
    /\ checkedBoxes
         {| id := js "7"; name := None; title := None;
            inspectionStatus := Some (js "I"); isDeficient := true;
            itemOptions := None; comments := None |} boxes = [js "D"].
Proof.
  pose (lib := {| pageWidth := 59528 # 100; pageHeight := 84189 # 100;
                  fontOf := fun _ => {| widthOfTextAtSize := fun _ _ => 0 |};
                  breakTextIntoLines := fun t _ _ => [t];
                  embedPng := fun _ => None; embedJpg := fun _ => None;
                  encodes := fun _ => true |}).
  destruct (checkbox_precedence lib
              {| id := js "7"; name := None; title := None;
                 inspectionStatus := Some (js "I"); isDeficient := true;
                 itemOptions := None; comments := None |}
              20 700 (mkSt [newPage lib []] 700 0) (newPage lib []) (newPage lib [])
              eq_refl)
    as (boxes & boxes' & _ & _ & L & _ & _ & _ & C).
  exists boxes. split; [exact L | exact C].
Defined.

End CheckBoxFacts.

(** ** The photo grid of generatePdf.js *)

Section GridFacts.
Import GeneratePdf.

(** *** The rows *)

Lemma whileIndices_concat {A : Type} (l : list A) (step : nat) :
  (1 <= step)%nat ->
  forall fuel i : nat,
  (List.length l - i <= fuel)%nat ->
  List.concat (List.map (fun i => slice i (i + step) l)
                 (whileIndices fuel i step (List.length l)))
  = List.skipn i l.
Proof.
  intros Hstep. induction fuel as [|fuel IH]; intros i Hfuel; simpl.
  - symmetry. apply List.skipn_all2. lia.
  - destruct (i <? List.length l)%nat eqn:E.
    + simpl. rewrite IH by lia. unfold slice.
      replace (i + step - i)%nat with step by lia.
      rewrite (Nat.add_comm i step), <- List.skipn_skipn.
      apply List.firstn_skipn.
    + apply Nat.ltb_ge in E. symmetry. apply List.skipn_all2. exact E.
Qed.

Lemma whileIndices_length (step n : nat) :
  (1 <= step)%nat ->
  forall fuel i : nat,
  (n - i <= fuel)%nat ->
  List.length (whileIndices fuel i step n) = ((n - i + (step - 1)) / step)%nat.
Proof.
  intros Hstep. induction fuel as [|fuel IH]; intros i Hfuel; simpl.
  - replace (n - i)%nat with 0%nat by lia. simpl.
    symmetry. apply Nat.div_small. lia.
  - destruct (i <? n)%nat eqn:E.
    + apply Nat.ltb_lt in E. simpl. rewrite IH by lia.
      destruct (Nat.le_gt_cases (n - i) step) as [L|L].
      * replace (n - (i + step))%nat with 0%nat by lia.
        rewrite (Nat.div_small (0 + (step - 1)) step) by lia.
        apply (Nat.div_unique _ _ 1 (n - i - 1)); lia.
      * replace (n - i + (step - 1))%nat
          with ((n - (i + step) + (step - 1)) + 1 * step)%nat by lia.
        rewrite Nat.div_add by lia. lia.
    + apply Nat.ltb_ge in E. replace (n - i)%nat with 0%nat by lia.
      symmetry. apply Nat.div_small. lia.
Qed.

Lemma whileIndices_below (step n : nat) :
  forall fuel i : nat,
  Forall (fun j => (j < n)%nat) (whileIndices fuel i step n).
Proof.
  induction fuel as [|fuel IH]; intros i; simpl; [constructor|].
  destruct (i <? n)%nat eqn:E; [|constructor].
  constructor; [apply Nat.ltb_lt; exact E | apply IH].
Qed.

Lemma gridColumns_bounds (n : nat) :
  (1 <= n)%nat -> (1 <= gridColumns n <= 3)%nat.
Proof. unfold gridColumns, GRID_COLUMNS_DEFAULT. lia. Qed.

Lemma gridRows_concat (embedded : list Embedded) :
  List.concat (gridRows embedded) = embedded.
Proof.
  unfold gridRows. destruct embedded as [|e l]; [reflexivity|].
  apply (whileIndices_concat (e :: l)); [|lia].
  apply gridColumns_bounds. simpl. lia.
Qed.

Lemma gridRows_count (embedded : list Embedded) :
  List.length (gridRows embedded) = ((List.length embedded + 2) / 3)%nat.
Proof.
  unfold gridRows. rewrite List.length_map.
  destruct embedded as [|e1 [|e2 [|e3 l]]]; try reflexivity.
  set (n := List.length (e1 :: e2 :: e3 :: l)).
  assert (Hn : (3 <= n)%nat) by (subst n; simpl; lia).
  replace (gridColumns n) with 3%nat
    by (unfold gridColumns, GRID_COLUMNS_DEFAULT; lia).
  rewrite whileIndices_length by lia.
  replace (n - 0 + (3 - 1))%nat with (n + 2)%nat by lia. reflexivity.
Qed.

Lemma gridRows_sizes (embedded : list Embedded) :
  Forall (fun row => (1 <= List.length row <= 3)%nat) (gridRows embedded).
Proof.
  unfold gridRows. apply Forall_map.
  destruct embedded as [|e l]; [constructor|].
  set (n := List.length (e :: l)).
  pose proof (gridColumns_bounds n ltac:(subst n; simpl; lia)) as Hc.
  eapply Forall_impl; [apply whileIndices_below|].
  intros i Hi. simpl in Hi. unfold slice.
  rewrite List.length_firstn, List.length_skipn. fold n. lia.
Qed.

(** *** The scale of an image *)

Lemma floor_le (x : Q) : floor x <= x.
Proof. unfold floor. apply Qfloor_le. Qed.

Lemma floor_gt (x : Q) : x < floor x + 1.
Proof.
  unfold floor. pose proof (Qlt_floor x) as H.
  rewrite inject_Z_plus in H. exact H.
Qed.

Lemma imgW_pos (img : Image) : 0 < imgW img.
Proof. unfold imgW. change 0 with (inject_Z 0). rewrite <- Zlt_Qlt. lia. Qed.

Lemma imgH_pos (img : Image) : 0 < imgH img.
Proof. unfold imgH. change 0 with (inject_Z 0). rewrite <- Zlt_Qlt. lia. Qed.

Lemma scaleFactor_bounds (cellW : Q) (img : Image) :
  scaleFactor cellW img <= 1
  /\ imgW img * scaleFactor cellW img <= cellW
  /\ imgH img * scaleFactor cellW img <= GRID_MAX_CELL_HEIGHT.
Proof.
  pose proof (imgW_pos img) as Hw. pose proof (imgH_pos img) as Hh.
  unfold scaleFactor.
  set (a := cellW / imgW img). set (b := GRID_MAX_CELL_HEIGHT / imgH img).
  pose proof (Q.le_min_r (Qmin a b) 1) as H1.
  pose proof (Q.le_min_l (Qmin a b) 1) as H2.
  pose proof (Q.le_min_l a b) as H3.
  pose proof (Q.le_min_r a b) as H4.
  assert (Ha : imgW img * a == cellW)
    by (subst a; apply Qmult_div_r; lra).
  assert (Hb : imgH img * b == GRID_MAX_CELL_HEIGHT)
    by (subst b; apply Qmult_div_r; lra).
  split; [exact H1|]. split.
  - rewrite <- Ha. apply Qmult_le_l; [exact Hw | lra].
  - rewrite <- Hb. apply Qmult_le_l; [exact Hh | lra].
Qed.

(** An image is never drawn larger than it is, it fits its cell, and
    its proportions are kept up to the rounding of [Math.floor]. *)
Lemma scaleItem_fits (cellW : Q) (item : Embedded) :
  let it := scaleItem cellW item in
  let w := imgW (emb_img item) in
  let h := imgH (emb_img item) in
  sc_w it <= w /\ sc_h it <= h
  /\ sc_w it <= cellW /\ sc_h it <= GRID_MAX_CELL_HEIGHT
  /\ sc_w it * h < (sc_h it + 1) * w
  /\ sc_h it * w < (sc_w it + 1) * h.
Proof.
  intros it w h. subst it. unfold scaleItem. simpl. fold w h.
  set (f := scaleFactor cellW (emb_img item)).
  pose proof (scaleFactor_bounds cellW (emb_img item)) as (B1 & B2 & B3).
  fold w h f in B1, B2, B3.
  pose proof (imgW_pos (emb_img item)) as Hw. fold w in Hw.
  pose proof (imgH_pos (emb_img item)) as Hh. fold h in Hh.
  pose proof (floor_le (w * f)) as Fw. pose proof (floor_gt (w * f)) as Gw.
  pose proof (floor_le (h * f)) as Fh. pose proof (floor_gt (h * f)) as Gh.
  assert (Hwf : w * f <= w * 1) by (apply Qmult_le_l; assumption).
  assert (Hhf : h * f <= h * 1) by (apply Qmult_le_l; assumption).
  assert (E : w * f * h == h * f * w) by ring.
  repeat split; try lra.
  - apply Qle_lt_trans with (w * f * h).
    + apply Qmult_le_compat_r; lra.
    + rewrite E. apply Qmult_lt_compat_r; lra.
  - apply Qle_lt_trans with (h * f * w).
    + apply Qmult_le_compat_r; lra.
    + rewrite <- E. apply Qmult_lt_compat_r; lra.
Qed.

(** *** The place of an image in its cell *)

Lemma floor_half (d : Z) : floor (inject_Z d / 2) = inject_Z (d / 2).
Proof.
  unfold floor. f_equal.
  unfold Qdiv, Qmult, Qinv, inject_Z, Qfloor. simpl.
  rewrite Z.mul_1_r. reflexivity.
Qed.

(** The margins left and right of an image in its cell differ by at
    most one unit. *)
Lemma imageX_centered (availW : Q) (columns c : nat) (item : Embedded) :
  let cellW := gridCellWidth availW columns in
  let it := scaleItem cellW item in
  let left := imageX cellW c it - cellX cellW c in
  let right := (cellX cellW c + cellW) - (imageX cellW c it + sc_w it) in
  left <= right /\ right <= left + 1.
Proof.
  intros cellW it left right. subst left right. unfold imageX.
  assert (Hc : exists zc, cellW = inject_Z zc)
    by (eexists; reflexivity).
  assert (Hw : exists zw, sc_w it = inject_Z zw)
    by (eexists; reflexivity).
  destruct Hc as [zc Hc]. destruct Hw as [zw Hw].
  rewrite Hw, Hc.
  assert (E : floor ((inject_Z zc - inject_Z zw) / 2) == inject_Z ((zc - zw) / 2)).
  { rewrite <- floor_half. unfold floor.
    apply inject_Z_injective. apply Qfloor_comp.
    unfold Z.sub. rewrite inject_Z_plus, inject_Z_opp. reflexivity. }
  pose proof (Z.div_mod (zc - zw) 2 ltac:(lia)) as Hd.
  pose proof (Z.mod_pos_bound (zc - zw) 2 ltac:(lia)) as Hm.
  set (q := ((zc - zw) / 2)%Z) in *.
  assert (L1 : 2 * inject_Z q <= inject_Z zc - inject_Z zw).
  { change 2 with (inject_Z 2). rewrite <- inject_Z_mult.
    unfold Qminus. rewrite <- inject_Z_opp, <- inject_Z_plus.
    rewrite <- Zle_Qle. lia. }
  assert (L2 : inject_Z zc - inject_Z zw <= 2 * inject_Z q + 1).
  { change 2 with (inject_Z 2). change 1 with (inject_Z 1).
    rewrite <- inject_Z_mult.
    unfold Qminus. rewrite <- inject_Z_opp, <- !inject_Z_plus.
    rewrite <- Zle_Qle. lia. }
  generalize dependent (cellX (inject_Z zc) c). intros x.
  generalize dependent (floor ((inject_Z zc - inject_Z zw) / 2)). intros fl E.
  split; lra.
Qed.

(** *** The height of a row *)

Lemma fold_Qmax_ge (l : list Q) :
  forall x : Q,
  x <= List.fold_left Qmax l x
  /\ Forall (fun y => y <= List.fold_left Qmax l x) l.
Proof.
  induction l as [|a l IH]; intros x; simpl.
  - split; [lra | constructor].
  - destruct (IH (Qmax x a)) as [I1 I2].
    pose proof (Q.le_max_l x a). pose proof (Q.le_max_r x a).
    split; [lra|]. constructor; [lra | exact I2].
Qed.

Lemma fold_Qmax_in (l : list Q) :
  forall x : Q,
  List.fold_left Qmax l x == x
  \/ Exists (fun y => List.fold_left Qmax l x == y) l.
Proof.
  induction l as [|a l IH]; intros x; simpl.
  - left. reflexivity.
  - destruct (IH (Qmax x a)) as [I|I].
    + destruct (Q.max_dec x a) as [M|M].
      * left. rewrite I, M. reflexivity.
      * right. constructor. rewrite I, M. reflexivity.
    + right. apply Exists_cons_tl. exact I.
Qed.

(** The height of a row is the largest of the scaled heights of its
    images, plus one caption line of 12 when an image of the row has a
    caption. *)
Lemma rowHeight_max (scaled : list Scaled) :
  captionHeight scaled
    = (if List.existsb (fun it => truthy (sc_caption it)) scaled then 12 else 0)
  /\ Forall (fun it => sc_h it + captionHeight scaled <= rowHeight scaled) scaled
  /\ (scaled = []
      \/ Exists (fun it => rowHeight scaled == sc_h it + captionHeight scaled) scaled).
Proof.
  split; [reflexivity|]. unfold rowHeight.
  destruct scaled as [|it0 rest]; [split; [constructor | left; reflexivity]|].
  cbn [List.map maxOf].
  destruct (fold_Qmax_ge (List.map sc_h rest) (sc_h it0)) as [G1 G2].
  split.
  - constructor; [lra|].
    apply List.Forall_forall. intros it Hit.
    pose proof (proj1 (List.Forall_forall _ _) G2 (sc_h it)
                  (List.in_map sc_h _ _ Hit)) as Hle.
    simpl in Hle. lra.
  - right.
    destruct (fold_Qmax_in (List.map sc_h rest) (sc_h it0)) as [I|I].
    + constructor. rewrite I. reflexivity.
    + apply Exists_cons_tl. apply List.Exists_exists in I.
      destruct I as (y & Hy & Ey). apply List.in_map_iff in Hy.
      destruct Hy as (it & <- & Hit).
      apply List.Exists_exists. exists it. split; [exact Hit|].
      rewrite Ey. reflexivity.
Qed.



(** The three-column grid of the complete report follows another rule:
    its boxes are not rounded, and an image is first scaled to three
    tenths, so that an image of 100 by 100 is drawn at 30 by 30 where
    generatePdf.js draws it at its own size. *)
Lemma complete_report_grid_prescales :
  let img := {| img_width := 100; img_height := 100 |} in
  let box := CompleteReport.gridBoxWidth sampleLib CompleteReport.defaultOptions in
  box == 50528 # 300
  /\ fst (CompleteReport.fitBox (3 # 10) box 150 img) == 30
  /\ snd (CompleteReport.fitBox (3 # 10) box 150 img) == 30
  /\ sc_w (scaleItem 140 {| emb_img := img; emb_caption := [] |}) == 100
  /\ sc_h (scaleItem 140 {| emb_img := img; emb_caption := [] |}) == 100.
Proof. vm_compute. repeat split. Qed.

End GridFacts.

(** ** The layout only goes forward *)

Section GrowthFacts.

Lemma grows_refl (s : St) : grows s s.
Proof. unfold grows. auto. Qed.

Lemma grows_trans (s1 s2 s3 : St) : grows s1 s2 -> grows s2 s3 -> grows s1 s3.
Proof.
  unfold grows. intros (A1 & A2 & A3) (B1 & B2 & B3).
  repeat split; [lia | auto | auto].
Qed.

Lemma allOps_drawOnPage_old (d : list Page) (i : nat) (op op' : DrawOp) :
  In op' (allOps d) -> In op' (allOps (drawOnPage i op d)).
Proof.
  unfold allOps, drawOnPage. revert i.
  induction d as [|p d IH]; intros i; [auto|].
  destruct i as [|i]; simpl; rewrite !in_app_iff; intros [H|H]; auto.
  right. apply IH. exact H.
Qed.

Lemma allOps_drawOnPage_new (d : list Page) (i : nat) (op : DrawOp) :
  (i < List.length d)%nat -> In op (allOps (drawOnPage i op d)).
Proof.
  unfold allOps, drawOnPage. revert i.
  induction d as [|p d IH]; intros i Hi; simpl in Hi; [lia|].
  destruct i as [|i]; simpl; rewrite !in_app_iff.
  - left. right. left. reflexivity.
  - right. apply (IH i). lia.
Qed.

Lemma length_drawOnPage (d : list Page) (i : nat) (op : DrawOp) :
  List.length (drawOnPage i op d) = List.length d.
Proof. unfold drawOnPage. apply length_alter. Qed.

Lemma draw_grows (op : DrawOp) (s0 s : St) :
  grows s0 s -> grows s0 (draw op s).
Proof.
  intros H. apply (grows_trans _ _ _ H). unfold grows, validSt, draw. simpl.
  rewrite length_drawOnPage. repeat split; auto.
  intros op'. apply allOps_drawOnPage_old.
Qed.

Lemma draw_shows (op : DrawOp) (s : St) :
  validSt s -> In op (allOps (doc (draw op s))).
Proof. unfold validSt, draw. simpl. apply allOps_drawOnPage_new. Qed.

Lemma advance_grows (h : Q) (s0 s : St) :
  grows s0 s -> grows s0 (advance h s).
Proof.
  intros H. apply (grows_trans _ _ _ H). unfold grows, validSt, advance.
  simpl. auto.
Qed.

Lemma addPage_grows (p : Page) (y : Q) (s : St) :
  grows s (mkSt (doc s ++ [p]) y (List.length (doc s))).
Proof.
  unfold grows, validSt. simpl. rewrite length_app. simpl.
  repeat split; try lia.
  intros op. unfold allOps. rewrite flat_map_app, in_app_iff. auto.
Qed.

Lemma ensureSpace_grows (lib : PdfLib) (headerText : jstring) (h : Q)
    (s0 s : St) :
  grows s0 s -> grows s0 (GeneratePdf.ensureSpace lib headerText h s).
Proof.
  intros H. apply (grows_trans _ _ _ H).
  destruct (ensureSpace_cases lib headerText h s) as [[_ ->]|[_ ->]].
  - apply grows_refl.
  - apply addPage_grows.
Qed.

Lemma ensureSpace_valid (lib : PdfLib) (headerText : jstring) (h : Q) (s : St) :
  validSt s -> validSt (GeneratePdf.ensureSpace lib headerText h s).
Proof. apply (ensureSpace_grows lib headerText h s s (grows_refl s)). Qed.

Lemma fold_grows {A : Type} (f : St -> A -> St) (l : list A) :
  (forall s x, grows s (f s x)) ->
  forall s0 s, grows s0 s -> grows s0 (List.fold_left f l s).
Proof.
  intros Hf. induction l as [|x l IH]; intros s0 s H; simpl; [exact H|].
  apply IH. apply (grows_trans _ _ _ H). apply Hf.
Qed.

End GrowthFacts.

Create HintDb grows.
#[local] Hint Resolve grows_refl draw_grows advance_grows ensureSpace_grows : grows.

Section GeneratePdfGrowth.
Import GeneratePdf.

Variables (lib : PdfLib) (world : World) (headerText : jstring).

Lemma addCheckBoxToLineItem_grows (li : LineItem) (margin y : Q) (s0 s : St) :
  grows s0 s -> grows s0 (addCheckBoxToLineItem lib li margin y s).
Proof.
  intros H. unfold addCheckBoxToLineItem. apply fold_grows; [|exact H].
  intros s1 [t x]. auto with grows.
Qed.

Lemma drawWrapped_grows (t : jstring) (x maxWidth size lineH : Q)
    (useFont : FontName) (s0 s : St) :
  grows s0 s ->
  grows s0 (drawWrapped lib headerText t x maxWidth size lineH useFont s).
Proof.
  intros H. unfold drawWrapped. destruct (negb (truthy t)); [exact H|].
  apply fold_grows; [|exact H]. intros s1 line. auto with grows.
Qed.

Lemma drawRow_grows (cellW : Q) (row : list Embedded) (s0 s : St) :
  grows s0 s -> grows s0 (drawRow lib headerText cellW s row).
Proof.
  intros H. unfold drawRow. apply advance_grows.
  apply fold_grows; [|auto with grows].
  intros s1 [c it]. destruct (truthy (sc_caption it)); auto with grows.
Qed.

Lemma drawPhotoGrid_grows (embedded : list Embedded) (s0 s : St) :
  grows s0 s -> grows s0 (drawPhotoGrid lib headerText embedded s).
Proof.
  intros H. unfold drawPhotoGrid. destruct embedded; [exact H|].
  apply fold_grows; [|exact H]. intros s1 row.
  apply drawRow_grows, grows_refl.
Qed.

Lemma addCommentsToLineItem_grows (comment : Comment) (commentIndex : nat)
    (s0 s : St) :
  grows s0 s ->
  grows s0 (addCommentsToLineItem lib world headerText comment commentIndex s).
Proof.
  intros H. unfold addCommentsToLineItem.
  apply advance_grows, draw_grows, ensureSpace_grows, advance_grows.
  destruct (elements (photos comment));
    [|apply drawPhotoGrid_grows];
    apply drawWrapped_grows; auto with grows.
Qed.

Lemma forEntries_grows {A : Type} (body : St -> nat -> A -> St) (xs : list A) :
  (forall s i x, grows s (body s i x)) ->
  forall s0 s, grows s0 s -> grows s0 (forEntries body xs s).
Proof.
  intros Hb s0 s H. unfold forEntries. apply fold_grows; [|exact H].
  intros s1 [i x]. apply Hb.
Qed.

Lemma renderComment_grows (s : St) (i : nat) (comment : Comment) :
  grows s (renderComment lib world headerText s i comment).
Proof.
  unfold renderComment.
  apply advance_grows, addCommentsToLineItem_grows, grows_refl.
Qed.

Lemma renderLineItem_grows (margin : Q) (s : St) (i : nat) (li : LineItem) :
  grows s (renderLineItem lib world headerText margin s i li).
Proof.
  unfold renderLineItem. apply advance_grows.
  apply forEntries_grows; [apply renderComment_grows|].
  unfold addCommentsTitleToLineItem, addLineHeaderForLineItem.
  apply advance_grows, draw_grows, ensureSpace_grows, advance_grows, draw_grows.
  apply addCheckBoxToLineItem_grows. auto with grows.
Qed.

Lemma renderSection_grows (margin width : Q) (s : St) (i : nat)
    (section : Section) :
  grows s (renderSection lib world headerText margin width s i section).
Proof.
  unfold renderSection. apply advance_grows.
  apply forEntries_grows; [apply renderLineItem_grows|].
  auto with grows.
Qed.

End GeneratePdfGrowth.

(** ** Photos that cannot be fetched *)

Section FetchFacts.

Lemma fetchAndEmbedImage_resolves (lib : PdfLib) (world : World)
    (url : option jstring) :
  exists r, GeneratePdf.fetchAndEmbedImage lib world url = Resolved r.
Proof.
  unfold GeneratePdf.fetchAndEmbedImage.
  destruct url as [u|]; simpl; [|eexists; reflexivity].
  destruct (httpGet world u) as [| |code body]; simpl;
    try (eexists; reflexivity).
  destruct ((code <? 200)%Z || (300 <=? code)%Z); simpl;
    [eexists; reflexivity|].
  destruct (endsWith (toLowerCase u) (js ".png")).
  { destruct (embedPng lib body); simpl; eexists; reflexivity. }
  destruct (endsWith (toLowerCase u) (js ".jpg")
            || endsWith (toLowerCase u) (js ".jpeg")).
  { destruct (embedJpg lib body); simpl; eexists; reflexivity. }
  destruct (embedJpg lib body); simpl; [eexists; reflexivity|].
  destruct (embedPng lib body); simpl; eexists; reflexivity.
Qed.

(** The failures of the download and of the decoding all resolve to
    [null]. *)
Lemma fetchAndEmbedImage_failures (lib : PdfLib) (world : World) (u : jstring) :
  GeneratePdf.fetchAndEmbedImage lib world None = Resolved None
  /\ match httpGet world u with
     | GetThrows | RequestError =>
         GeneratePdf.fetchAndEmbedImage lib world (Some u) = Resolved None
     | Response code body =>
         if ((code <? 200) || (300 <=? code))%Z
         then GeneratePdf.fetchAndEmbedImage lib world (Some u) = Resolved None
         else match embedPng lib body, embedJpg lib body with
              | None, None =>
                  GeneratePdf.fetchAndEmbedImage lib world (Some u) = Resolved None
              | _, _ => True
              end
     end.
Proof.
  split; [reflexivity|].
  unfold GeneratePdf.fetchAndEmbedImage.
  destruct (httpGet world u) as [| |code body]; simpl; try reflexivity.
  destruct ((code <? 200)%Z || (300 <=? code)%Z); simpl; [reflexivity|].
  destruct (embedPng lib body) eqn:Ep; [exact I|].
  destruct (embedJpg lib body) eqn:Ej; [exact I|].
  destruct (endsWith (toLowerCase u) (js ".png")); [reflexivity|].
  destruct (endsWith (toLowerCase u) (js ".jpg")
            || endsWith (toLowerCase u) (js ".jpeg")); reflexivity.
Qed.

Lemma embedPhotos_skips_failures (lib : PdfLib) (world : World)
    (photos : list Photo) :
  GeneratePdf.embedPhotos lib world
    (List.filter (fun p => negb (fetchFails lib world p)) photos)
  = GeneratePdf.embedPhotos lib world photos.
Proof.
  unfold GeneratePdf.embedPhotos.
  induction photos as [|p ps IH]; [reflexivity|].
  cbn [List.filter List.flat_map]. unfold fetchFails at 1.
  destruct (GeneratePdf.fetchAndEmbedImage lib world (photo_url p))
    as [[img|]|e] eqn:E; cbn [negb].
  - cbn [List.flat_map]. rewrite E, IH. reflexivity.
  - rewrite IH. reflexivity.
  - rewrite IH. reflexivity.
Qed.

Lemma photo_part_skips_failures (lib : PdfLib) (world : World)
    (headerText : jstring) (ps : list Photo) (s : St) :
  match List.filter (fun p => negb (fetchFails lib world p)) ps with
  | [] => s
  | _ :: _ =>
      GeneratePdf.drawPhotoGrid lib headerText
        (GeneratePdf.embedPhotos lib world
           (List.filter (fun p => negb (fetchFails lib world p)) ps)) s
  end
  = match ps with
    | [] => s
    | _ :: _ =>
        GeneratePdf.drawPhotoGrid lib headerText
          (GeneratePdf.embedPhotos lib world ps) s
    end.
Proof.
  rewrite embedPhotos_skips_failures.
  destruct ps as [|p ps]; [reflexivity|].
  destruct (List.filter _ (p :: ps)) eqn:E; [|reflexivity].
  rewrite <- (embedPhotos_skips_failures lib world (p :: ps)), E.
  reflexivity.
Qed.

Lemma forEachP_resolved {A : Type} (body : St -> A -> Promise St)
    (xs : list A) (s : St) :
  Forall (fun x => forall s, body s x = Resolved s) xs ->
  SyncGenerator.forEachP body xs s = Resolved s.
Proof.
  unfold SyncGenerator.forEachP. induction xs as [|x xs IH]; intros H.
  - reflexivity.
  - inversion H as [|? ? Hx Hxs]; subst. cbn [List.fold_left bind].
    rewrite Hx. apply IH. exact Hxs.
Qed.



End FetchFacts.

(** ** The default comments *)

Section DefaultCommentFacts.
Import GeneratePdf.

Variables (lib : PdfLib) (world : World) (headerText : jstring).

Lemma drawWrapped_shows (t : jstring) (x maxWidth size lineH : Q)
    (useFont : FontName) (s : St) :
  validSt s ->
  truthy t = true ->
  Forall (fun line =>
            showsText
              (allOps (doc (drawWrapped lib headerText t x maxWidth size lineH
                              useFont s)))
              line x size useFont)
         (breakTextIntoLines lib t maxWidth
            (fun u => widthOfTextAtSize (fontOf lib useFont) u size)).
Proof.
  intros Hv Ht. unfold drawWrapped. rewrite Ht. cbn [negb].
  set (step := fun (s : St) (line : jstring) =>
                 advance lineH
                   (draw (DrawText line x
                            (pos (ensureSpace lib headerText lineH s)) size useFont)
                      (ensureSpace lib headerText lineH s))).
  change (Forall (fun line =>
                    showsText (allOps (doc (List.fold_left step
                                 (breakTextIntoLines lib t maxWidth
                                    (fun u => widthOfTextAtSize (fontOf lib useFont) u size))
                                 s))) line x size useFont)
                 (breakTextIntoLines lib t maxWidth
                    (fun u => widthOfTextAtSize (fontOf lib useFont) u size))).
  assert (Hstep : forall s1 line, grows s1 (step s1 line))
    by (intros; subst step; cbv beta; auto with grows).
  generalize (breakTextIntoLines lib t maxWidth
                (fun u => widthOfTextAtSize (fontOf lib useFont) u size)).
  intros lines. revert s Hv.
  induction lines as [|line lines IH]; intros s Hv; [constructor|].
  cbn [List.fold_left]. constructor.
  - pose proof (fold_grows step lines Hstep (step s line) (step s line)
                  (grows_refl _)) as (_ & _ & G).
    eexists. apply G. subst step. cbv beta. unfold advance. cbn [doc].
    apply draw_shows, ensureSpace_valid, Hv.
  - apply IH. apply (Hstep s line). exact Hv.
Qed.

(** A comment shows its numbered label in bold and the lines of its
    body, at the start of the content column. *)
Lemma addCommentsToLineItem_shows (comment : Comment) (commentIndex : nat)
    (s : St) :
  validSt s ->
  let ops := allOps (doc (addCommentsToLineItem lib world headerText comment
                            commentIndex s)) in
  showsText ops
    (natToString (commentIndex + 1) ++ js ". " ++ orElse (label comment) [])
    lineItemContentStartX 10 TimesRomanBold
  /\ (truthy (commentBody comment) = false
      \/ exists maxWidth,
           Forall (fun line => showsText ops line lineItemContentStartX 10 TimesRoman)
             (breakTextIntoLines lib (commentBody comment) maxWidth
                (fun u => widthOfTextAtSize (fontOf lib TimesRoman) u 10))).
Proof.
  intros Hv ops. subst ops. unfold addCommentsToLineItem.
  set (s1 := ensureSpace lib headerText 12 s).
  assert (Hv1 : validSt s1) by (apply ensureSpace_valid; exact Hv).
  set (lbl := DrawText _ lineItemContentStartX (pos s1) 10 TimesRomanBold).
  set (s2 := advance 12 (draw lbl s1)).
  assert (Hv2 : validSt s2).
  { subst s2. apply (advance_grows 12 s1 (draw lbl s1)); [|exact Hv1].
    auto with grows. }
  set (s3 := drawWrapped lib headerText (commentBody comment)
               lineItemContentStartX _ 10 12 TimesRoman s2).
  match goal with
  | |- context [allOps (doc ?final)] => set (s5 := final)
  end.
  assert (G35 : grows s3 s5).
  { subst s5. apply advance_grows, draw_grows, ensureSpace_grows, advance_grows.
    destruct (elements (photos comment));
      [|apply drawPhotoGrid_grows]; apply grows_refl. }
  assert (G23 : grows s2 s3)
    by (subst s3; apply drawWrapped_grows, grows_refl).
  split.
  - exists (pos s1). apply G35, G23. subst s2. unfold advance. cbn [doc].
    apply draw_shows. exact Hv1.
  - destruct (truthy (commentBody comment)) eqn:Et; [right | left; reflexivity].
    eexists.
    pose proof (drawWrapped_shows (commentBody comment) lineItemContentStartX
                  (currentWidth lib s2 - lineItemContentStartX - 20)
                  10 12 TimesRoman s2 Hv2 Et) as Hs.
    fold s3 in Hs. eapply Forall_impl; [exact Hs|].
    intros line [y Hy]. exists y. apply G35. exact Hy.
Qed.

Lemma renderComment_shows (comment : Comment) (commentIndex : nat) (s : St) :
  validSt s ->
  let ops := allOps (doc (renderComment lib world headerText s commentIndex
                            comment)) in
  showsText ops
    (natToString (commentIndex + 1) ++ js ". " ++ orElse (label comment) [])
    lineItemContentStartX 10 TimesRomanBold
  /\ (truthy (commentBody comment) = false
      \/ exists maxWidth,
           Forall (fun line => showsText ops line lineItemContentStartX 10 TimesRoman)
             (breakTextIntoLines lib (commentBody comment) maxWidth
                (fun u => widthOfTextAtSize (fontOf lib TimesRoman) u 10))).
Proof.
  intros Hv. unfold renderComment, advance. cbn [doc].
  apply addCommentsToLineItem_shows. exact Hv.
Qed.

Lemma showsText_grows (s s' : St) (t : jstring) (x size : Q) (font : FontName) :
  grows s s' ->
  showsText (allOps (doc s)) t x size font ->
  showsText (allOps (doc s')) t x size font.
Proof. intros (_ & _ & G) [y Hy]. exists y. apply G. exact Hy. Qed.

End DefaultCommentFacts.

Section DefaultComments.



End DefaultComments.

(** ** Comments without content *)

Section BlankComments.

Lemma orElse_falsy (a : option jstring) (b : jstring) :
  CompleteReport.optTruthy a = false -> orElse a b = b.
Proof. destruct a as [[|? ?]|]; simpl; intros H; try discriminate H; reflexivity. Qed.

Lemma nonBlank_falsy (a : option jstring) :
  CompleteReport.optTruthy a = false -> nonBlank a = false.
Proof. destruct a as [[|? ?]|]; simpl; intros H; try discriminate H; reflexivity. Qed.

Lemma isBlankComment_no_content (c : Comment) :
  isBlankComment c = true -> CompleteReport.hasAnyContent c = false.
Proof.
  unfold isBlankComment. rewrite !andb_true_iff, !negb_true_iff.
  intros ((((((((H1 & H2) & H3) & H4) & H5) & H6) & H7) & H8) & H9).
  unfold CompleteReport.hasAnyContent, CompleteReport.hasText,
    CompleteReport.hasLocation, CompleteReport.hasSelectedOptions,
    CompleteReport.hasPhotos, CompleteReport.hasVideos,
    CompleteReport.hasRecommendation.
  rewrite (orElse_falsy _ _ H1), (orElse_falsy _ _ H2), (orElse_falsy _ _ H3).
  rewrite (nonBlank_falsy _ H4), (nonBlank_falsy _ H9), H6, H7, H8.
  reflexivity.
Qed.




End BlankComments.

(** ** A report without sections *)

Section NoSections.

(** C6, as the code has it.  [generateCompleteReport] refuses an input
    whose section list is missing or empty with the error "No sections
    found in inspection data" before it creates a document: no page
    exists, nothing is written, and the route handler answers 500 with
    that message.  [createPdf] of generatePdf.js has no such check: it
    takes a missing list for an empty one and writes the report header
    pages followed by one templated page. *)
Theorem report_without_sections (lib : PdfLib) (world : World)
    (outputPath : option jstring) (opts : CompleteReport.Options) :
  let missing := {| sections := None |} in
  let empty := {| sections := Some [] |} in
  let refused :=
    {| Report.documents := []; Report.written := None;
       Report.outcome := Rejected (js "No sections found in inspection data") |} in
  Report.generateCompleteReport lib world missing outputPath opts = refused
  /\ Report.generateCompleteReport lib world empty outputPath opts = refused
  /\ Report.generateCompleteReportHandler lib world missing opts
     = Report.Json500 (js "Failed to generate complete report")
         (js "No sections found in inspection data")
  /\ Report.generateCompleteReportHandler lib world empty opts
     = Report.Json500 (js "Failed to generate complete report")
         (js "No sections found in inspection data")
  /\ GeneratePdf.createPdf lib world missing
     = Resolved (GeneratePdf.addFooters lib
                   (elements (buildTrecHeaderPdf world missing)
                    ++ [newPage lib (GeneratePdf.pageTemplate lib
                                       (headerTextOf world missing))]))
  /\ GeneratePdf.createPdf lib world empty
     = Resolved (GeneratePdf.addFooters lib
                   (elements (buildTrecHeaderPdf world empty)
                    ++ [newPage lib (GeneratePdf.pageTemplate lib
                                       (headerTextOf world empty))])).
Proof. repeat split. Qed.

(** [generatePdf] on an inspection without section list: a PDF of one
    page is written and the reply is a success. *)
Lemma generatePdf_accepts_missing_sections :
  exists pages : list Page,
    GeneratePdf.generatePdf sampleLib offlineWorld {| sections := None |}
    = (Some pages, GeneratePdf.Json 200 true (js "pdf created successfully"))
    /\ List.length pages = 1%nat.
Proof. eexists. split; [reflexivity|]. reflexivity. Qed.

End NoSections.

(** ** The page numbers of the table of contents *)

Section TocPageNumbers.

Lemma insertPage_after (cover p : Page) (inserted body : list Page) :
  Report.insertPage (1 + List.length inserted) p (cover :: inserted ++ body)
  = cover :: (inserted ++ [p]) ++ body.
Proof.
  unfold Report.insertPage. cbn [Nat.add List.firstn List.skipn].
  rewrite List.firstn_app, List.firstn_all, Nat.sub_diag, List.skipn_app,
    List.skipn_all, Nat.sub_diag.
  simpl. rewrite app_nil_r, <- app_assoc. reflexivity.
Qed.

(** The pages of the table of contents are inserted, in order, between
    the cover and the body. *)
Lemma insert_toc_after_cover (cover : Page) (toc : list Page) :
  forall inserted body : list Page,
  List.fold_left (fun pdfDoc '(i, p) => Report.insertPage (1 + i) p pdfDoc)
    (List.combine (List.seq (List.length inserted) (List.length toc)) toc)
    (cover :: inserted ++ body)
  = cover :: (inserted ++ toc) ++ body.
Proof.
  induction toc as [|p toc IH]; intros inserted body.
  - simpl. rewrite app_nil_r. reflexivity.
  - cbn [List.length List.seq List.combine List.fold_left].
    rewrite insertPage_after.
    replace (S (List.length inserted)) with (List.length (inserted ++ [p]))
      by (rewrite length_app; simpl; lia).
    rewrite IH, <- (app_assoc inserted [p] toc). reflexivity.
Qed.

(** C4, where the code departs from it.  The body is laid out first
    and the starting page of each section is recorded as the page count
    plus 2, which takes the table of contents to be one page long.  The
    table of contents is then laid out with those numbers and its pages
    are inserted after the cover.  With 32 sections on A4 pages the
    table of contents takes two pages: the entry of the first section
    prints 3, the header of that section says "Page 3", and the section
    starts on the fourth page of the document. *)
Theorem toc_page_number_off_by_one :
  let run :=
    Report.generateCompleteReport sampleLib offlineWorld (bareInspection 32)
      (Some (js "report.pdf")) CompleteReport.defaultOptions in
  let pages := elements (Report.written run) in
  let tocPages := List.firstn 2 (List.skipn 1 pages) in
  List.length pages = 35%nat
  /\ List.map (fun p => List.length (tocEntries p)) tocPages = [31%nat; 1%nat]
  /\ printedPage (js "1. S1") tocPages = Some (js "3")
  /\ positionOf (showsTitle (js "S1")) pages = Some 4%nat
  /\ printedPage (js "32. S32") tocPages = Some (js "34")
  /\ positionOf (showsTitle (js "S32")) pages = Some 35%nat.
Proof.
  vm_compute. repeat split.
Qed.

(** With a table of contents of one page the numbers agree: three
    sections, printed 3, 4 and 5, on the pages 3, 4 and 5. *)
Lemma toc_page_number_one_page :
  let run :=
    Report.generateCompleteReport sampleLib offlineWorld (bareInspection 3)
      (Some (js "report.pdf")) CompleteReport.defaultOptions in
  let pages := elements (Report.written run) in
  let tocPages := List.firstn 1 (List.skipn 1 pages) in
  List.length pages = 5%nat
  /\ List.flat_map tocEntries tocPages
     = [(js "1. S1", js "3"); (js "2. S2", js "4"); (js "3. S3", js "5")]
  /\ List.map (fun t => positionOf (showsTitle t) pages) [js "S1"; js "S2"; js "S3"]
     = [Some 3%nat; Some 4%nat; Some 5%nat].
Proof.
  vm_compute. repeat split.
Qed.

End TocPageNumbers.

(** ** Loops over the entries of an array *)

Section EntryFacts.

Lemma lookup_entries {A : Type} (l : list A) :
  forall (a j : nat) (x : A),
  l !! j = Some x ->
  List.combine (List.seq a (List.length l)) l !! j = Some ((a + j)%nat, x).
Proof.
  induction l as [|y l IH]; intros a j x H; [discriminate|].
  destruct j as [|j]; cbn [List.length List.seq List.combine].
  - cbn in H. injection H as ->. rewrite Nat.add_0_r. reflexivity.
  - cbn in H. change ((?a :: ?l) !! S j) with (l !! j).
    rewrite (IH (S a) j x H). f_equal. f_equal. lia.
Qed.

End EntryFacts.

(** ** Roman numerals *)

Section RomanFacts.

Lemma intToRoman_fold (num : nat) :
  intToRoman num
  = if (num <=? 0)%nat then [] else snd (List.fold_left romanStep romans (num, [])).
Proof.
  unfold intToRoman. destruct (num <=? 0)%nat; [reflexivity|]. f_equal.
  generalize (num, @nil N). generalize romans.
  induction l as [|e l IH]; intros st; [reflexivity|].
  cbn [List.fold_left]. rewrite <- IH. destruct st, e. reflexivity.
Qed.

Lemma romanWhile_prefix (fuel : nat) (val : nat) (sym pre : jstring) :
  forall (n : nat) (res : jstring),
  romanWhile fuel n val sym (pre ++ res)
  = (fst (romanWhile fuel n val sym res), pre ++ snd (romanWhile fuel n val sym res)).
Proof.
  induction fuel as [|fuel IH]; intros n res; simpl; [reflexivity|].
  destruct (val <=? n)%nat; [|reflexivity].
  rewrite <- app_assoc. apply IH.
Qed.

Lemma romanStep_prefix (pre : jstring) (st : nat * jstring) (entry : nat * jstring) :
  romanStep (fst st, pre ++ snd st) entry
  = (fst (romanStep st entry), pre ++ snd (romanStep st entry)).
Proof.
  destruct st as [n res], entry as [val sym]. simpl. apply romanWhile_prefix.
Qed.

Lemma romanFold_prefix (pre : jstring) (table : list (nat * jstring)) :
  forall st : nat * jstring,
  List.fold_left romanStep table (fst st, pre ++ snd st)
  = (fst (List.fold_left romanStep table st),
     pre ++ snd (List.fold_left romanStep table st)).
Proof.
  induction table as [|e table IH]; intros st; cbn [List.fold_left].
  - reflexivity.
  - rewrite romanStep_prefix. apply (IH (romanStep st e)).
Qed.

Lemma romanWhile_thousands (fuel : nat) :
  forall (q r : nat) (res : jstring),
  (q <= fuel)%nat -> (r < 1000)%nat ->
  romanWhile fuel (q * 1000 + r) 1000 (js "M") res
  = (r, res ++ List.repeat 77%N q).
Proof.
  induction fuel as [|fuel IH]; intros q r res Hq Hr.
  - assert (q = 0%nat) by lia. subst q. simpl. rewrite app_nil_r. reflexivity.
  - cbn [romanWhile]. destruct q as [|q].
    + replace (0 * 1000 + r)%nat with r by lia.
      destruct (Nat.leb_spec 1000 r); [lia|]. simpl. rewrite app_nil_r. reflexivity.
    + destruct (Nat.leb_spec 1000 (S q * 1000 + r)); [|lia].
      replace (S q * 1000 + r - 1000)%nat with (q * 1000 + r)%nat by lia.
      rewrite IH by lia. change (js "M") with [77%N].
      rewrite <- app_assoc. reflexivity.
Qed.

Lemma romanValue_M (s : jstring) :
  romanValue (77%N :: s) = (1000 + romanValue s)%nat.
Proof.
  cbn [romanValue]. destruct s as [|d s]; [reflexivity|].
  replace (romanDigit 77 <? romanDigit d)%nat with false; [reflexivity|].
  symmetry. apply Nat.ltb_ge. change (romanDigit 77) with 1000%nat.
  unfold romanDigit.
  repeat match goal with |- context [if ?b then _ else _] => destruct b end; cbn; lia.
Qed.

Lemma romanValue_thousands (q : nat) (s : jstring) :
  romanValue (List.repeat 77%N q ++ s) = (q * 1000 + romanValue s)%nat.
Proof.
  induction q as [|q IH]; [reflexivity|].
  cbn [List.repeat app]. rewrite romanValue_M, IH. lia.
Qed.

Lemma romanValue_low :
  List.forallb
    (fun r => (romanValue (snd (List.fold_left romanStep lowRomans (r, []))) =? r)%nat)
    (List.seq 0 1000) = true.
Proof. vm_compute. reflexivity. Qed.

Lemma romanValue_intToRoman (n : nat) : romanValue (intToRoman n) = n.
Proof.
  rewrite intToRoman_fold. destruct (Nat.leb_spec n 0) as [H|H].
  - assert (n = 0%nat) by lia. subst. reflexivity.
  - change romans with ((1000%nat, js "M") :: lowRomans).
    cbn [List.fold_left romanStep].
    pose proof (Nat.div_mod_eq n 1000) as E.
    set (q := (n / 1000)%nat) in *. set (r := (n mod 1000)%nat) in *.
    assert (Hr : (r < 1000)%nat) by (apply Nat.mod_upper_bound; lia).
    replace (romanWhile n n 1000 (js "M") [])
      with (r, [] ++ List.repeat 77%N q).
    2:{ symmetry. rewrite E at 2. rewrite (Nat.mul_comm 1000 q).
        apply romanWhile_thousands; [nia|exact Hr]. }
    simpl app.
    pose proof (romanFold_prefix (List.repeat 77%N q) lowRomans (r, [])) as P.
    cbn [fst snd] in P. rewrite app_nil_r in P. rewrite P. clear P.
    cbn [snd].
    assert (Hlow : romanValue (snd (List.fold_left romanStep lowRomans (r, []))) = r).
    { pose proof romanValue_low as F. rewrite List.forallb_forall in F.
      apply Nat.eqb_eq. apply F. apply in_seq. lia. }
    rewrite romanValue_thousands, Hlow. lia.
Qed.

(** X1. [intToRoman] writes numerals that read back as the number: the
    value of [intToRoman n], read as a Roman numeral, is [n], for
    every [n] (the empty string for 0).  So two different numbers
    never get the same numeral. *)
Theorem intToRoman_round_trip :
  (forall n : nat, romanValue (intToRoman n) = n)
  /\ (forall a b : nat, intToRoman a = intToRoman b -> a = b).
Proof.
  split; [exact romanValue_intToRoman|].
  intros a b E.
  rewrite <- (romanValue_intToRoman a), <- (romanValue_intToRoman b), E.
  reflexivity.
Qed.

End RomanFacts.

(** ** The cache *)

Section CacheFacts.
Context {V : Type}.
Implicit Types (c : SimpleCache.Cache V) (key : jstring) (v : V).

(** X2. A value set at [t0] is returned by [get] at [t1] when it was
    set without expiry or [t1] is not later than [t0 + ttl]; after
    that [get] returns [null] and removes the entry, so that it stays
    [null] whatever the clock says later. *)
Theorem cache_set_get key v (noTTL : bool) (t0 t1 : Z) c :
  let c0 := SimpleCache.set key v noTTL t0 c in
  fst (SimpleCache.get key t1 c0)
  = (if noTTL || (t1 <=? t0 + SimpleCache.ttl c)%Z then Some v else None)
  /\ (fst (SimpleCache.get key t1 c0) = None ->
      forall t2, fst (SimpleCache.get key t2 (snd (SimpleCache.get key t1 c0))) = None).
Proof.
  intros c0. unfold c0, SimpleCache.get, SimpleCache.set. cbn.
  rewrite lookup_insert_eq. cbn.
  destruct noTTL; cbn.
  - split; [reflexivity | discriminate].
  - destruct (Z.ltb_spec (t0 + SimpleCache.ttl c) t1) as [H|H];
      destruct (Z.leb_spec t1 (t0 + SimpleCache.ttl c)) as [H'|H']; try lia; cbn.
    + split; [reflexivity|]. intros _ t2. rewrite lookup_delete_eq. reflexivity.
    + split; [reflexivity | discriminate].
Qed.

Lemma cache_get_other key key' (t : Z) c :
  key <> key' ->
  SimpleCache.cache (snd (SimpleCache.get key t c)) !! key'
  = SimpleCache.cache c !! key'
  /\ SimpleCache.ttl (snd (SimpleCache.get key t c)) = SimpleCache.ttl c.
Proof.
  intros Hne. unfold SimpleCache.get.
  destruct (SimpleCache.cache c !! key) as [item|]; [|auto].
  destruct (SimpleCache.expirationTime item) as [e|]; [|auto].
  destruct (e <? t)%Z; [|auto]. cbn. rewrite lookup_delete_ne by exact Hne. auto.
Qed.

Lemma cache_get_lookup key (t : Z) c c' :
  SimpleCache.cache c !! key = SimpleCache.cache c' !! key ->
  fst (SimpleCache.get key t c) = fst (SimpleCache.get key t c').
Proof.
  intros H. unfold SimpleCache.get. rewrite H.
  destruct (SimpleCache.cache c' !! key) as [item|]; [|reflexivity].
  destruct (SimpleCache.expirationTime item) as [e|]; [|reflexivity].
  destruct (e <? t)%Z; reflexivity.
Qed.

(** X3. What [get] returns for a key does not depend on what is set,
    deleted or read (and so perhaps expired) under another key. *)
Theorem cache_keys_independent key key' v (noTTL : bool) (t0 t : Z) c :
  key <> key' ->
  fst (SimpleCache.get key' t (SimpleCache.set key v noTTL t0 c))
  = fst (SimpleCache.get key' t c)
  /\ fst (SimpleCache.get key' t (SimpleCache.delete key c))
     = fst (SimpleCache.get key' t c)
  /\ fst (SimpleCache.get key' t (snd (SimpleCache.get key t0 c)))
     = fst (SimpleCache.get key' t c).
Proof.
  intros Hne. repeat split; apply cache_get_lookup.
  - cbn. apply lookup_insert_ne. exact Hne.
  - cbn. apply lookup_delete_ne. exact Hne.
  - apply cache_get_other. exact Hne.
Qed.

(** X4. The worker variant of [createPdf] builds the page template
    only when the cache has none, and stores it without expiry: when
    nothing else writes that key with an expiry, the template is built
    by the first request at most, it can be read at any later time,
    and a later request builds nothing and leaves the cache as it
    is. *)
Theorem page_template_built_once (bytes bytes' : V) (t0 t1 : Z) c :
  (forall item, SimpleCache.cache c !! js "pageSectionStart" = Some item ->
                SimpleCache.expirationTime item = None) ->
  let first := SimpleCache.cachePageSectionStart bytes t0 c in
  (fst first = true <-> SimpleCache.cache c !! js "pageSectionStart" = None)
  /\ (exists b, fst (SimpleCache.get (js "pageSectionStart") t1 (snd first)) = Some b)
  /\ SimpleCache.cachePageSectionStart bytes' t1 (snd first) = (false, snd first).
Proof.
  intros Hc first. unfold first, SimpleCache.cachePageSectionStart, SimpleCache.get.
  generalize dependent (js "pageSectionStart"). intros k Hc.
  destruct (SimpleCache.cache c !! k) as [item|] eqn:E.
  - rewrite (Hc item eq_refl). cbn [fst snd]. rewrite E, (Hc item eq_refl).
    split; [split; discriminate|]. split; [eexists; reflexivity | reflexivity].
  - cbn [fst snd SimpleCache.set SimpleCache.cache SimpleCache.ttl].
    rewrite lookup_insert_eq. cbn.
    split; [split; reflexivity|]. split; [eexists; reflexivity | reflexivity].
Qed.

End CacheFacts.

Lemma cache_keys_independent_witness :
  fst (SimpleCache.get (js "b") 5 (SimpleCache.set (js "a") 1%nat false 0
         (SimpleCache.set (js "b") 2%nat true 0 SimpleCache.initial)))
  = fst (SimpleCache.get (js "b") 5
           (SimpleCache.set (js "b") 2%nat true 0 SimpleCache.initial)).
Proof.
  apply (@cache_keys_independent nat (js "a") (js "b") 1%nat false 0 5).
  vm_compute. discriminate.
Defined.

Lemma page_template_built_once_witness :
  fst (SimpleCache.cachePageSectionStart [1%N] 0 SimpleCache.initial) = true
  /\ SimpleCache.cachePageSectionStart [2%N] 70000
       (snd (SimpleCache.cachePageSectionStart [1%N] 0 SimpleCache.initial))
     = (false, snd (SimpleCache.cachePageSectionStart [1%N] 0 SimpleCache.initial)).
Proof.
  assert (H : forall item : SimpleCache.Item (list N),
             SimpleCache.cache SimpleCache.initial !! js "pageSectionStart" = Some item ->
             SimpleCache.expirationTime item = None).
  { intros item E. cbn in E. rewrite lookup_empty in E. discriminate. }
  split.
  - apply (page_template_built_once [1%N] [2%N] 0 70000 SimpleCache.initial H).
    reflexivity.
  - apply (page_template_built_once [1%N] [2%N] 0 70000 SimpleCache.initial H).
Defined.

(** ** The columns of the check boxes *)

Section CheckBoxLayout.
Import GeneratePdf.

Lemma floor_int_le (z : Z) (q : Q) : inject_Z z <= q -> inject_Z z <= floor q.
Proof.
  intros H. unfold floor. rewrite <- Zle_Qle.
  apply Qfloor_resp_le in H. rewrite Qfloor_Z in H. exact H.
Qed.

(** X5. The four check boxes of a line item, for a left margin of at
    most 46: they start at the margin, one every [14 + spacing] with a
    spacing of 6 to 14, so that boxes of 14 never overlap, and the
    last one ends 10 before the column of the line item text, at 120
    or less.  The page width plays no part. *)
Theorem getCheckboxXs_layout (pageWidth margin : Q) :
  margin <= 46 ->
  exists spacing : Q,
    6 <= spacing <= 14
    /\ getCheckboxXs pageWidth margin
       = List.map (fun i => margin + inject_Z (Z.of_nat i) * (CHECKBOX_SIZE + spacing))
           (List.seq 0 4)
    /\ margin + 3 * (CHECKBOX_SIZE + spacing) + CHECKBOX_SIZE
       <= lineItemContentStartX - 10.
Proof.
  intros Hm. unfold getCheckboxXs.
  set (available := Qmax 40 (lineItemContentStartX - margin - 10)).
  set (sp0 := floor ((available - CHECKBOX_COUNT * CHECKBOX_SIZE) / (CHECKBOX_COUNT - 1))).
  exists (Qmin CHECKBOX_MAX_SPACING (Qmax CHECKBOX_MIN_SPACING sp0)).
  unfold CHECKBOX_MAX_SPACING, CHECKBOX_MIN_SPACING, CHECKBOX_SIZE,
    CHECKBOX_COUNT, lineItemContentStartX in *.
  assert (Ha : available == 120 - margin).
  { unfold available. rewrite Q.max_r by lra. ring. }
  assert (E : (available - 4 * 14) / (4 - 1) == (64 - margin) / 3).
  { rewrite Ha. field. }
  assert (Hs : 3 * sp0 <= 64 - margin).
  { unfold sp0. pose proof (floor_le ((available - 4 * 14) / (4 - 1))) as F.
    assert (F' : floor ((available - 4 * 14) / (4 - 1)) <= (64 - margin) / 3).
    { eapply Qle_trans; [exact F|]. rewrite E. apply Qle_refl. }
    assert (D : (64 - margin) / 3 == (64 - margin) * (1 # 3)) by field.
    rewrite D in F'. lra. }
  assert (H6 : 6 <= sp0).
  { unfold sp0. apply (floor_int_le 6). rewrite E.
    apply Qle_shift_div_l; [reflexivity|].
    change (inject_Z 6) with 6. clear E Hs Ha. lra. }
  split; [|split].
  - split.
    + apply Q.min_glb; [lra|]. apply Q.le_max_l.
    + apply Q.le_min_l.
  - reflexivity.
  - assert (Hmin : Qmin 14 (Qmax 6 sp0) <= sp0).
    { eapply Qle_trans; [apply Q.le_min_r|]. apply Q.max_lub; [exact H6 | lra]. }
    lra.
Qed.

Lemma getCheckboxXs_layout_witness :
  exists spacing : Q,
    6 <= spacing <= 14
    /\ getCheckboxXs (59528 # 100) 20
       = List.map (fun i => 20 + inject_Z (Z.of_nat i) * (CHECKBOX_SIZE + spacing))
           (List.seq 0 4)
    /\ 20 + 3 * (CHECKBOX_SIZE + spacing) + CHECKBOX_SIZE
       <= lineItemContentStartX - 10.
Proof.
  apply (getCheckboxXs_layout (59528 # 100) 20). vm_compute. discriminate.
Defined.

End CheckBoxLayout.

(** ** Where the operations of a document are *)

Section DrawnFacts.

Lemma allOps_drawOnPage_inv (d : list Page) (i : nat) (op op' : DrawOp) :
  In op' (allOps (drawOnPage i op d)) -> op' = op \/ In op' (allOps d).
Proof.
  unfold allOps, drawOnPage. revert i.
  induction d as [|p d IH]; intros i; [simpl; auto|].
  destruct i as [|i]; simpl; rewrite !in_app_iff.
  - simpl. intros [[H|[H|[]]]|H]; auto.
  - intros [H|H]; [auto|]. destruct (IH i H); auto.
Qed.

Lemma draw_allDrawn (P : DrawOp -> Prop) (op : DrawOp) (s : St) :
  P op -> allDrawn P (doc s) -> allDrawn P (doc (draw op s)).
Proof.
  unfold allDrawn, draw. simpl. rewrite !List.Forall_forall.
  intros Hop Hs op' Hin. destruct (allOps_drawOnPage_inv _ _ _ _ Hin) as [->|H]; auto.
Qed.

Lemma addPage_allDrawn (P : DrawOp -> Prop) (p : Page) (d : list Page) :
  List.Forall P (page_ops p) -> allDrawn P d -> allDrawn P (d ++ [p]).
Proof.
  intros Hp Hd. unfold allDrawn, allOps in *. rewrite flat_map_app.
  apply Forall_app. split; [exact Hd|].
  cbn [List.flat_map]. rewrite app_nil_r. exact Hp.
Qed.

Lemma fold_allDrawn {A : Type} (P : DrawOp -> Prop) (f : St -> A -> St) (l : list A) :
  (forall s x, In x l -> allDrawn P (doc s) -> allDrawn P (doc (f s x))) ->
  forall s, allDrawn P (doc s) -> allDrawn P (doc (List.fold_left f l s)).
Proof.
  induction l as [|x l IH]; intros Hf s Hs; simpl; [exact Hs|].
  apply IH; [intros; apply Hf; simpl; auto|]. apply Hf; simpl; auto.
Qed.

End DrawnFacts.

(** ** The footer buffer of generatePdf.js *)

Section FooterFacts.
Import GeneratePdf.

Variables (lib : PdfLib) (world : World) (headerText : jstring).
Hypothesis tall : 276 <= usableHeight lib.

Lemma draw_above (op : DrawOp) (s : St) :
  FOOTER_BUFFER <= opY op -> aboveFooter (doc s) -> aboveFooter (doc (draw op s)).
Proof. intros Hop. apply draw_allDrawn. exact Hop. Qed.

Lemma pageTemplate_above :
  List.Forall (fun op => FOOTER_BUFFER <= opY op) (pageTemplate lib headerText).
Proof.
  unfold usableHeight, contentStartY, FOOTER_BUFFER in *.
  unfold pageTemplate. apply Forall_app. split.
  - repeat constructor; simpl; unfold FOOTER_BUFFER; lra.
  - apply List.Forall_forall. intros op Hin. apply List.in_map_iff in Hin.
    destruct Hin as ([lbl x] & <- & _). simpl.
    change (round ((18 - 10) / 2)) with (inject_Z 4).
    change (inject_Z 4) with 4. unfold FOOTER_BUFFER. lra.
Qed.

Lemma ensureSpace_above (h : Q) (s : St) :
  aboveFooter (doc s) -> aboveFooter (doc (ensureSpace lib headerText h s)).
Proof.
  intros Hs. destruct (ensureSpace_cases lib headerText h s) as [[_ ->]|[_ ->]];
    [exact Hs|].
  cbn [doc]. apply addPage_allDrawn; [apply pageTemplate_above | exact Hs].
Qed.

Lemma ensureSpace_room (h : Q) (s : St) :
  h <= 276 -> FOOTER_BUFFER <= pos (ensureSpace lib headerText h s) - h.
Proof.
  intros Hh. destruct (ensureSpace_cases lib headerText h s) as [[H ->]|[_ ->]];
    [exact H|].
  simpl. unfold usableHeight in tall. lra.
Qed.

Lemma fold_above {A : Type} (f : St -> A -> St) (l : list A) :
  (forall s x, In x l -> aboveFooter (doc s) -> aboveFooter (doc (f s x))) ->
  forall s, aboveFooter (doc s) -> aboveFooter (doc (List.fold_left f l s)).
Proof. apply fold_allDrawn. Qed.

Lemma addCheckBoxToLineItem_above (li : LineItem) (margin y : Q) (s : St) :
  FOOTER_BUFFER <= y -> aboveFooter (doc s) ->
  aboveFooter (doc (addCheckBoxToLineItem lib li margin y s)).
Proof.
  intros Hy. unfold addCheckBoxToLineItem. apply fold_above.
  intros s1 [t x] _. apply draw_above. exact Hy.
Qed.

Lemma drawWrapped_above (t : jstring) (x maxWidth size lineH : Q)
    (useFont : FontName) (s : St) :
  0 <= lineH <= 276 -> aboveFooter (doc s) ->
  aboveFooter (doc (drawWrapped lib headerText t x maxWidth size lineH useFont s)).
Proof.
  intros Hl Hs. unfold drawWrapped. destruct (negb (truthy t)); [exact Hs|].
  apply fold_above; [|exact Hs]. intros s1 line _ H1. unfold advance. simpl.
  apply draw_above; [|apply ensureSpace_above; exact H1].
  pose proof (ensureSpace_room lineH s1 (proj2 Hl)). simpl. lra.
Qed.

Lemma captionHeight_bounds (scaled : list Scaled) :
  0 <= captionHeight scaled <= 12.
Proof. unfold captionHeight. destruct (List.existsb _ scaled); lra. Qed.

Lemma rowHeight_bound (cellW : Q) (row : list Embedded) :
  rowHeight (List.map (scaleItem cellW) row) <= 252.
Proof.
  pose proof (captionHeight_bounds (List.map (scaleItem cellW) row)) as Hc.
  unfold rowHeight.
  assert (Hm : maxOf (List.map sc_h (List.map (scaleItem cellW) row)) <= 240).
  { destruct row as [|it0 rest]; [simpl; lra|].
    cbn [List.map maxOf].
    assert (Hall : forall it, In it (it0 :: rest) -> sc_h (scaleItem cellW it) <= 240).
    { intros it _. apply (scaleItem_fits cellW it). }
    destruct (fold_Qmax_in (List.map sc_h (List.map (scaleItem cellW) rest))
                (sc_h (scaleItem cellW it0))) as [I|I].
    - rewrite I. apply Hall. left. reflexivity.
    - apply List.Exists_exists in I. destruct I as (y & Hy & ->).
      apply List.in_map_iff in Hy. destruct Hy as (sc & <- & Hsc).
      apply List.in_map_iff in Hsc. destruct Hsc as (it & <- & Hit).
      apply Hall. right. exact Hit. }
  lra.
Qed.

Lemma drawRow_above (cellW : Q) (row : list Embedded) (s : St) :
  aboveFooter (doc s) -> aboveFooter (doc (drawRow lib headerText cellW s row)).
Proof.
  intros Hs. unfold drawRow.
  set (scaled := List.map (scaleItem cellW) row).
  set (rh := rowHeight scaled).
  set (s1 := ensureSpace lib headerText (rh + ROW_SPACING_DEFAULT) s).
  assert (Hrh : rh <= 252) by apply rowHeight_bound.
  assert (Hroom : FOOTER_BUFFER <= pos s1 - (rh + ROW_SPACING_DEFAULT)).
  { apply ensureSpace_room. unfold ROW_SPACING_DEFAULT. lra. }
  assert (Hit : forall c it, In (c, it) (List.combine (List.seq 0 (List.length scaled)) scaled) ->
                 sc_h it <= rh).
  { intros c it Hin. apply in_combine_r in Hin.
    pose proof (captionHeight_bounds scaled) as Hc.
    destruct (rowHeight_max scaled) as (_ & F & _).
    rewrite List.Forall_forall in F. specialize (F it Hin). fold rh in F. lra. }
  unfold advance. simpl.
  assert (G : forall l s2,
             (forall c it, In (c, it) l -> sc_h it <= rh) ->
             pos s2 = pos s1 -> aboveFooter (doc s2) ->
             aboveFooter (doc (List.fold_left
               (fun s '(c, it) =>
                  let xCell := cellX cellW c in
                  let xImg := imageX cellW c it in
                  let yTop := pos s in
                  let yImg := yTop - sc_h it in
                  let s := draw (DrawImage (sc_img it) xImg yImg (sc_w it) (sc_h it)) s in
                  if truthy (sc_caption it)
                  then draw (DrawText (sc_caption it) xCell (yImg - 10) 9 TimesRomanItalic) s
                  else s) l s2))).
  { induction l as [|[c it] l IH]; intros s2 Hl Hp H2; [exact H2|].
    cbn [List.fold_left]. 
    assert (Hh : sc_h it <= rh) by (apply (Hl c); left; reflexivity).
    unfold ROW_SPACING_DEFAULT, FOOTER_BUFFER in *.
    apply IH.
    - intros c' it' Hin. apply (Hl c'). right. exact Hin.
    - destruct (truthy (sc_caption it)); simpl; exact Hp.
    - destruct (truthy (sc_caption it)).
      + apply draw_above; [simpl; unfold FOOTER_BUFFER; rewrite Hp; lra|].
        apply draw_above; [simpl; unfold FOOTER_BUFFER; rewrite Hp; lra | exact H2].
      + apply draw_above; [simpl; unfold FOOTER_BUFFER; rewrite Hp; lra | exact H2]. }
  apply G; [exact Hit | reflexivity |]. apply ensureSpace_above. exact Hs.
Qed.

Lemma drawPhotoGrid_above (embedded : list Embedded) (s : St) :
  aboveFooter (doc s) -> aboveFooter (doc (drawPhotoGrid lib headerText embedded s)).
Proof.
  intros Hs. unfold drawPhotoGrid. destruct embedded; [exact Hs|].
  apply fold_above; [|exact Hs]. intros s1 row _. apply drawRow_above.
Qed.

Lemma advance_above (h : Q) (s : St) :
  aboveFooter (doc s) -> aboveFooter (doc (advance h s)).
Proof. intros H. exact H. Qed.

Lemma pos_addCheckBoxToLineItem (li : LineItem) (margin y : Q) (s : St) :
  pos (addCheckBoxToLineItem lib li margin y s) = pos s.
Proof.
  unfold addCheckBoxToLineItem.
  generalize (List.combine checkboxTypes (getCheckboxXs (pageWidth lib) margin)).
  intros l. revert s. induction l as [|[t x] l IH]; intros s; [reflexivity|].
  cbn [List.fold_left]. rewrite IH. reflexivity.
Qed.

Ltac room :=
  cbn [opY pos draw advance];
  rewrite ?pos_addCheckBoxToLineItem;
  cbn [opY pos draw advance];
  match goal with
  | |- context [pos (ensureSpace lib headerText ?h ?s0)] =>
      let R := fresh "R" in
      assert (R : FOOTER_BUFFER <= pos (ensureSpace lib headerText h s0) - h)
        by (apply ensureSpace_room; lra);
      unfold FOOTER_BUFFER in *; lra
  end.

Ltac above :=
  repeat
    match goal with
    | H : aboveFooter (doc ?s0) |- aboveFooter (doc ?s0) => exact H
    | |- aboveFooter (doc (advance _ _)) => apply advance_above
    | |- aboveFooter (doc (ensureSpace _ _ _ _)) => apply ensureSpace_above
    | |- aboveFooter (doc (drawWrapped _ _ _ _ _ _ _ _ _)) =>
        apply drawWrapped_above; [lra|]
    | |- aboveFooter (doc (drawPhotoGrid _ _ _ _)) => apply drawPhotoGrid_above
    | |- aboveFooter (doc (addCheckBoxToLineItem _ _ _ _ _)) =>
        apply addCheckBoxToLineItem_above; [room|]
    | |- aboveFooter (doc (draw _ _)) => apply draw_above; [room|]
    end.

Lemma addCommentsToLineItem_above (comment : Comment) (commentIndex : nat) (s : St) :
  aboveFooter (doc s) ->
  aboveFooter (doc (addCommentsToLineItem lib world headerText comment commentIndex s)).
Proof.
  intros Hs. unfold addCommentsToLineItem. cbv zeta.
  apply advance_above. apply draw_above; [room|].
  apply ensureSpace_above, advance_above.
  destruct (elements (photos comment)); above.
Qed.

Lemma forEntries_above {A : Type} (body : St -> nat -> A -> St) (xs : list A) :
  (forall s i x, aboveFooter (doc s) -> aboveFooter (doc (body s i x))) ->
  forall s, aboveFooter (doc s) -> aboveFooter (doc (forEntries body xs s)).
Proof.
  intros Hb s Hs. unfold forEntries. apply fold_above; [|exact Hs].
  intros s1 [i x] _. apply Hb.
Qed.

Lemma renderComment_above (s : St) (i : nat) (comment : Comment) :
  aboveFooter (doc s) ->
  aboveFooter (doc (renderComment lib world headerText s i comment)).
Proof.
  intros Hs. unfold renderComment. apply advance_above.
  apply addCommentsToLineItem_above. exact Hs.
Qed.

Lemma renderLineItem_above (margin : Q) (s : St) (i : nat) (li : LineItem) :
  aboveFooter (doc s) ->
  aboveFooter (doc (renderLineItem lib world headerText margin s i li)).
Proof.
  intros Hs. unfold renderLineItem. cbv zeta. apply advance_above.
  apply forEntries_above; [apply renderComment_above|].
  unfold addCommentsTitleToLineItem, addLineHeaderForLineItem. above.
Qed.

Lemma renderSection_above (margin width : Q) (s : St) (i : nat) (section : Section) :
  aboveFooter (doc s) ->
  aboveFooter (doc (renderSection lib world headerText margin width s i section)).
Proof.
  intros Hs. unfold renderSection. cbv zeta. apply advance_above.
  apply forEntries_above; [apply renderLineItem_above|]. above.
Qed.

(** X7. In generatePdf.js, on pages at least 496 high, the body of
    the report stays out of the footer buffer: when nothing in the
    document is drawn below 100, nothing is after the sections have
    been rendered, whatever they hold and wherever the cursor was. *)
Theorem body_stays_above_footer (margin width : Q) (sections : list Section)
    (s : St) :
  aboveFooter (doc s) ->
  aboveFooter
    (doc (forEntries (renderSection lib world headerText margin width) sections s)).
Proof. apply forEntries_above. intros s1 i x. apply renderSection_above. Qed.

End FooterFacts.

Lemma body_stays_above_footer_witness :
  aboveFooter
    (doc (GeneratePdf.forEntries
            (GeneratePdf.renderSection sampleLib offlineWorld (js "Report") 20
               (pageWidth sampleLib))
            [exteriorSection; exteriorSection]
            (mkSt [newPage sampleLib []] 130 0))).
Proof.
  apply (body_stays_above_footer sampleLib offlineWorld (js "Report")).
  - vm_compute. discriminate.
  - unfold aboveFooter, allDrawn. cbn. constructor.
Defined.

(** ** The PDF of generatePdf.js *)

Section CreatePdfFacts.
Import GeneratePdf.

Variables (lib : PdfLib) (world : World).

Lemma renderSection_shows (headerText : jstring) (margin width : Q) (s : St)
    (sectionIdx : nat) (section : Section) :
  validSt s ->
  showsText (allOps (doc (renderSection lib world headerText margin width s
                            sectionIdx section)))
    (intToRoman (sectionIdx + 1) ++ js " " ++ sectionName section)
    (width / 2
     - widthOfTextAtSize (fontOf lib TimesRoman) (sectionName section) 12 / 2)
    12 TimesRoman.
Proof.
  intros V. unfold renderSection. cbv zeta.
  set (s1 := ensureSpace lib headerText 40 s).
  assert (V1 : validSt s1) by (apply ensureSpace_valid; exact V).
  exists (pos s1).
  match goal with
  | |- In ?op (allOps (doc (advance 20 (forEntries ?body ?xs (advance 30 (draw ?op s1)))))) =>
      assert (G : grows (draw op s1) (advance 20 (forEntries body xs (advance 30 (draw op s1)))))
  end.
  { apply advance_grows. apply forEntries_grows; [apply renderLineItem_grows|].
    apply advance_grows, grows_refl. }
  apply G. apply draw_shows. exact V1.
Qed.

Lemma renderSections_show (headerText : jstring) (margin width : Q)
    (sections : list Section) :
  forall (a j : nat) (section : Section) (s : St),
  validSt s ->
  sections !! j = Some section ->
  showsText
    (allOps (doc (List.fold_left
                    (fun s '(index, x) =>
                       renderSection lib world headerText margin width s index x)
                    (List.combine (List.seq a (List.length sections)) sections) s)))
    (intToRoman (a + j + 1) ++ js " " ++ sectionName section)
    (width / 2
     - widthOfTextAtSize (fontOf lib TimesRoman) (sectionName section) 12 / 2)
    12 TimesRoman.
Proof.
  induction sections as [|x l IH]; intros a j section s V Hj; [discriminate|].
  cbn [List.length List.seq List.combine List.fold_left].
  pose proof (renderSection_grows lib world headerText margin width s a x) as G1.
  destruct j as [|j].
  - cbn in Hj. injection Hj as ->. rewrite Nat.add_0_r.
    destruct (renderSection_shows headerText margin width s a section V) as [y Hy].
    exists y.
    match goal with
    | |- In _ (allOps (doc (List.fold_left ?f ?l0 ?s1))) =>
        assert (G : grows s1 (List.fold_left f l0 s1))
    end.
    { apply fold_grows; [|apply grows_refl]. intros s2 [i2 x2].
      apply renderSection_grows. }
    apply G. exact Hy.
  - cbn in Hj. change ((x :: l) !! S j) with (l !! j) in Hj.
    replace (a + S j + 1)%nat with (S a + j + 1)%nat by lia.
    apply IH; [|exact Hj]. apply G1. exact V.
Qed.

Lemma addFooters_lookup (pages : list Page) (i : nat) (p : Page) :
  pages !! i = Some p ->
  exists q : Page,
    addFooters lib pages !! i = Some q
    /\ page_width q = page_width p /\ page_height q = page_height p
    /\ exists x1 x2 : Q,
         page_ops q
         = page_ops p
           ++ [ DrawText (js "Page " ++ natToString (i + 1) ++ js " of "
                            ++ natToString (List.length pages)) x1 35 12 TimesRoman;
                DrawText (js "REI 7-6 (8/9/2021)") 40 20 9 TimesRoman;
                DrawText
                  (js "Promulgated by the Texas Real Estate Commission - (512) 936-3000 - ")
                  x2 20 9 TimesRoman;
                DrawText (js "www.trec.texas.gov")
                  (x2 + widthOfTextAtSize (fontOf lib TimesRoman)
                          (js "Promulgated by the Texas Real Estate Commission - (512) 936-3000 - ")
                          9)
                  20 9 TimesRoman ].
Proof.
  intros Hp. unfold addFooters. cbv zeta.
  rewrite list_lookup_fmap.
  rewrite (lookup_entries pages 0 i p Hp). cbn [fmap option_fmap option_map Nat.add].
  eexists. split; [reflexivity|]. cbn [List.fold_left drawOn page_width page_height page_ops].
  split; [reflexivity|]. split; [reflexivity|].
  eexists _, _. rewrite <- !app_assoc. reflexivity.
Qed.

Lemma length_addFooters (pages : list Page) :
  List.length (addFooters lib pages) = List.length pages.
Proof.
  unfold addFooters. cbv zeta. rewrite length_map, length_combine, length_seq. lia.
Qed.

Lemma addFooters_keeps (pages : list Page) (op : DrawOp) :
  In op (allOps pages) -> In op (allOps (addFooters lib pages)).
Proof.
  unfold allOps at 1. rewrite in_flat_map. intros (p & Hp & Hop).
  apply list_elem_of_In, list_elem_of_lookup_1 in Hp. destruct Hp as [i Hi].
  destruct (addFooters_lookup pages i p Hi) as (q & Hq & _ & _ & x1 & x2 & E).
  unfold allOps. apply in_flat_map. exists q. split.
  - apply list_elem_of_In. eapply list_elem_of_lookup_2. exact Hq.
  - rewrite E. apply in_app_iff. left. exact Hop.
Qed.



End CreatePdfFacts.


(** ** The size of a photo in the synchronous generator *)

Section PlacePhotoFacts.
Import SyncGenerator.

Variable lib : PdfLib.

Lemma checkAndCreateNewPage_valid (force : bool) (s : St) :
  validSt s -> validSt (checkAndCreateNewPage lib force s).
Proof.
  intros V. unfold checkAndCreateNewPage.
  destruct (force || Qltb (pos s) MINIMUM_SPACE_NEEDED); [|exact V].
  unfold validSt. cbn [doc currentPage]. rewrite length_app. cbn. lia.
Qed.

Lemma newPageIf_valid (cond force : bool) (s : St) :
  validSt s -> validSt (newPageIf lib cond force s).
Proof.
  intros V. unfold newPageIf. destruct cond; [|exact V].
  apply checkAndCreateNewPage_valid. exact V.
Qed.

Lemma draw_valid (op : DrawOp) (s : St) : validSt s -> validSt (draw op s).
Proof. unfold validSt, draw. cbn [doc currentPage]. rewrite length_drawOnPage. auto. Qed.

(** The first two steps of the sizing: the width is brought down to
    400, then the height to 300. *)
Lemma photo_size_capped (img : Image) :
  let width := GeneratePdf.imgW img in
  let height := GeneratePdf.imgH img in
  let wh1 := if Qgtb width 400 then (400, height * (400 / width)) else (width, height) in
  let wh2 := if Qgtb (snd wh1) 300
             then (fst wh1 * (300 / snd wh1), 300) else wh1 in
  0 < fst wh2 <= 400 /\ 0 < snd wh2 <= 300.
Proof.
  intros width height wh1 wh2.
  pose proof (imgW_pos img) as HW. pose proof (imgH_pos img) as HH.
  fold width in HW. fold height in HH.
  assert (H1 : 0 < fst wh1 <= 400 /\ 0 < snd wh1).
  { unfold wh1. destruct (Qgtb width 400) eqn:E; cbn [fst snd].
    - apply Qgtb_true in E. split; [lra|].
      apply Qmult_lt_0_compat; [exact HH|]. apply Qlt_shift_div_l; lra.
    - apply Qgtb_false in E. split; lra. }
  destruct H1 as [[A1 A2] A3].
  unfold wh2. destruct (Qgtb (snd wh1) 300) eqn:E; cbn [fst snd].
  - apply Qgtb_true in E.
    assert (Q1 : 0 < 300 / snd wh1) by (apply Qlt_shift_div_l; lra).
    assert (Q2 : 300 / snd wh1 <= 1) by (apply Qle_shift_div_r; lra).
    split; [|lra]. split; [apply Qmult_lt_0_compat; assumption|]. nra.
  - apply Qgtb_false in E. split; split; assumption.
Qed.

Lemma scaled_down_bounds (w h a : Q) :
  0 < w <= 400 -> 0 < h <= 300 -> a < h -> Qle_bool (a / h) 0 = false ->
  floor (w * (a / h)) <= 400 /\ Qmax 40 (floor (h * (a / h))) <= 300.
Proof.
  intros [W1 W2] [H1 H2] Ha E.
  assert (P : 0 < a / h).
  { destruct (Qlt_le_dec 0 (a / h)) as [L|L]; [exact L|].
    apply Qle_bool_iff in L. congruence. }
  assert (L1 : a / h <= 1) by (apply Qle_shift_div_r; lra).
  pose proof (floor_le (w * (a / h))). pose proof (floor_le (h * (a / h))).
  split; [nra|]. apply Q.max_lub; [lra | nra].
Qed.

Ltac valid_state V :=
  repeat first
    [ exact V
    | apply newPageIf_valid
    | apply checkAndCreateNewPage_valid
    | apply draw_valid
    | match goal with
      | |- validSt (advance ?h ?s0) => change (validSt s0)
      | |- validSt (if ?b then _ else _) => destruct b
      end ].

(** X10. The synchronous generator never draws a photo wider than 400
    or higher than 300, whatever the size of the image and the room
    left on the page. *)
Theorem placePhoto_size (photo : Photo) (img : Image) (s s' : St) :
  validSt s ->
  placePhoto lib photo img s = Done s' ->
  exists x y w h : Q,
    In (DrawImage img x y w h) (allOps (doc s')) /\ w <= 400 /\ h <= 300.
Proof.
  intros V. pose proof (photo_size_capped img) as B. cbv zeta in B.
  unfold placePhoto. cbv zeta.
  destruct (Qgtb (GeneratePdf.imgW img) 400); cbn [fst snd] in B |- *;
    match goal with
    | |- context [Qgtb ?h 300] => destruct (Qgtb h 300)
    end; cbn [fst snd] in B |- *.
  all: match goal with
       | |- context [Qgtb ?a ?b] => destruct (Qgtb a b) eqn:E3
       end.
  all: try match goal with
       | |- context [Qle_bool ?a 0] => destruct (Qle_bool a 0) eqn:E4
       end.
  all: cbv beta iota.
  all: match goal with
       | |- (if ?c then _ else _) = _ -> _ => destruct c; [discriminate|]
       end.
  all: intros H; injection H as <-; cbn [doc].
  all: eexists _, _, _, _; split; [apply draw_shows; valid_state V|].
  all: try (split; apply B).
  all: apply Qgtb_true in E3; unfold FOOTER_BUFFER in *.
  all: match goal with
       | |- floor (?w * (?a / ?h)) <= 400 /\ _ =>
           apply (scaled_down_bounds w h a); [apply B | apply B | lra | exact E4]
       end.
Qed.

End PlacePhotoFacts.

Lemma placePhoto_size_witness :
  let img := {| img_width := 1600; img_height := 900 |} in
  let s := mkSt [newPage sampleLib []] 700 0 in
  exists x y w h : Q,
    In (DrawImage img x y w h)
       (allOps (doc match SyncGenerator.placePhoto sampleLib photoA img s with
                    | SyncGenerator.Done s' => s'
                    | SyncGenerator.Thrown s' => s'
                    end))
    /\ w <= 400 /\ h <= 300.
Proof.
  intros img s.
  apply (placePhoto_size sampleLib photoA img s).
  - unfold validSt. cbn. lia.
  - vm_compute. reflexivity.
Defined.

(** ** The worker of a section *)

Section WorkerFacts.
Import WorkerPdf.

Variable lib : PdfLib.

Lemma page_ops_addCheckBoxToLineItem (li : LineItem) (margin y : Q) (p : Page) :
  exists more,
    page_ops (Worker.addCheckBoxToLineItem li margin y p) = page_ops p ++ more
    /\ page_width (Worker.addCheckBoxToLineItem li margin y p) = page_width p
    /\ page_height (Worker.addCheckBoxToLineItem li margin y p) = page_height p.
Proof.
  unfold Worker.addCheckBoxToLineItem.
  generalize (List.combine Worker.checkboxTypes (List.seq 0 4)). intros l. revert p.
  induction l as [|[t i] l IH]; intros p; cbn [List.fold_left].
  - exists []. rewrite app_nil_r. auto.
  - destruct (IH (drawOn (CheckBox (checkBoxPrefix li ++ t)
                            (margin + 40 * inject_Z (Z.of_nat i)) y 15
                            (Worker.isChecked li t)) p))
      as (more & E & W & H).
    eexists. rewrite E, W, H. cbn [drawOn page_ops page_width page_height].
    rewrite <- app_assoc. auto.
Qed.

(** The loop over the line items: when every line item has a title or
    a name it comes to an end, on the same page, with every title
    drawn 30 lower than the one before. *)
Lemma workerLoop (items : list LineItem) :
  List.Forall (fun li => lineTitle li <> None) items ->
  forall (p : Page) (y : Q),
  exists (p' : Page) (y' : Q) (more : list DrawOp),
    List.fold_left (lineItemStep 20) items (Resolved (p, y)) = Resolved (p', y')
    /\ page_ops p' = page_ops p ++ more
    /\ page_width p' = page_width p /\ page_height p' = page_height p
    /\ forall (i : nat) (li : LineItem),
         items !! i = Some li ->
         exists (t : jstring) (yi : Q),
           lineTitle li = Some t
           /\ yi == y - 30 * inject_Z (Z.of_nat i)
           /\ In (DrawText t (20 + 160) yi 12 TimesRoman) more.
Proof.
  induction items as [|li items IH]; intros Hall p y; cbn [List.fold_left].
  - exists p, y, []. rewrite app_nil_r. repeat split; try reflexivity. intros i l H. discriminate.
  - inversion Hall as [|? ? Hli Hrest]; subst.
    unfold lineItemStep at 2. cbn [bind].
    destruct (lineTitle li) as [t|] eqn:Et; [|congruence].
    destruct (page_ops_addCheckBoxToLineItem li 20 y p) as (boxes & Eb & Wb & Hb).
    destruct (IH Hrest
                (drawOn (DrawText t (20 + 160) y 12 TimesRoman)
                   (Worker.addCheckBoxToLineItem li 20 y p)) (y - 30))
      as (p' & y' & more & E & Eops & W & H & Hpos).
    exists p', y', (boxes ++ DrawText t (20 + 160) y 12 TimesRoman :: more).
    split; [exact E|]. split.
    { rewrite Eops. cbn [drawOn page_ops]. rewrite Eb, <- !app_assoc. reflexivity. }
    split; [rewrite W; exact Wb|]. split; [rewrite H; exact Hb|].
    intros i l Hi. destruct i as [|i].
    + cbn in Hi. injection Hi as <-. exists t, y. split; [exact Et|]. split.
      * cbn. ring.
      * apply in_app_iff. right. left. reflexivity.
    + change ((li :: items) !! S i) with (items !! i) in Hi.
      destruct (Hpos i l Hi) as (t' & yi & Et' & Ey & Hin).
      exists t', yi. split; [exact Et'|]. split.
      * rewrite Ey, Nat2Z.inj_succ, <- Z.add_1_r, inject_Z_plus. ring.
      * apply in_app_iff. right. right. exact Hin.
Qed.


End WorkerFacts.


(** ** The order of the sections *)

Section SortFacts.
Import Toc.

Lemma insertByOrder_perm (x : Section) (l : list Section) :
  Permutation (insertByOrder x l) (x :: l).
Proof.
  induction l as [|y l IH]; simpl; [reflexivity|].
  destruct (order x <=? order y)%Z; [reflexivity|].
  rewrite IH. apply perm_swap.
Qed.

Lemma insertByOrder_ascending (x : Section) (l : list Section) :
  ascending l -> ascending (insertByOrder x l).
Proof.
  induction l as [|y l IH]; intros Hl.
  - simpl. split; [constructor | exact I].
  - cbn [insertByOrder]. destruct Hl as [Hy Hl].
    destruct (Z.leb_spec (order x) (order y)) as [H|H].
    + split; [|split; assumption].
      constructor; [exact H|].
      eapply List.Forall_impl; [|exact Hy]. cbn. intros b Hb. lia.
    + split; [|apply IH; exact Hl].
      eapply Permutation_Forall; [symmetry; apply insertByOrder_perm|].
      constructor; [lia | exact Hy].
Qed.

Lemma insertByOrder_filter (x : Section) (k : Z) (l : list Section) :
  List.filter (fun s => (order s =? k)%Z) (insertByOrder x l)
  = List.filter (fun s => (order s =? k)%Z) (x :: l).
Proof.
  induction l as [|y l IH]; [reflexivity|].
  cbn [insertByOrder].
  destruct (Z.leb_spec (order x) (order y)) as [H|H]; [reflexivity|].
  cbn [List.filter] in *. rewrite IH.
  destruct (Z.eqb_spec (order x) k), (Z.eqb_spec (order y) k); try reflexivity. lia.
Qed.

Lemma sortByOrder_perm (sections : list Section) :
  Permutation (sortByOrder sections) sections.
Proof.
  unfold sortByOrder. induction sections as [|x l IH]; simpl; [constructor|].
  rewrite insertByOrder_perm. constructor. exact IH.
Qed.

Lemma sortByOrder_ascending (sections : list Section) :
  ascending (sortByOrder sections).
Proof.
  unfold sortByOrder. induction sections as [|x l IH]; simpl; [exact I|].
  apply insertByOrder_ascending. exact IH.
Qed.

Lemma ascending_lookup (l : list Section) :
  ascending l ->
  forall (i j : nat) (a b : Section),
  (i < j)%nat -> l !! i = Some a -> l !! j = Some b -> (order a <= order b)%Z.
Proof.
  induction l as [|x l IH]; intros Hl i j a b Hij Ha Hb; [discriminate|].
  destruct Hl as [Hx Hl]. destruct j as [|j]; [lia|]. cbn in Hb.
  destruct i as [|i]; cbn in Ha.
  - injection Ha as <-. rewrite List.Forall_forall in Hx. apply Hx.
    apply list_elem_of_In. eapply list_elem_of_lookup_2. exact Hb.
  - apply (IH Hl i j); [lia | exact Ha | exact Hb].
Qed.

(** X12. The sort of the sections by [order]: the result has the
    same sections, in ascending order, and sections of equal order
    keep the order of the input. *)
Theorem sortByOrder_stable_sort (sections : list Section) :
  Permutation (sortByOrder sections) sections
  /\ (forall (i j : nat) (a b : Section),
        (i < j)%nat -> sortByOrder sections !! i = Some a ->
        sortByOrder sections !! j = Some b -> (order a <= order b)%Z)
  /\ (forall k : Z,
        List.filter (fun s => (order s =? k)%Z) (sortByOrder sections)
        = List.filter (fun s => (order s =? k)%Z) sections).
Proof.
  split; [apply sortByOrder_perm|]. split.
  - apply ascending_lookup, sortByOrder_ascending.
  - intros k. unfold sortByOrder. induction sections as [|x l IH]; [reflexivity|].
    cbn [List.fold_right]. rewrite insertByOrder_filter. cbn [List.filter].
    rewrite IH. reflexivity.
Qed.

End SortFacts.

(** ** The entries of the table of contents *)

Section TocEntries.
Import Toc.

Variables (lib : PdfLib) (opts : Options).

Lemma tocEntriesFrom_app (a b : list DrawOp) :
  forall pending,
  tocEntriesFrom pending (a ++ b)
  = tocEntriesFrom pending a ++ tocEntriesFrom (pendingAfter pending a) b.
Proof.
  induction a as [|op a IH]; intros pending; [reflexivity|].
  destruct op as [t x y sz f| | | | | |]; cbn [app tocEntriesFrom pendingAfter];
    try apply IH.
  destruct f; try apply IH.
  destruct pending; cbn [app]; rewrite IH; reflexivity.
Qed.

Lemma pendingAfter_app (a b : list DrawOp) :
  forall pending,
  pendingAfter pending (a ++ b) = pendingAfter (pendingAfter pending a) b.
Proof.
  induction a as [|op a IH]; intros pending; [reflexivity|].
  destruct op as [t x y sz f| | | | | |]; cbn [app pendingAfter]; try apply IH.
  destruct f; apply IH.
Qed.

Lemma tocState_draw (op : DrawOp) (s : St) E P :
  tocState s E P ->
  tocState (draw op s) (E ++ tocEntriesFrom P [op]) (pendingAfter P [op]).
Proof.
  intros (front & last & Hd & Hc & HE & HP).
  exists front, (drawOn op last). unfold draw, drawOnPage. cbn [doc currentPage].
  rewrite Hd, Hc. split; [|split; [reflexivity|split]].
  - rewrite alter_app_r_alt by lia.
    rewrite Nat.sub_diag. reflexivity.
  - change (tocEntries (drawOn op last))
      with (tocEntriesFrom None (page_ops last ++ [op])).
    rewrite tocEntriesFrom_app, HP.
    change (tocEntriesFrom None (page_ops last)) with (tocEntries last).
    rewrite app_assoc, HE. reflexivity.
  - unfold drawOn. cbn [page_ops]. rewrite pendingAfter_app, HP. reflexivity.
Qed.

Lemma tocState_advance (h : Q) (s : St) E P :
  tocState s E P -> tocState (advance h s) E P.
Proof. intros H. exact H. Qed.

Lemma tocState_newPageBelow (limit : Q) (s : St) E P :
  tocState s E P ->
  tocState (newPageBelow lib opts limit s) E P
  \/ tocState (newPageBelow lib opts limit s) E None.
Proof.
  intros H. unfold newPageBelow. destruct (Qltb (pos s) limit); [right | left; exact H].
  destruct H as (front & last & Hd & Hc & HE & HP).
  exists (front ++ [last]), (newPage lib []). cbn [doc currentPage].
  rewrite Hd. split; [reflexivity|]. split; [reflexivity|]. split; [|reflexivity].
  rewrite flat_map_app. cbn. rewrite !app_nil_r. exact HE.
Qed.

Lemma tocState_dots (x1 y x2 : Q) (s : St) E P :
  tocState s E P -> tocState (drawDottedLine x1 y x2 s) E P.
Proof.
  unfold drawDottedLine. generalize (dottedXs x1 x2). intros l. revert s.
  induction l as [|x l IH]; intros s H; [exact H|].
  cbn [List.fold_left]. apply IH.
  pose proof (tocState_draw (DrawCircle x y 1) s E P H) as D.
  cbn in D. rewrite app_nil_r in D. exact D.
Qed.

Lemma tocState_lineItems (items : list LineItem) (s : St) E :
  tocState s E None ->
  tocState
    (List.fold_left
       (fun s lineItem =>
          let s := newPageBelow lib opts (margin opts + 30) s in
          let lineItemText :=
            bullet ++ match name lineItem with
                      | Some n => n
                      | None => js "undefined"
                      end in
          let s := draw (DrawText lineItemText (margin opts + 20) (pos s)
                           (fontSize opts - 2) TimesRoman) s in
          advance (lineHeight opts - 5) s)
       items s) E None.
Proof.
  revert s. induction items as [|li items IH]; intros s H; [exact H|].
  cbn [List.fold_left]. apply IH. apply tocState_advance.
  assert (H' : tocState (newPageBelow lib opts (margin opts + 30) s) E None).
  { destruct (tocState_newPageBelow (margin opts + 30) s E None H); assumption. }
  pose proof (tocState_draw
    (DrawText (bullet ++ match name li with Some n => n | None => js "undefined" end)
       (margin opts + 20) (pos (newPageBelow lib opts (margin opts + 30) s))
       (fontSize opts - 2) TimesRoman) _ E None H') as D.
  cbn [tocEntriesFrom pendingAfter] in D. rewrite app_nil_r in D. exact D.
Qed.

Lemma tocState_sectionEntry (s : St) (entry : nat * Section) E P :
  tocState s E P ->
  tocState (sectionEntry lib opts s entry)
    (E ++ [tocEntryOf (sectionPageMap opts) entry]) None.
Proof.
  intros H. destruct entry as [i section]. unfold sectionEntry. cbv zeta.
  assert (H1 : exists P1, tocState (newPageBelow lib opts (margin opts + 50) s) E P1).
  { destruct (tocState_newPageBelow (margin opts + 50) s E P H); eauto. }
  destruct H1 as [P1 H1].
  set (s1 := newPageBelow lib opts (margin opts + 50) s) in *.
  match goal with
  | |- context [draw (DrawText ?t ?x ?y ?sz TimesRomanBold) s1] =>
      pose proof (tocState_draw (DrawText t x y sz TimesRomanBold) s1 E P1 H1) as H2;
      set (s2 := draw (DrawText t x y sz TimesRomanBold) s1) in *
  end.
  cbn [tocEntriesFrom pendingAfter] in H2. rewrite app_nil_r in H2.
  match goal with
  | |- context [drawDottedLine ?a ?b ?c s2] =>
      pose proof (tocState_dots a b c s2 _ _ H2) as H3;
      set (s3 := drawDottedLine a b c s2) in *
  end.
  match goal with
  | |- context [draw (DrawText ?t ?x ?y ?sz TimesRoman) s3] =>
      pose proof (tocState_draw (DrawText t x y sz TimesRoman) s3 _ _ H3) as H4;
      set (s4 := draw (DrawText t x y sz TimesRoman) s3) in *
  end.
  cbn [tocEntriesFrom pendingAfter] in H4.
  apply tocState_advance with (h := lineHeight opts) in H4.
  destruct (includeLineItems opts && nonEmpty (lineItems section)).
  - apply tocState_advance. apply tocState_lineItems. exact H4.
  - exact H4.
Qed.

Lemma tocState_sections (l : list (nat * Section)) :
  forall (s : St) E P,
  tocState s E P ->
  exists P',
    tocState (List.fold_left (sectionEntry lib opts) l s)
      (E ++ List.map (tocEntryOf (sectionPageMap opts)) l) P'.
Proof.
  induction l as [|e l IH]; intros s E P H; cbn [List.fold_left List.map].
  - exists P. rewrite app_nil_r. exact H.
  - destruct (IH _ _ _ (tocState_sectionEntry s e E P H)) as [P' H'].
    exists P'. rewrite <- app_assoc in H'. exact H'.
Qed.

Lemma tocEntries_createTableOfContents (sections : list Section) :
  let sorted := sortByOrder sections in
  List.flat_map tocEntries (createTableOfContents lib sections opts)
  = List.map (tocEntryOf (sectionPageMap opts))
      (List.combine (List.seq 0 (List.length sorted)) sorted).
Proof.
  intros sorted. unfold createTableOfContents. cbv zeta. fold sorted.
  match goal with
  | |- context [List.fold_left _ _ ?s0] =>
      assert (H0 : tocState s0 [] (Some (tocTitle opts)))
  end.
  { eexists [], _. cbn [doc currentPage draw advance drawOnPage].
    split; [reflexivity|]. split; [reflexivity|]. split; reflexivity. }
  destruct (tocState_sections
              (List.combine (List.seq 0 (List.length sorted)) sorted) _ _ _ H0)
    as (P' & front & last & Hd & _ & HE & _).
  rewrite Hd, flat_map_app. cbn [List.flat_map]. rewrite app_nil_r. exact HE.
Qed.

End TocEntries.

Section TocListing.

Variables (lib : PdfLib) (opts : Toc.Options).


End TocListing.

(** ** The heights of the table of contents *)

Section TocHeights.
Import Toc.

Variables (lib : PdfLib) (opts : Options).
Hypothesis tall : 2 * margin opts + 50 <= pageHeight lib.

Local Abbreviation inMargins := (textAtOrAbove (margin opts + 30)).

Lemma newPageBelow_drawn (limit : Q) (s : St) :
  allDrawn inMargins (doc s) -> allDrawn inMargins (doc (newPageBelow lib opts limit s)).
Proof.
  intros H. unfold newPageBelow. destruct (Qltb (pos s) limit); [|exact H].
  cbn [doc]. apply addPage_allDrawn; [constructor | exact H].
Qed.

Lemma newPageBelow_room (limit : Q) (s : St) :
  limit <= margin opts + 50 -> limit <= pos (newPageBelow lib opts limit s).
Proof.
  intros Hl. unfold newPageBelow. destruct (Qltb (pos s) limit) eqn:E.
  - cbn [pos]. lra.
  - apply Qltb_false in E. exact E.
Qed.

Lemma drawDottedLine_drawn (x1 y x2 : Q) (s : St) :
  allDrawn inMargins (doc s) -> allDrawn inMargins (doc (drawDottedLine x1 y x2 s)).
Proof.
  unfold drawDottedLine. apply fold_allDrawn. intros s1 x _.
  apply draw_allDrawn. exact I.
Qed.

Lemma pos_drawDottedLine (x1 y x2 : Q) (s : St) :
  pos (drawDottedLine x1 y x2 s) = pos s.
Proof.
  unfold drawDottedLine. generalize (dottedXs x1 x2). intros l. revert s.
  induction l as [|x l IH]; intros s; [reflexivity|].
  cbn [List.fold_left]. rewrite IH. reflexivity.
Qed.

Lemma sectionEntry_drawn (s : St) (entry : nat * Section) :
  allDrawn inMargins (doc s) -> allDrawn inMargins (doc (sectionEntry lib opts s entry)).
Proof.
  intros H. destruct entry as [i section]. unfold sectionEntry. cbv zeta.
  pose proof (newPageBelow_room (margin opts + 50) s (Qle_refl _)) as R.
  pose proof (newPageBelow_drawn (margin opts + 50) s H) as H1.
  set (s1 := newPageBelow lib opts (margin opts + 50) s) in *.
  match goal with
  | |- context [advance (lineHeight opts) ?s4] =>
      assert (H4 : allDrawn inMargins (doc (advance (lineHeight opts) s4)))
  end.
  { cbn [advance doc]. apply draw_allDrawn.
    - cbn [textAtOrAbove]. rewrite pos_drawDottedLine. cbn [draw pos]. lra.
    - apply drawDottedLine_drawn. apply draw_allDrawn; [|exact H1].
      cbn [textAtOrAbove]. lra. }
  destruct (includeLineItems opts && nonEmpty (lineItems section)); [|exact H4].
  cbn [advance doc]. apply fold_allDrawn; [|exact H4].
  intros s2 li _ H2. cbn [advance doc]. apply draw_allDrawn.
  - cbn [textAtOrAbove]. apply newPageBelow_room. lra.
  - apply newPageBelow_drawn. exact H2.
Qed.

(** X14. On pages at least [2 * margin + 50] high, the table of
    contents draws no text lower than [margin + 30]: a page is added
    before an entry would go below [margin + 50], and before a line
    item would go below [margin + 30]. *)
Theorem toc_texts_above_margin (sections : list Section) :
  allDrawn (textAtOrAbove (margin opts + 30))
    (createTableOfContents lib sections opts).
Proof.
  unfold createTableOfContents. cbv zeta.
  apply fold_allDrawn; [intros s x _; apply sectionEntry_drawn|].
  cbn [advance doc]. apply draw_allDrawn; [exact I|].
  cbn [advance doc]. apply draw_allDrawn.
  - unfold textAtOrAbove. cbn [pos]. lra.
  - unfold allDrawn. cbn. constructor.
Qed.

End TocHeights.

Lemma toc_texts_above_margin_witness :
  allDrawn (textAtOrAbove (50 + 30))
    (Toc.createTableOfContents sampleLib
       (List.map bareSection (List.seq 1 40)) (Report.tocOptions ∅)).
Proof.
  apply (toc_texts_above_margin sampleLib (Report.tocOptions ∅)).
  vm_compute. discriminate.
Defined.

(** ** The badges of a comment *)

Section BadgeFacts.
Import CompleteReport.

Lemma startsWith_refl (s : jstring) : startsWith s s = true.
Proof.
  unfold startsWith. apply bool_decide_eq_true. apply List.firstn_all.
Qed.

Lemma includes_refl (s : jstring) : includes s s = true.
Proof. destruct s; cbn [includes]; rewrite startsWith_refl; reflexivity. Qed.

(** X15. The badges of a comment of the complete report: at most two;
    the badge RECOMMENDATION at most once; and a comment with a
    recommendation always has a badge that names it, its own tag when
    that contains the word, the badge RECOMMENDATION otherwise. *)
Theorem tagsToDisplay_badges (c : Comment) :
  (List.length (tagsToDisplay c) <= 2)%nat
  /\ (List.length
        (List.filter (fun t => bool_decide (t = js "RECOMMENDATION")) (tagsToDisplay c))
      <= 1)%nat
  /\ (hasRecommendation c = true ->
      exists t, In t (tagsToDisplay c) /\ includes t (js "RECOMMENDATION") = true).
Proof.
  unfold tagsToDisplay.
  destruct (optTruthy (tag c)); destruct (hasRecommendation c);
    cbn [app List.length negb];
    try destruct (includes _ (js "RECOMMENDATION")) eqn:E;
    cbn [app List.length negb List.filter].
  all: repeat match goal with
       | |- context [bool_decide (?a = ?b)] =>
           let e := fresh "e" in destruct (bool_decide_reflect (a = b)) as [e|e]
       end.
  all: cbn [List.length].
  all: repeat split; try lia; try discriminate.
  all: try (intros _; eexists; split; [left; reflexivity | first [exact E | apply includes_refl]]).
  all: try (intros _; eexists; split; [right; left; reflexivity | apply includes_refl]).
  all: try (rewrite e, includes_refl in E; discriminate).
Qed.

End BadgeFacts.

(** ** The size of an image in the complete report *)

Section FitBoxFacts.
Import CompleteReport.

Lemma Qdiv_mult_cancel (a b : Q) : 0 < b -> (a / b) * b == a.
Proof. intros Hb. field. lra. Qed.

Lemma Qmult_lt_cancel (x y c : Q) : 0 < c -> x * c < y * c -> x < y.
Proof. intros Hc H. nra. Qed.

Lemma Qmult_le_cancel (x y c : Q) : 0 < c -> x * c <= y * c -> x <= y.
Proof. intros Hc H. nra. Qed.



End FitBoxFacts.

(** ** The placeholder page of a video *)

Section VideoPages.
Import CompleteReport.

Variables (lib : PdfLib) (world : World) (opts : Options).

Lemma pageSizes_drawS (op : DrawOp) (s : SecSt) :
  pageSizes (pdfDoc (drawS op s)) = pageSizes (pdfDoc s).
Proof.
  unfold drawS, drawOnPage, pageSizes. cbn [pdfDoc].
  generalize (page s). induction (pdfDoc s) as [|p d IH]; intros i; [reflexivity|].
  destruct i as [|i]; cbn; [reflexivity|]. f_equal. apply IH.
Qed.

Lemma pageSizes_drawAllS (ops : list DrawOp) (s : SecSt) :
  pageSizes (pdfDoc (drawAllS ops s)) = pageSizes (pdfDoc s).
Proof.
  unfold drawAllS. revert s. induction ops as [|op ops IH]; intros s; [reflexivity|].
  cbn [List.fold_left]. rewrite IH. apply pageSizes_drawS.
Qed.

Lemma pageSizes_createNewPage (s : SecSt) :
  pageSizes (pdfDoc (createNewPage lib opts s))
  = pageSizes (pdfDoc s) ++ [(pageWidth lib, pageHeight lib)].
Proof. unfold createNewPage, pageSizes. cbn [pdfDoc]. rewrite List.map_app. reflexivity. Qed.

Lemma pageSizes_createVideoPlaceholder (w h : Q) (s : SecSt) :
  pageSizes (pdfDoc (createVideoPlaceholder lib w h s))
  = pageSizes (pdfDoc s) ++ [(w, h)].
Proof.
  unfold createVideoPlaceholder, pageSizes. cbn [pdfDoc]. rewrite List.map_app. reflexivity.
Qed.

(** The loop of [drawTwoGrid]: pages are only added, and each video
    adds one page of 320 by 240. *)
Lemma twoGrid_loop_sizes (f : SecSt * Q -> nat * MediaItem -> SecSt * Q)
    (items : list (nat * MediaItem)) :
  (forall s b i item,
     exists more,
       pageSizes (pdfDoc (fst (f (s, b) (i, item)))) = pageSizes (pdfDoc s) ++ more
       /\ (forall v, item = VideoItem v -> In (320, 240) more)) ->
  forall s b,
  exists more,
    pageSizes (pdfDoc (fst (List.fold_left f items (s, b)))) = pageSizes (pdfDoc s) ++ more
    /\ (forall i v, In (i, VideoItem v) items -> In (320, 240) more).
Proof.
  intros Hf. induction items as [|[i item] items IH]; intros s b; cbn [List.fold_left].
  - exists []. rewrite app_nil_r. split; [reflexivity | intros i v []].
  - destruct (Hf s b i item) as (m1 & E1 & V1).
    destruct (f (s, b) (i, item)) as [s1 b1]. cbn [fst] in E1.
    destruct (IH s1 b1) as (m2 & E2 & V2).
    exists (m1 ++ m2). rewrite E2, E1, app_assoc. split; [reflexivity|].
    intros i' v [H|H]; apply in_app_iff.
    + injection H as _ ->. left. apply (V1 v). reflexivity.
    + right. apply (V2 i' v H).
Qed.

Lemma drawTwoGrid_sizes (c : Comment) (s : SecSt) :
  exists more,
    pageSizes (pdfDoc (drawTwoGrid lib world opts c s)) = pageSizes (pdfDoc s) ++ more
    /\ (forall v, In (VideoItem v) (List.firstn 2 (mediaItems c)) -> In (320, 240) more).
Proof.
  unfold drawTwoGrid. cbv zeta.
  match goal with
  | |- context [List.fold_left ?f ?l (s, 0)] =>
      destruct (twoGrid_loop_sizes f l) with (s := s) (b := 0) as (more & E & V);
      [ | revert E; destruct (List.fold_left f l (s, 0)) as [s' m]; cbn [fst];
          intros E; exists more; split; [exact E|] ]
  end.
  - intros s1 b i item. destruct item as [photo|video].
    + destruct (loadImage lib world (photo_url photo)) as [image|].
      * destruct (fitBox (35 # 100) _ 200 image) as [w h].
        destruct (Qltb (currentY s1) (h + 50)); cbn [fst];
          rewrite pageSizes_drawS, pageSizes_drawAllS.
        -- rewrite pageSizes_createNewPage. eexists. split; [reflexivity | discriminate].
        -- exists []. rewrite app_nil_r. split; [reflexivity | discriminate].
      * exists []. rewrite app_nil_r. split; [reflexivity | discriminate].
    + destruct (Qltb (currentY (createVideoPlaceholder lib 320 240 s1)) (200 + 50));
        cbn [fst]; rewrite pageSizes_drawS, pageSizes_drawAllS.
      * rewrite pageSizes_createNewPage, pageSizes_createVideoPlaceholder, <- app_assoc.
        eexists. split; [reflexivity|]. intros v _. left. reflexivity.
      * rewrite pageSizes_createVideoPlaceholder.
        eexists. split; [reflexivity|]. intros v _. left. reflexivity.
  - intros v Hv.
    apply list_elem_of_In, list_elem_of_lookup_1 in Hv. destruct Hv as [k Hk].
    apply (V (0 + k)%nat v).
    apply list_elem_of_In. apply (list_elem_of_lookup_2 _ k).
    apply lookup_entries. exact Hk.
Qed.

(** X17. A comment with two photos or videos, one of them a video:
    drawing its media adds a page of 320 by 240 to the document for
    the video (the page that [createVideoPlaceholder] creates), beside
    the pages of the report, none of which is removed or resized. *)
Theorem video_adds_placeholder_page (c : Comment) (v : Video) (y1 y2 : Q) (s : SecSt) :
  includeImages opts = true ->
  (List.length (elements (photos c)) + List.length (elements (videos c)) = 2)%nat ->
  In v (elements (videos c)) ->
  exists more,
    pageSizes (pdfDoc (drawMedia lib world opts c y1 y2 s)) = pageSizes (pdfDoc s) ++ more
    /\ In (320, 240) more.
Proof.
  intros Hi Hn Hv. unfold drawMedia. rewrite Hi.
  assert (Hh : hasVideos c = true).
  { unfold hasVideos, nonEmpty. destruct (videos c) as [[|v0 vs]|]; [destruct Hv | reflexivity | destruct Hv]. }
  rewrite Hh, orb_true_r. cbn [andb]. cbv zeta. rewrite Hn. cbn [Nat.eqb andb].
  destruct (drawTwoGrid_sizes c s) as (more & E & V).
  exists more. split; [exact E|]. apply (V v).
  rewrite List.firstn_all2.
  - unfold mediaItems. apply in_app_iff. right. apply List.in_map. exact Hv.
  - unfold mediaItems. rewrite length_app, !length_map. lia.
Qed.

End VideoPages.

Lemma video_adds_placeholder_page_witness :
  let s := CompleteReport.mkSecSt [newPage sampleLib []] 0 700 (Some 3%nat) in
  exists more,
    pageSizes (CompleteReport.pdfDoc
                 (CompleteReport.drawMedia sampleLib offlineWorld
                    CompleteReport.defaultOptions mediaComment 700 680 s))
    = pageSizes (CompleteReport.pdfDoc s) ++ more
    /\ In (320, 240) more.
Proof.
  intros s.
  apply (video_adds_placeholder_page sampleLib offlineWorld
           CompleteReport.defaultOptions mediaComment
           {| video_url := Some (js "http://host/v.mp4") |} 700 680 s).
  - reflexivity.
  - reflexivity.
  - left. reflexivity.
Defined.

(** ** The pages of a section of the complete report *)

Section ExtendsFacts.
Import CompleteReport.

Variable n : nat.

Lemma extends_refl (s : SecSt) : extends n s s.
Proof.
  intros H. split; [exact H|]. split; [reflexivity|].
  intros p Hp. exists p, []. rewrite app_nil_r. auto.
Qed.

Lemma extends_trans (s1 s2 s3 : SecSt) :
  extends n s1 s2 -> extends n s2 s3 -> extends n s1 s3.
Proof.
  intros A B H. destruct (A H) as (A1 & A2 & A3). destruct (B A1) as (B1 & B2 & B3).
  split; [exact B1|]. split; [congruence|].
  intros p Hp. destruct (A3 p Hp) as (p' & m & Hp' & E).
  destruct (B3 p' Hp') as (p'' & m' & Hp'' & E').
  exists p'', (m ++ m'). split; [exact Hp''|]. rewrite E', E, app_assoc. reflexivity.
Qed.

Lemma drawS_extends (op : DrawOp) (s0 s : SecSt) :
  extends n s0 s -> extends n s0 (drawS op s).
Proof.
  intros H. apply (extends_trans _ _ _ H). clear. intros [H1 H2].
  unfold drawS, drawOnPage. cbn [pdfDoc page]. rewrite length_alter.
  split; [lia|]. split.
  - apply list_eq. intros i. rewrite !lookup_take.
    destruct (decide (i < n)%nat) as [Hi|Hi]; [|reflexivity].
    apply list_lookup_alter_ne. lia.
  - intros p Hp. destruct (decide (page s = n)) as [E|E].
    + exists (drawOn op p), [op]. rewrite E, list_lookup_alter_eq, Hp. auto.
    + exists p, []. rewrite list_lookup_alter_ne by exact E. rewrite app_nil_r. auto.
Qed.

Lemma down_extends (h : Q) (s0 s : SecSt) :
  extends n s0 s -> extends n s0 (down h s).
Proof. intros H. apply (extends_trans _ _ _ H). exact (extends_refl s). Qed.

Lemma setY_extends (y : Q) (s0 s : SecSt) :
  extends n s0 s -> extends n s0 (setY y s).
Proof. intros H. apply (extends_trans _ _ _ H). exact (extends_refl s). Qed.

Lemma addPage_extends (p : Page) (s : SecSt) (pg : nat) (y : Q) (pn : option nat) :
  (pg = page s \/ pg = List.length (pdfDoc s)) ->
  extends n s (mkSecSt (pdfDoc s ++ [p]) pg y pn).
Proof.
  intros Hpg [H1 H2]. cbn [pdfDoc page]. rewrite length_app. cbn [List.length].
  split; [lia|]. split.
  - rewrite List.firstn_app. replace (n - List.length (pdfDoc s))%nat with 0%nat by lia.
    cbn. rewrite app_nil_r. reflexivity.
  - intros q Hq. exists q, []. rewrite app_nil_r. split; [|reflexivity].
    rewrite lookup_app_l by lia. exact Hq.
Qed.

Lemma createNewPage_extends (lib : PdfLib) (opts : Options) (s0 s : SecSt) :
  extends n s0 s -> extends n s0 (createNewPage lib opts s).
Proof.
  intros H. apply (extends_trans _ _ _ H). unfold createNewPage.
  apply addPage_extends. right. reflexivity.
Qed.

Lemma createVideoPlaceholder_extends (lib : PdfLib) (w h : Q) (s0 s : SecSt) :
  extends n s0 s -> extends n s0 (createVideoPlaceholder lib w h s).
Proof.
  intros H. apply (extends_trans _ _ _ H). unfold createVideoPlaceholder.
  apply addPage_extends. left. reflexivity.
Qed.

Lemma newPageBelow_extends (lib : PdfLib) (opts : Options) (limit : Q) (s0 s : SecSt) :
  extends n s0 s -> extends n s0 (newPageBelow lib opts limit s).
Proof.
  intros H. unfold newPageBelow. destruct (Qltb (currentY s) limit); [|exact H].
  apply createNewPage_extends. exact H.
Qed.

Lemma fold_extends {A : Type} (f : SecSt -> A -> SecSt) (l : list A) :
  (forall s x, extends n s (f s x)) ->
  forall s0 s, extends n s0 s -> extends n s0 (List.fold_left f l s).
Proof.
  intros Hf. induction l as [|x l IH]; intros s0 s H; simpl; [exact H|].
  apply IH. apply (extends_trans _ _ _ H). apply Hf.
Qed.

Lemma drawAllS_extends (ops : list DrawOp) (s0 s : SecSt) :
  extends n s0 s -> extends n s0 (drawAllS ops s).
Proof.
  intros H. unfold drawAllS. apply fold_extends; [|exact H].
  intros s1 op. apply drawS_extends, extends_refl.
Qed.

Lemma fold_pair_extends {A B : Type} (f : SecSt * B -> A -> SecSt * B) (l : list A) :
  (forall s b x, extends n s (fst (f (s, b) x))) ->
  forall s0 s b, extends n s0 s -> extends n s0 (fst (List.fold_left f l (s, b))).
Proof.
  intros Hf. induction l as [|x l IH]; intros s0 s b H; cbn [List.fold_left]; [exact H|].
  specialize (Hf s b x). destruct (f (s, b) x) as [s' b'].
  apply IH. apply (extends_trans _ _ _ H). exact Hf.
Qed.

End ExtendsFacts.

Create HintDb extends.
#[local] Hint Resolve extends_refl drawS_extends down_extends setY_extends
  createNewPage_extends createVideoPlaceholder_extends newPageBelow_extends
  drawAllS_extends : extends.

Section SectionPageExtends.
Import CompleteReport.

Variables (n : nat) (lib : PdfLib) (world : World) (opts : Options).

Lemma drawTags_extends (tags : list jstring) (s0 s : SecSt) :
  extends n s0 s -> extends n s0 (drawTags lib opts tags s).
Proof.
  intros H. unfold drawTags. apply fold_pair_extends; [|exact H].
  intros s1 b t. cbn [fst]. auto with extends.
Qed.

Lemma drawCommentHeader_extends (c : Comment) (s0 s : SecSt) :
  extends n s0 s -> extends n s0 (drawCommentHeader lib opts c s).
Proof.
  intros H. unfold drawCommentHeader. apply fold_extends; [|exact H].
  intros s1 [i line]. apply down_extends.
  destruct (i =? 0)%nat; [apply drawTags_extends|]; auto with extends.
Qed.

Lemma drawCommentText_extends (c : Comment) (w : Q) (s0 s : SecSt) :
  extends n s0 s -> extends n s0 (drawCommentText lib opts c w s).
Proof.
  intros H. unfold drawCommentText.
  destruct (truthy (commentTextOf c) && truthy (Text.trim (commentTextOf c)));
    [|exact H].
  apply fold_extends; [|exact H]. intros s1 textLine.
  apply fold_extends; [|apply extends_refl]. intros s2 line.
  auto with extends.
Qed.

Lemma drawSingleImage_extends (c : Comment) (y1 y2 : Q) (s0 s : SecSt) :
  extends n s0 s -> extends n s0 (drawSingleImage lib world opts c y1 y2 s).
Proof.
  intros H. unfold drawSingleImage.
  destruct (elements (photos c)) as [|photo rest]; [exact H|].
  destruct (loadImage lib world (photo_url photo)) as [image|]; [|exact H].
  destruct (fitBox (1 # 4) 170 200 image) as [w h]. auto with extends.
Qed.

Lemma drawTwoGrid_extends (c : Comment) (s0 s : SecSt) :
  extends n s0 s -> extends n s0 (drawTwoGrid lib world opts c s).
Proof.
  intros H. unfold drawTwoGrid. cbv zeta.
  match goal with
  | |- context [List.fold_left ?f ?l (s, 0)] =>
      assert (F : extends n s0 (fst (List.fold_left f l (s, 0))));
      [ apply fold_pair_extends; [|exact H]
      | revert F; destruct (List.fold_left f l (s, 0)) as [s' m]; cbn [fst];
        intros F; apply down_extends; exact F ]
  end.
  intros s1 b [i mediaItem]. destruct mediaItem as [photo|video].
  - destruct (loadImage lib world (photo_url photo)) as [image|]; [|apply extends_refl].
    destruct (fitBox (35 # 100) _ 200 image) as [w h].
    destruct (Qltb (currentY s1) (h + 50)); cbn [fst]; auto 10 with extends.
  - destruct (Qltb (currentY (createVideoPlaceholder lib 320 240 s1)) (200 + 50));
      cbn [fst]; auto 10 with extends.
Qed.

Lemma gridStep_extends (g : GridSt) (entry : nat * MediaItem) :
  extends n (g_s g) (g_s (gridStep lib world opts g entry)).
Proof.
  destruct entry as [i mediaItem]. unfold gridStep.
  destruct (gridItemSize lib world opts mediaItem) as [[w h]|]; [|apply extends_refl].
  cbv zeta.
  destruct (Qltb (currentY (g_s g)) (h + 50));
    match goal with
    | |- context [(3 <=? ?c)%nat] => destruct (3 <=? c)%nat
    end; cbn [g_s];
    destruct mediaItem as [photo|video];
    try destruct (loadImage lib world (photo_url photo));
    auto 10 with extends.
Qed.

Lemma drawThreeGrid_extends (c : Comment) (s0 s : SecSt) :
  extends n s0 s -> extends n s0 (drawThreeGrid lib world opts c s).
Proof.
  intros H. unfold drawThreeGrid. cbv zeta.
  match goal with
  | |- context [List.fold_left ?f ?l ?g0] =>
      assert (F : extends n s0 (g_s (List.fold_left f l g0)));
      [ generalize l; intros l';
        assert (G : extends n s0 (g_s g0)) by exact H;
        revert G; generalize g0; induction l' as [|e l' IH]; intros g G;
        [ exact G
        | cbn [List.fold_left]; apply IH;
          apply (extends_trans _ _ _ _ G); apply gridStep_extends ]
      | destruct (0 <? g_col (List.fold_left f l g0))%nat; auto with extends ]
  end.
Qed.

Lemma drawMedia_extends (c : Comment) (y1 y2 : Q) (s0 s : SecSt) :
  extends n s0 s -> extends n s0 (drawMedia lib world opts c y1 y2 s).
Proof.
  intros H. unfold drawMedia.
  destruct (includeImages opts && (hasPhotos c || hasVideos c)); [|exact H].
  cbv zeta.
  repeat match goal with
         | |- context [if ?b then _ else _] => destruct b
         end.
  - apply drawSingleImage_extends; exact H.
  - apply drawTwoGrid_extends; exact H.
  - apply drawThreeGrid_extends; exact H.
Qed.

Lemma renderComment_extends (s : SecSt) (c : Comment) :
  extends n s (renderComment lib world opts s c).
Proof.
  unfold renderComment. destruct (negb (hasAnyContent c)); [apply extends_refl|].
  cbv zeta.
  apply down_extends, drawS_extends, newPageBelow_extends, down_extends.
  apply drawMedia_extends.
  destruct (hasRecommendation c);
    [apply down_extends, drawS_extends|];
    apply drawCommentText_extends;
    (destruct (hasSelectedOptions c);
     [apply down_extends, drawS_extends|]);
    (destruct (optTruthy (location c));
     [apply down_extends, drawS_extends|]);
    apply down_extends, drawCommentHeader_extends; auto with extends.
Qed.

Lemma renderLineItem_extends (s : SecSt) (li : LineItem) :
  extends n s (renderLineItem lib world opts s li).
Proof.
  unfold renderLineItem.
  destruct (negb (nonEmpty (itemOptions li)) && negb (hasComments li));
    [apply extends_refl|].
  cbv zeta. apply down_extends.
  destruct (elements (comments li)) as [|c cs]; [auto with extends|].
  apply down_extends. apply fold_extends; [apply renderComment_extends|].
  auto with extends.
Qed.

End SectionPageExtends.

Section SectionPages.
Import CompleteReport.

Variables (lib : PdfLib) (world : World) (opts : Options).

Lemma generateSectionPage_extends (pageNumber : option nat) (section : Section)
    (d : list Page) :
  let title := toUpperCase (sectionName section) in
  exists (first : Page) (rest : list Page) (more : list DrawOp),
    generateSectionPage lib world opts pageNumber section d = d ++ first :: rest
    /\ page_ops first
       = (pageHeader lib opts pageNumber
          ++ [ DrawRectangle (margin opts) (pageHeight lib - 60 - 20 - 10)
                 (pageWidth lib - margin opts * 2) (20 + 10 * 2);
               DrawText title
                 ((pageWidth lib
                   - widthOfTextAtSize (fontOf lib TimesRomanBold) title 20) / 2)
                 (pageHeight lib - 60 - 10 - 20 / 2) 20 TimesRomanBold ])
         ++ more.
Proof.
  intros title. unfold generateSectionPage. cbv zeta. fold title.
  set (s0 := mkSecSt (d ++ [newPage lib (pageHeader lib opts pageNumber)])
               (List.length d) (pageHeight lib - 60) pageNumber).
  set (rect := DrawRectangle (margin opts) (currentY s0 - 20 - 10)
                 (pageWidth lib - margin opts * 2) (20 + 10 * 2)).
  set (s1 := drawS rect s0).
  set (text := DrawText title
                 ((pageWidth lib
                   - widthOfTextAtSize (fontOf lib TimesRomanBold) title 20) / 2)
                 (currentY s1 - 10 - 20 / 2) 20 TimesRomanBold).
  set (s2 := down (20 + 10 * 2 + 20) (drawS text s1)).
  match goal with
  | |- context [pdfDoc ?s] =>
      assert (E : extends (List.length d) s2 s)
  end.
  { repeat first [ apply drawS_extends | apply down_extends | apply newPageBelow_extends ].
    apply fold_extends; [apply renderLineItem_extends | apply extends_refl]. }
  assert (V : (List.length d <= page s2 < List.length (pdfDoc s2))%nat).
  { cbn. rewrite !length_alter, length_app. cbn. lia. }
  assert (D2 : pdfDoc s2
               = d ++ [mkPage (pageWidth lib) (pageHeight lib)
                         ((pageHeader lib opts pageNumber ++ [rect]) ++ [text])]).
  { unfold s2, s1, s0. cbn [down drawS pdfDoc page]. unfold drawOnPage.
    rewrite !alter_app_r_alt by lia. rewrite Nat.sub_diag. reflexivity. }
  destruct (E V) as (V' & F & P).
  match type of E with
  | extends _ _ ?s => set (sf := s) in *
  end.
  destruct (P (mkPage (pageWidth lib) (pageHeight lib)
                 ((pageHeader lib opts pageNumber ++ [rect]) ++ [text])))
    as (first & more & Hf & Hops).
  { rewrite D2. rewrite lookup_app_r by lia. rewrite Nat.sub_diag. reflexivity. }
  exists first, (List.skipn (S (List.length d)) (pdfDoc sf)), more.
  split.
  - rewrite <- (List.firstn_skipn (List.length d) (pdfDoc sf)) at 1.
    rewrite F, D2, List.firstn_app, List.firstn_all, Nat.sub_diag. cbn [List.firstn].
    rewrite app_nil_r. f_equal. apply drop_S. exact Hf.
  - rewrite Hops. cbn [page_ops]. rewrite <- (app_assoc _ [rect] [text]). reflexivity.
Qed.


End SectionPages.

(** ** The page numbers of the complete report *)

Section ReportPages.
Import CompleteReport.

Variables (lib : PdfLib) (world : World) (opts : Options).

(** One iteration of the loop over the sections: the pages of the
    section are appended, the first of them carries the title, and the
    map records the number of pages before them plus 2. *)
Lemma sectionStep_appends (d : list Page) (m : gmap (list N) nat)
    (i : nat) (section : Section) :
  exists (first : Page) (rest : list Page),
    Report.sectionStep lib world opts (d, m) (i, section)
    = (d ++ first :: rest,
       <[ Toc.sectionKey i section := (List.length d + 2)%nat ]> m)
    /\ showsTitle (toUpperCase (sectionName section)) first = true.
Proof.
  unfold Report.sectionStep. cbv zeta.
  destruct (generateSectionPage_extends lib world opts
              (<[Toc.sectionKey i section := (List.length d + 2)%nat]> m
                 !! Toc.sectionKey i section) section d)
    as (first & rest & more & E & Hops).
  exists first, rest. rewrite E. split; [reflexivity|].
  unfold showsTitle. rewrite Hops. rewrite !List.existsb_app. cbn [List.existsb].
  rewrite bool_decide_eq_true_2 by reflexivity.
  replace (Qeq_bool 20 20) with true by reflexivity.
  cbn. rewrite !orb_true_r. reflexivity.
Qed.

Lemma sectionSteps_prefix (l : list (nat * Section)) :
  forall (d : list Page) (m : gmap (list N) nat),
  exists more : list Page,
    fst (List.fold_left (Report.sectionStep lib world opts) l (d, m)) = d ++ more.
Proof.
  induction l as [|[i section] l IH]; intros d m; cbn [List.fold_left].
  - exists []. rewrite app_nil_r. reflexivity.
  - destruct (sectionStep_appends d m i section) as (first & rest & -> & _).
    destruct (IH (d ++ first :: rest)
                (<[Toc.sectionKey i section := (List.length d + 2)%nat]> m))
      as [more E].
    exists ((first :: rest) ++ more). rewrite E, <- app_assoc. reflexivity.
Qed.

(** The loop over the sections, at the section of position [j]: its
    first page is in the final document where the document ended when
    the loop reached it. *)
Lemma sectionSteps_page (l : list (nat * Section)) :
  forall (d : list Page) (m : gmap (list N) nat) (j i : nat) (section : Section),
  l !! j = Some (i, section) ->
  let before :=
    List.length (fst (List.fold_left (Report.sectionStep lib world opts)
                        (List.firstn j l) (d, m))) in
  exists p : Page,
    fst (List.fold_left (Report.sectionStep lib world opts) l (d, m)) !! before
    = Some p
    /\ showsTitle (toUpperCase (sectionName section)) p = true.
Proof.
  induction l as [|[i0 s0] l IH]; intros d m j i section Hj; [discriminate|].
  destruct j as [|j].
  - injection Hj as -> ->. cbn [List.firstn List.fold_left fst].
    destruct (sectionStep_appends d m i section) as (first & rest & -> & T).
    destruct (sectionSteps_prefix l (d ++ first :: rest)
                (<[Toc.sectionKey i section := (List.length d + 2)%nat]> m))
      as [more ->].
    exists first. split; [|exact T].
    rewrite <- app_assoc. rewrite lookup_app_r by lia.
    rewrite Nat.sub_diag. reflexivity.
  - cbn [List.firstn List.fold_left].
    destruct (sectionStep_appends d m i0 s0) as (first & rest & -> & _).
    apply (IH _ _ j i section Hj).
Qed.

(** The map after the loop: the section of position [j] has the
    number of pages before it plus 2, when no later section has its
    key. *)
Lemma sectionSteps_map (l : list (nat * Section)) :
  forall (d : list Page) (m : gmap (list N) nat) (j i : nat) (section : Section),
  l !! j = Some (i, section) ->
  NoDup (List.map (fun e => Toc.sectionKey (fst e) (snd e)) l) ->
  let before :=
    List.length (fst (List.fold_left (Report.sectionStep lib world opts)
                        (List.firstn j l) (d, m))) in
  snd (List.fold_left (Report.sectionStep lib world opts) l (d, m))
    !! Toc.sectionKey i section
  = Some (before + 2)%nat.
Proof.
  assert (Keep : forall (l : list (nat * Section)) d m k,
            ~ In k (List.map (fun e => Toc.sectionKey (fst e) (snd e)) l) ->
            snd (List.fold_left (Report.sectionStep lib world opts) l (d, m)) !! k
            = m !! k).
  { clear l. intros l. induction l as [|[i0 s0] l IH]; intros d m k Hk; [reflexivity|].
    cbn [List.fold_left].
    destruct (sectionStep_appends d m i0 s0) as (first & rest & -> & _).
    rewrite IH by (intros H; apply Hk; right; exact H).
    apply lookup_insert_ne. intros E. apply Hk. left. exact E. }
  induction l as [|[i0 s0] l IH]; intros d m j i section Hj Hnd; [discriminate|].
  apply NoDup_cons in Hnd. destruct Hnd as [Hhd Hnd].
  rewrite list_elem_of_In in Hhd.
  destruct j as [|j].
  - injection Hj as -> ->. cbn [List.firstn List.fold_left fst].
    destruct (sectionStep_appends d m i section) as (first & rest & -> & _).
    rewrite Keep by exact Hhd. apply lookup_insert_eq.
  - cbn [List.firstn List.fold_left].
    destruct (sectionStep_appends d m i0 s0) as (first & rest & -> & _).
    apply (IH _ _ j i section Hj Hnd).
Qed.


End ReportPages.

